(** * The query-and-transform compiler of [datadog_checks.base.utils.db]

    A shallow embedding of [query.py] ([Query.compile]) and [transform.py]
    (the transformer factories), followed by the properties the
    specification states about them.

    Python values are embedded as a tree type, dictionaries as insertion
    ordered association lists, exceptions as a class name with a message,
    and the calls a transformer makes into the submission sinks as a state
    and error monad over an abstract world.

    The configuration is what a YAML or JSON document gives: [None],
    booleans, integers, floats, texts ([str]), lists, and mappings whose
    keys are texts; no object occurs in it twice after the deep copy of
    [__init__].  A text is a sequence of one-byte characters.  Where the
    code changes a mapping of the configuration in place (the [pop]s of
    [_compile_match_items]), a function of the model returns, next to its
    outcome, the mapping as the code leaves it. *)

From Stdlib Require Import ZArith Ascii String List Lia DecimalString Sorted.
From stdpp Require Import base option list strings gmap.

Local Open Scope string_scope.
Set Warnings "-register-all".

(** ** Strings *)

(** The double quote and the single quote. *)
Definition dquote : string := String "034"%char EmptyString.
Definition squote : string := String "039"%char EmptyString.

Definition is_quote (c : ascii) : bool :=
  (Ascii.eqb c "034"%char || Ascii.eqb c "039"%char)%bool.

(** [str(i)] for an integer. *)
Definition str_of_Z (z : Z) : string := NilEmpty.string_of_int (Z.to_int z).
Definition str_of_nat (n : nat) : string := str_of_Z (Z.of_nat n).

(** [s.lower()], on the ASCII letters. *)
Definition lower_ascii (c : ascii) : ascii :=
  let n := nat_of_ascii c in
  if ((65 <=? n)%nat && (n <=? 90)%nat)%bool then ascii_of_nat (n + 32) else c.

Fixpoint lower (s : string) : string :=
  match s with
  | EmptyString => EmptyString
  | String c s' => String (lower_ascii c) (lower s')
  end.

(** [sep.join(l)] *)
Fixpoint join (sep : string) (l : list string) : string :=
  match l with
  | [] => ""
  | [x] => x
  | x :: l' => x +:+ sep +:+ join sep l'
  end.

(** Substring test, used to state what a message contains. *)
Fixpoint contains (needle hay : string) : bool :=
  (String.prefix needle hay ||
   match hay with
   | EmptyString => false
   | String _ hay' => contains needle hay'
   end)%bool.

(** How many times a text occurs in another. *)
Fixpoint occurrences (needle hay : string) : nat :=
  (if String.prefix needle hay then 1 else 0)
  + match hay with
    | EmptyString => 0
    | String _ hay' => occurrences needle hay'
    end.

(** [sorted(l)]: a stable insertion sort; [le x y] says that [x] may stay
    before a [y] that came after it. *)
Fixpoint insert_sorted {A : Type} (le : A -> A -> bool) (x : A) (l : list A)
  : list A :=
  match l with
  | [] => [x]
  | y :: l' => if le x y then x :: l else y :: insert_sorted le x l'
  end.

Definition sorted_by {A : Type} (le : A -> A -> bool) (l : list A) : list A :=
  fold_right (insert_sorted le) [] l.

(** The text left after the first [n] characters. *)
Fixpoint string_drop (n : nat) (s : string) : string :=
  match n, s with
  | S n', String _ s' => string_drop n' s'
  | _, _ => s
  end.

(** The characters of a text, each as a text. *)
Fixpoint chars (s : string) : list string :=
  match s with
  | EmptyString => []
  | String c s' => String c EmptyString :: chars s'
  end.

(** ** Exceptions and results *)

(** An exception is recorded by its class and by the text [str] gives for
    it.  Every class of the model derives from [Exception] and can be built
    from one message. *)
Inductive exc : Type := Exc (cls : string) (msg : string).

Definition ValueError (msg : string) : exc := Exc "ValueError" msg.

Inductive result (A : Type) : Type :=
| Ok (a : A)
| Raise (e : exc).
Arguments Ok {A} a.
Arguments Raise {A} e.

Definition rbind {A B} (r : result A) (k : A -> result B) : result B :=
  match r with
  | Ok a => k a
  | Raise e => Raise e
  end.

Definition is_ok {A} (r : result A) : bool :=
  match r with Ok _ => true | Raise _ => false end.

Definition raises {A} (r : result A) : Prop := exists e, r = Raise e.

(** Errors the interpreter raises by itself.  The wording of their text
    belongs to the interpreter and is a parameter of the model. *)
Inductive interp_error : Type :=
| MissingArgument (func : string) (params : list string)
| MultipleValues (func param : string)
| TooManyArguments (func : string)
| Unhashable (type_name : string)
| BadSubscript (type_name : string)
| NotIterable (type_name : string)
| NotCallable (type_name : string)
| NoLength (type_name : string)
| NotAString (type_name : string)
| NoAttribute (type_name attr : string)
| RecursionDepth.

Definition interp_class (e : interp_error) : string :=
  match e with
  | NoAttribute _ _ => "AttributeError"
  | RecursionDepth => "RecursionError"
  | _ => "TypeError"
  end.

(** The kind of entry that declared a name of the Source Table. *)
Inductive kind : Type := Column | Extra.

Definition kind_name (k : kind) : string :=
  match k with Column => "column" | Extra => "extra" end.

(** ** The interpreter *)

(** What the model leaves to Python itself.  Floating-point numbers are
    opaque ([float]): the compiler only asks whether one is zero and how it
    prints.  [interp_msg] words the interpreter's own errors and [key_repr]
    is [repr] on a text.  [world] is the state of the sinks the transforms
    submit to, [code] what the builtin [compile] returns, and
    [recursion_limit] the room on the call stack. *)
Class Interpreter : Type := {
  float : Type;
  float_truthy : float -> bool;
  float_str : float -> string;
  interp_msg : interp_error -> string;
  key_repr : string -> string;
  world : Type;
  code : Type;
  recursion_limit : nat;
}.

Section Values.

Context `{Interpreter}.

(** ** Python values *)

Inductive pyval : Type :=
| PNone
| PBool (b : bool)
| PInt (z : Z)
| PFloat (f : float)
| PStr (s : string)
| PList (l : list pyval)
| PDict (d : list (string * pyval)).

(** A mapping with string keys, in insertion order. *)
Definition dict : Type := list (string * pyval).

Definition type_name (v : pyval) : string :=
  match v with
  | PNone => "NoneType"
  | PBool _ => "bool"
  | PInt _ => "int"
  | PFloat _ => "float"
  | PStr _ => "str"
  | PList _ => "list"
  | PDict _ => "dict"
  end.

(** [bool(v)] *)
Definition py_truthy (v : pyval) : bool :=
  match v with
  | PNone => false
  | PBool b => b
  | PInt z => negb (z =? 0)%Z
  | PFloat f => float_truthy f
  | PStr s => negb (String.eqb s "")
  | PList l => match l with [] => false | _ => true end
  | PDict d => match d with [] => false | _ => true end
  end.

(** [str(v)], for the values that can be a dictionary key or a scalar
    option (it is never applied to a list or a mapping). *)
Definition py_str (v : pyval) : string :=
  match v with
  | PNone => "None"
  | PBool true => "True"
  | PBool false => "False"
  | PInt z => str_of_Z z
  | PFloat f => float_str f
  | PStr s => s
  | PList _ | PDict _ => ""
  end.

(** [isinstance(v, int)]: [bool] is a subclass of [int]. *)
Definition is_int (v : pyval) : bool :=
  match v with PInt _ | PBool _ => true | _ => false end.

(** *** Dictionaries *)

Fixpoint dict_get {A : Type} (k : string) (d : list (string * A)) : option A :=
  match d with
  | [] => None
  | (k', v) :: d' => if String.eqb k' k then Some v else dict_get k d'
  end.

(** [k in d] *)
Definition has_key {A : Type} (k : string) (d : list (string * A)) : bool :=
  match dict_get k d with Some _ => true | None => false end.

(** [d.get(k)] and [d.get(k, dflt)] *)
Definition get_or (dflt : pyval) (k : string) (d : dict) : pyval :=
  match dict_get k d with Some v => v | None => dflt end.
Definition get (k : string) (d : dict) : pyval := get_or PNone k d.

(** [d[k] = v]: an existing key keeps its place, a new one goes last. *)
Fixpoint dict_set {A : Type} (k : string) (v : A) (d : list (string * A))
  : list (string * A) :=
  match d with
  | [] => [(k, v)]
  | (k', v') :: d' =>
      if String.eqb k' k then (k', v) :: d' else (k', v') :: dict_set k v d'
  end.

(** The mapping without the keys of [ks]: [d.pop(k, None)] on a private
    mapping, and the comprehension [{k: v for k, v in d.items() if k
    not in ks}]. *)
Definition mem (k : string) (ks : list string) : bool :=
  existsb (String.eqb k) ks.

Definition without {A : Type} (ks : list string) (d : list (string * A))
  : list (string * A) :=
  List.filter (fun kv => negb (mem (fst kv) ks)) d.

(** [d1.update(d2)] *)
Definition dict_update (d1 d2 : dict) : dict :=
  fold_left (fun acc kv => dict_set (fst kv) (snd kv) acc) d2 d1.

(** A call that unpacks [d] as keyword arguments builds a fresh mapping
    whose values are the very objects of [d].  [post] holds those objects
    as the call left them; [writeback d post] is [d] seen after the call:
    same keys, each value as it now is. *)
Definition writeback (d post : dict) : dict :=
  map (fun kv => (fst kv, match dict_get (fst kv) post with
                          | Some v => v
                          | None => snd kv
                          end)) d.

Definition interp_raise (e : interp_error) : exc :=
  Exc (interp_class e) (interp_msg e).

(** [KeyError(key)] prints as the repr of its key. *)
Definition KeyError (key : string) : exc := Exc "KeyError" (key_repr key).

(** [str(e)] *)
Definition str_exc (e : exc) : string :=
  match e with Exc _ text => text end.

(** [type(e)(error)] *)
Definition reraise (e : exc) (error : string) : exc :=
  match e with
  | Exc cls _ => Exc cls (if String.eqb cls "KeyError" then key_repr error else error)
  end.

(** [container[key]] for a string key. *)
Definition getitem (container : pyval) (key : string) : result pyval :=
  match container with
  | PDict d => match dict_get key d with
               | Some v => Ok v
               | None => Raise (KeyError key)
               end
  | _ => Raise (interp_raise (BadSubscript (type_name container)))
  end.

(** [s in container] for a string [s]. *)
Definition py_contains (s : string) (container : pyval) : result bool :=
  match container with
  | PDict d => Ok (has_key s d)
  | PList l => Ok (existsb (fun v => match v with
                                     | PStr s' => String.eqb s' s
                                     | _ => false
                                     end) l)
  | PStr t => Ok (contains s t)
  | _ => Raise (interp_raise (NotIterable (type_name container)))
  end.

(** ** Calls *)

(** How a call with positional arguments [args] and keyword arguments
    [kwargs] fills the named parameters [params] of a function whose
    signature ends in a keyword catch-all and, when [varargs], has a
    positional catch-all before it: the values of the parameters in order,
    and what is left for the keyword catch-all.  Keywords are looked at
    first, then the number of positionals, then what is missing. *)
Definition bind_params (func : string) (params : list string) (varargs : bool)
    (args : list pyval) (kwargs : dict) : result (list pyval * dict) :=
  let by_position := take (length args) params in
  let by_keyword := drop (length args) params in
  match List.find (fun k => mem k by_position) (map fst kwargs) with
  | Some k => Raise (interp_raise (MultipleValues func k))
  | None =>
      if (negb varargs && (length params <? length args)%nat)%bool
      then Raise (interp_raise (TooManyArguments func))
      else match List.filter (fun p => negb (has_key p kwargs)) by_keyword with
           | [] => Ok ((take (length params) args
                        ++ map (fun p => get p kwargs) by_keyword)%list,
                       without params kwargs)
           | missing => Raise (interp_raise (MissingArgument func missing))
           end
  end.

(** ** The world of the submission sinks *)

(** What a transform does when it is called is a computation over the
    state of the sinks it submits to, which may raise. *)
Definition M (A : Type) : Type := world -> result A * world.

Definition ret {A : Type} (a : A) : M A := fun w => (Ok a, w).
Definition throw {A : Type} (e : exc) : M A := fun w => (Raise e, w).
Definition lift {A : Type} (r : result A) : M A := fun w => (r, w).
Definition bind {A B : Type} (m : M A) (k : A -> M B) : M B :=
  fun w => match m w with
           | (Ok a, w') => k a w'
           | (Raise e, w') => (Raise e, w')
           end.

Notation "'let!' x ':=' m 'in' k" := (bind m (fun x => k))
  (at level 10, x name, m at level 100, k at level 200).
Notation "m1 ';;' m2" := (bind m1 (fun _ => m2))
  (at level 100, m2 at level 200, right associativity).

(** A compiled transform: a callable taking positional and keyword
    arguments. *)
Definition transform : Type := list pyval -> dict -> M pyval.

(** What a registry holds: the six factories of [transform.py], and the
    factories the caller supplies (the submission methods), known by a
    number. *)
Inductive factory : Type :=
| get_tag_factory
| get_monotonic_gauge_factory
| get_temporal_percent_factory
| get_match_factory
| get_expression_factory
| get_percent_factory
| supplied (id : nat).

End Values.

(** ** Collaborators outside the files at hand *)

(** [is_affirmative], [str.format] with one argument, the time-unit table
    of [constants] and the two helpers of [common]; the builtins
    [compile(text, filename, 'eval')] and [eval] under [ALLOWED_GLOBALS]
    with the local [SOURCES]; and the factories the caller supplies.  A
    supplied factory is a function of its arguments: it may read the
    registry, and leaves the values it is given as they are. *)
Class Environment `{Interpreter} : Type := {
  is_affirmative : pyval -> bool;
  py_format : string -> pyval -> result string;
  TIME_UNITS : gmap string Z;
  total_time_to_temporal_percent : pyval -> pyval -> result pyval;
  compute_percent : pyval -> pyval -> result pyval;
  py_compile : string -> string -> result code;
  py_eval : code -> pyval -> M pyval;
  supplied_factory : nat -> string -> gmap string factory -> dict -> result transform;
}.

Section Model.

Context `{Environment}.

Notation "'let!' x ':=' m 'in' k" := (bind m (fun x => k))
  (at level 10, x name, m at level 100, k at level 200).
Notation "m1 ';;' m2" := (bind m1 (fun _ => m2))
  (at level 100, m2 at level 200, right associativity).

(** Modelled from the spec: [create_extra_transformer] of [utils.py], which
    is not among the files at hand.  With a source name the result takes
    the source map first, looks the name up in it and hands the value and
    what else it was given to the column transform; without one it takes
    the source map and the value already computed. *)
Definition create_extra_transformer (column_transformer : transform)
    (source : pyval) : transform :=
  fun args kwargs =>
    if py_truthy source then
      match bind_params "transformer" ["sources"] true args kwargs with
      | Raise e => throw e
      | Ok (vs, kwargs') =>
          match source with
          | PStr s =>
              let! v := lift (getitem (nth 0 vs PNone) s) in
              column_transformer (v :: drop 1 args) kwargs'
          | PList _ | PDict _ =>
              throw (interp_raise (Unhashable (type_name source)))
          | _ =>
              match nth 0 vs PNone with
              | PDict _ => throw (Exc "KeyError" (py_str source))
              | c => throw (interp_raise (BadSubscript (type_name c)))
              end
          end
      end
    else
      match bind_params "transformer" ["sources"; "value"] true args kwargs with
      | Raise e => throw e
      | Ok (vs, kwargs') => column_transformer (nth 1 vs PNone :: drop 2 args) kwargs'
      end.

(** ** The transforms of [transform.py] *)

(** The closure [tag] of [get_tag]. *)
Definition tag (template : string) (boolean : bool) : transform :=
  fun args kwargs =>
    match bind_params "tag" ["value"] true args kwargs with
    | Raise e => throw e
    | Ok (vs, _) =>
        let value := nth 0 vs PNone in
        let value := if boolean
                     then PStr (lower (py_str (PBool (is_affirmative value))))
                     else value in
        match py_format template value with
        | Ok s => ret (PStr s)
        | Raise e => throw e
        end
    end.

(** The closure [monotonic_gauge] of [get_monotonic_gauge]. *)
Definition monotonic_gauge (gauge monotonic_count : transform) : transform :=
  fun args kwargs =>
    match bind_params "monotonic_gauge" ["value"] true args kwargs with
    | Raise e => throw e
    | Ok (vs, kwargs') =>
        let value := nth 0 vs PNone in
        gauge [value] kwargs' ;;
        monotonic_count [value] kwargs' ;;
        ret PNone
    end.

(** The closure [temporal_percent] of [get_temporal_percent]. *)
Definition temporal_percent (rate : transform) (scale : pyval) : transform :=
  fun args kwargs =>
    match bind_params "temporal_percent" ["value"] true args kwargs with
    | Raise e => throw e
    | Ok (vs, kwargs') =>
        let! v := lift (total_time_to_temporal_percent (nth 0 vs PNone) scale) in
        rate [v] kwargs' ;;
        ret PNone
    end.

(** The closure [match] of [get_match]; [compiled_items] maps an item to
    its source name and its transform. *)
Definition match_ (compiled_items : list (string * (string * transform)))
  : transform :=
  fun args kwargs =>
    match bind_params "match" ["value"; "sources"] true args kwargs with
    | Raise e => throw e
    | Ok (vs, kwargs') =>
        let value := nth 0 vs PNone in
        let sources := nth 1 vs PNone in
        match value with
        | PList _ | PDict _ => throw (interp_raise (Unhashable (type_name value)))
        | PStr item =>
            match dict_get item compiled_items with
            | Some (source, transformer) =>
                let! v := lift (getitem sources source) in
                transformer [v] kwargs' ;;
                ret PNone
            | None => ret PNone
            end
        | _ => ret PNone
        end
    end.

(** The two closures [execute_expression] of [get_expression]. *)
Definition execute_expression (expression : code) (submit_method : option transform)
  : transform :=
  fun args kwargs =>
    match bind_params "execute_expression" ["sources"] false args kwargs with
    | Raise e => throw e
    | Ok (vs, kwargs') =>
        let sources := nth 0 vs PNone in
        match submit_method with
        | Some submit_method =>
            let! result := py_eval expression sources in
            submit_method [sources; result] kwargs' ;;
            ret result
        | None => py_eval expression sources
        end
    end.

(** The closure [percent] of [get_percent]. *)
Definition percent (gauge : transform) (part total : string) : transform :=
  fun args kwargs =>
    match bind_params "percent" ["sources"] false args kwargs with
    | Raise e => throw e
    | Ok (vs, kwargs') =>
        let sources := nth 0 vs PNone in
        let! p := lift (getitem sources part) in
        let! t := lift (getitem sources total) in
        let! v := lift (compute_percent p t) in
        gauge [sources; v] kwargs' ;;
        ret PNone
    end.

(** ** Source-name substitution of [get_expression] *)

(** What [SOURCE_PATTERN] matches at the head of [s], for the alternation
    of the escaped names [alternatives]: the first name, in the order of
    the alternation, that is a prefix of [s] and is not followed by a
    quote.  (The look-behind is checked by the caller.) *)
Definition next_is_quote (s : string) : bool :=
  match s with
  | String c _ => is_quote c
  | EmptyString => false
  end.

Definition match_here (alternatives : list string) (s : string) : option string :=
  List.find (fun a => (String.prefix a s
                       && negb (next_is_quote (string_drop (String.length a) s)))%bool)
            alternatives.

(** The replacement of a match: the indexed reference into the source map. *)
Definition reference (source : string) : string :=
  "SOURCES[" +:+ dquote +:+ source +:+ dquote +:+ "]".

(** [re.sub(SOURCE_PATTERN.format(alternation), replacement, s)] from left
    to right: [prev_quote] says whether the character before is a quote,
    [skip] counts the characters of the current match still to pass.  An
    empty match is replaced too; the search then goes on at the same place
    for a match that is not empty (Python 3.7 and later). *)
Fixpoint sub_sources (alternatives : list string) (prev_quote : bool) (skip : nat)
    (s : string) : string :=
  match s with
  | EmptyString =>
      match skip, (if prev_quote then None else match_here alternatives "") with
      | 0, Some a => reference a
      | _, _ => ""
      end
  | String c s' =>
      match skip with
      | S k => sub_sources alternatives (is_quote c) k s'
      | 0 =>
          let search := fun alts => if prev_quote then None else match_here alts s in
          let copy := String c (sub_sources alternatives (is_quote c) 0 s') in
          let replace := fun a =>
            reference a +:+ sub_sources alternatives (is_quote c) (String.length a - 1) s' in
          match search alternatives with
          | Some EmptyString =>
              reference "" +:+
              match search (List.filter (fun a => negb (String.eqb a "")) alternatives) with
              | Some b => replace b
              | None => copy
              end
          | Some a => replace a
          | None => copy
          end
      end
  end.

(** [len(v)] *)
Definition py_len (v : pyval) : option nat :=
  match v with
  | PStr s => Some (String.length s)
  | PList l => Some (length l)
  | PDict d => Some (length d)
  | _ => None
  end.

(** Iterating [available_sources]: the keys of a mapping, the items of a
    list, the characters of a text. *)
Definition py_iter (v : pyval) : result (list pyval) :=
  match v with
  | PDict d => Ok (map (fun kv => PStr (fst kv)) d)
  | PList l => Ok l
  | PStr s => Ok (map PStr (chars s))
  | _ => Raise (interp_raise (NotIterable (type_name v)))
  end.

Definition longer_first (x y : pyval) : bool :=
  match py_len x, py_len y with
  | Some n, Some m => (m <=? n)%nat
  | _, _ => true
  end.

Fixpoint all_strings (l : list pyval) : result (list string) :=
  match l with
  | [] => Ok []
  | PStr s :: l' => rbind (all_strings l') (fun names => Ok (s :: names))
  | v :: _ => Raise (interp_raise (NotAString (type_name v)))
  end.

(** The alternation: [sorted(available_sources, key=lambda s: -len(s))],
    then [re.escape] on each, which asks for texts. *)
Definition alternation (available_sources : pyval) : result (list string) :=
  rbind (py_iter available_sources) (fun l =>
    match List.find (fun v => match py_len v with None => true | Some _ => false end) l with
    | Some v => Raise (interp_raise (NoLength (type_name v)))
    | None => all_strings (sorted_by longer_first l)
    end).

(** Joined by a bar, no name at all reads as the empty alternative. *)
Definition substitute (available_sources : pyval) (expression : string)
  : result string :=
  rbind (alternation available_sources) (fun alternatives =>
    let alternatives := match alternatives with [] => [""] | _ => alternatives end in
    Ok (sub_sources alternatives false 0 expression)).

(** ** The factories of [transform.py] *)

(** A factory call answers with a transform or raises; next to that, the
    modifiers it was given (the same keys) with their values as the call
    leaves them. *)
Definition built : Type := (result transform * dict)%type.

(** The factories call the entries of the registry; [call f name modifiers]
    stands for [f(name, transformers, **modifiers)]. *)
Section Factories.

Variable transformers : gmap string factory.
Variable call : factory -> string -> dict -> built.

(** The call of the entry [transformers[key]] on [name], the registry and
    the modifiers. *)
Definition call_entry (key name : string) (modifiers : dict) : built :=
  match transformers !! key with
  | None => (Raise (KeyError key), modifiers)
  | Some f => call f name modifiers
  end.

(** A keyword that names one of the two positional parameters. *)
Definition keyword_clash (func param : string) (modifiers : dict) : option exc :=
  match List.find (fun k => mem k [param; "transformers"]) (map fst modifiers) with
  | Some k => Some (interp_raise (MultipleValues func k))
  | None => None
  end.

Definition get_tag (column_name : string) (modifiers : dict) : built :=
  let template := column_name +:+ ":{}" in
  let boolean := is_affirmative (get "boolean" modifiers) in
  (Ok (tag template boolean), modifiers).

Definition get_monotonic_gauge (column_name : string) (modifiers : dict) : built :=
  let '(r, modifiers) := call_entry "gauge" (column_name +:+ ".total") modifiers in
  match r with
  | Raise e => (Raise e, modifiers)
  | Ok gauge =>
      let '(r, modifiers) :=
        call_entry "monotonic_count" (column_name +:+ ".count") modifiers in
      match r with
      | Raise e => (Raise e, modifiers)
      | Ok monotonic_count => (Ok (monotonic_gauge gauge monotonic_count), modifiers)
      end
  end.

Definition get_temporal_percent (column_name : string) (modifiers : dict) : built :=
  let scale := get "scale" modifiers in
  let rest := without ["scale"] modifiers in
  let build := fun scale : pyval =>
    let '(r, post) := call_entry "rate" column_name rest in
    (match r with
     | Ok rate => Ok (temporal_percent rate scale)
     | Raise e => Raise e
     end, writeback modifiers post) in
  match scale with
  | PNone => (Raise (ValueError "the `scale` parameter is required"), modifiers)
  | PStr unit =>
      match TIME_UNITS !! lower unit with
      | Some z => build (PInt z)
      | None =>
          (Raise (ValueError ("the `scale` parameter must be one of: "
                              +:+ join " | " (sorted_by String.leb (map fst (map_to_list TIME_UNITS))))),
           modifiers)
      end
  | _ =>
      if is_int scale then build scale
      else (Raise (ValueError "the `scale` parameter must be an integer representing parts of a second e.g. 1000 for millisecond"),
            modifiers)
  end.

(** One turn of the loop of [_compile_match_items], for the item [item]
    with the data [data]: the source name and the transform of the item,
    then [data] and the shared [modifiers] as the turn leaves them.  Each
    [pop] takes its key out of [data] itself. *)
Definition compile_match_item (global_transform_source : pyval) (item : string)
    (data : pyval) (modifiers : dict)
  : result (string * transform) * pyval * dict :=
  match data with
  | PDict data =>
      let transform_name := get "name" data in
      let data := without ["name"] data in
      if negb (py_truthy transform_name) then
        (Raise (ValueError ("the `name` parameter for item `" +:+ item +:+ "` is required")),
         PDict data, modifiers)
      else match transform_name with
      | PStr transform_name =>
          let transform_type := get "type" data in
          let data := without ["type"] data in
          if negb (py_truthy transform_type) then
            (Raise (ValueError ("the `type` parameter for item `" +:+ item +:+ "` is required")),
             PDict data, modifiers)
          else match transform_type with
          | PStr transform_type =>
              match transformers !! transform_type with
              | None =>
                  (Raise (ValueError ("unknown type `" +:+ transform_type
                                      +:+ "` for item `" +:+ item +:+ "`")),
                   PDict data, modifiers)
              | Some f =>
                  let transform_source := get_or global_transform_source "source" data in
                  let data := without ["source"] data in
                  if negb (py_truthy transform_source) then
                    (Raise (ValueError ("the `source` parameter for item `" +:+ item
                                        +:+ "` is required")),
                     PDict data, modifiers)
                  else match transform_source with
                  | PStr transform_source =>
                      let transform_modifiers := dict_update modifiers data in
                      let '(r, post) := call f transform_name transform_modifiers in
                      (match r with
                       | Ok transformer => Ok (transform_source, transformer)
                       | Raise e => Raise e
                       end,
                       PDict (writeback data post),
                       writeback modifiers (without (map fst data) post))
                  | _ =>
                      (Raise (ValueError ("the `source` parameter for item `" +:+ item
                                          +:+ "` must be a string")),
                       PDict data, modifiers)
                  end
              end
          | _ =>
              (Raise (ValueError ("the `type` parameter for item `" +:+ item
                                  +:+ "` must be a string")),
               PDict data, modifiers)
          end
      | _ =>
          (Raise (ValueError ("the `name` parameter for item `" +:+ item
                              +:+ "` must be a string")),
           PDict data, modifiers)
      end
  | _ => (Raise (ValueError ("item `" +:+ item +:+ "` is not a mapping")), data, modifiers)
  end.

(** The loop of [_compile_match_items] over [items.items()]. *)
Fixpoint compile_match_loop (global_transform_source : pyval)
    (items : list (string * pyval)) (modifiers : dict)
    (compiled_items : list (string * (string * transform)))
  : result (list (string * (string * transform))) * list (string * pyval) * dict :=
  match items with
  | [] => (Ok compiled_items, [], modifiers)
  | (item, data) :: rest =>
      match compile_match_item global_transform_source item data modifiers with
      | (Raise e, data, modifiers) => (Raise e, (item, data) :: rest, modifiers)
      | (Ok compiled, data, modifiers) =>
          let '(r, rest, modifiers) :=
            compile_match_loop global_transform_source rest modifiers
                               (dict_set item compiled compiled_items) in
          (r, (item, data) :: rest, modifiers)
      end
  end.

(** [_compile_match_items(transformers, modifiers)]; the second component
    is [modifiers] as the caller of [get_match] sees its values afterwards. *)
Definition _compile_match_items (modifiers : dict)
  : result (list (string * (string * transform))) * dict :=
  let items := get "items" modifiers in
  let rest := without ["items"] modifiers in
  match items with
  | PNone => (Raise (ValueError "the `items` parameter is required"), modifiers)
  | PDict items =>
      let global_transform_source := get "source" rest in
      let rest := without ["source"] rest in
      let '(r, items, rest) :=
        compile_match_loop global_transform_source items rest [] in
      (r, writeback modifiers (("items", PDict items) :: rest))
  | _ => (Raise (ValueError "the `items` parameter must be a mapping"), modifiers)
  end.

Definition get_match (column_name : string) (modifiers : dict) : built :=
  let '(r, modifiers) := _compile_match_items modifiers in
  (match r with
   | Ok compiled_items => Ok (match_ compiled_items)
   | Raise e => Raise e
   end, modifiers).

(** [key in transformers] and [key not in transformers] for any value. *)
Definition registered (v : pyval) : result bool :=
  match v with
  | PStr key => Ok (bool_decide (is_Some (transformers !! key)))
  | PList _ | PDict _ => Raise (interp_raise (Unhashable (type_name v)))
  | _ => Ok false
  end.

Definition get_expression (name : string) (modifiers : dict) : built :=
  match dict_get "sources" modifiers with
  | None => (Raise (KeyError "sources"), modifiers)
  | Some available_sources =>
      let rest := without ["sources"] modifiers in
      let expression := get "expression" rest in
      let rest := without ["expression"] rest in
      match expression with
      | PNone => (Raise (ValueError "the `expression` parameter is required"), modifiers)
      | PStr expression =>
          if String.eqb expression "" then
            (Raise (ValueError "the `expression` parameter must not be empty"), modifiers)
          else
            let verbose := get_or (PBool false) "verbose" rest in
            let rest := without ["verbose"] rest in
            match (if negb (py_truthy verbose)
                   then substitute available_sources expression
                   else Ok expression) with
            | Raise e => (Raise e, modifiers)
            | Ok expression =>
                match py_compile expression name with
                | Raise e => (Raise e, modifiers)
                | Ok expression =>
                    match dict_get "submit_type" rest with
                    | Some submit_type =>
                        match registered submit_type with
                        | Raise e => (Raise e, modifiers)
                        | Ok false =>
                            (Raise (ValueError ("unknown submit_type `"
                                                +:+ py_str submit_type +:+ "`")),
                             modifiers)
                        | Ok true =>
                            let rest := without ["submit_type"] rest in
                            let '(r, post) := call_entry (py_str submit_type) name rest in
                            (match r with
                             | Ok submit_method =>
                                 Ok (execute_expression expression
                                       (Some (create_extra_transformer submit_method PNone)))
                             | Raise e => Raise e
                             end, writeback modifiers post)
                        end
                    | None => (Ok (execute_expression expression None), modifiers)
                    end
                end
            end
      | _ => (Raise (ValueError "the `expression` parameter must be a string"), modifiers)
      end
  end.

(** The check of [part] and of [total] in [get_percent]. *)
Definition check_source (param : string) (v available_sources : pyval)
  : result string :=
  match v with
  | PNone => Raise (ValueError ("the `" +:+ param +:+ "` parameter is required"))
  | PStr s =>
      rbind (py_contains s available_sources) (fun found =>
        if found then Ok s
        else Raise (ValueError ("the `" +:+ param +:+ "` parameter `" +:+ s
                                +:+ "` is not an available source")))
  | _ => Raise (ValueError ("the `" +:+ param +:+ "` parameter must be a string"))
  end.

Definition get_percent (name : string) (modifiers : dict) : built :=
  match dict_get "sources" modifiers with
  | None => (Raise (KeyError "sources"), modifiers)
  | Some available_sources =>
      let rest := without ["sources"] modifiers in
      match check_source "part" (get "part" rest) available_sources with
      | Raise e => (Raise e, modifiers)
      | Ok part =>
          let rest := without ["part"] rest in
          match check_source "total" (get "total" rest) available_sources with
          | Raise e => (Raise e, modifiers)
          | Ok total =>
              let rest := without ["total"] rest in
              let '(r, post) := call_entry "gauge" name rest in
              (match r with
               | Ok gauge => Ok (percent (create_extra_transformer gauge PNone) part total)
               | Raise e => Raise e
               end, writeback modifiers post)
          end
      end
  end.

End Factories.

(** Calling an entry of a registry.  The factories call each other through
    the registry, to no fixed depth; [depth] is the room left on the call
    stack, and the interpreter raises when there is none. *)
Fixpoint call_factory (depth : nat) (transformers : gmap string factory)
    (f : factory) (name : string) (modifiers : dict) {struct depth} : built :=
  match depth with
  | 0 => (Raise (interp_raise RecursionDepth), modifiers)
  | S depth' =>
      let call := call_factory depth' transformers in
      let checked := fun (func param : string) (body : built) =>
        match keyword_clash func param modifiers with
        | Some e => (Raise e, modifiers)
        | None => body
        end in
      match f with
      | get_tag_factory =>
          checked "get_tag" "column_name" (get_tag name modifiers)
      | get_monotonic_gauge_factory =>
          checked "get_monotonic_gauge" "column_name"
                  (get_monotonic_gauge transformers call name modifiers)
      | get_temporal_percent_factory =>
          checked "get_temporal_percent" "column_name"
                  (get_temporal_percent transformers call name modifiers)
      | get_match_factory =>
          checked "get_match" "column_name"
                  (get_match transformers call name modifiers)
      | get_expression_factory =>
          checked "get_expression" "name"
                  (get_expression transformers call name modifiers)
      | get_percent_factory =>
          checked "get_percent" "name"
                  (get_percent transformers call name modifiers)
      | supplied id => (supplied_factory id name transformers modifiers, modifiers)
      end
  end.

(** ** [Query] *)

(** The Source Table: each declared name with the kind and the 1-based
    index of the entry that declared it, in the order of declaration. *)
Definition source_table : Type := list (string * (kind * nat)).

(** The table as the mapping the extra factories receive under the keyword
    [sources]. *)
Definition sources_value (sources : source_table) : pyval :=
  PDict (map (fun entry =>
                (fst entry,
                 PDict [("type", PStr (kind_name (fst (snd entry))));
                        ("index", PInt (Z.of_nat (snd (snd entry))))]))
             sources).

(** An item of [columns]: [(None, None)] for a column that is passed over,
    else the name with the pair of the tag marker and the transform. *)
Definition column_entry : Type :=
  (option string * option (option string * option transform))%type.

Definition extra_entry : Type := (string * transform)%type.

(** The attributes of a [Query]; [query_data] is [None] once the attribute
    is deleted, the others are [None] for Python's [None]. *)
Record Query : Type := {
  query_data : option pyval;
  name : option string;
  query : option string;
  columns : option (list column_entry);
  extras : option (list extra_entry);
  tags : option (list pyval);
}.

(** [Query.__init__]: a deep copy of [query_data or {}]. *)
Definition init (data : pyval) : Query :=
  {| query_data := Some (if py_truthy data then data else PDict []);
     name := None; query := None; columns := None; extras := None; tags := None |}.

Definition already_defined (entry_name query_name : string) (definer : kind * nat)
  : exc :=
  ValueError ("the name " +:+ entry_name +:+ " of " +:+ query_name
              +:+ " was already defined in " +:+ kind_name (fst definer)
              +:+ " #" +:+ str_of_nat (snd definer)).

(** One turn of the loop over the columns: the Source Table and the item
    of [column_data] the turn adds, next to the column as the turn leaves
    it. *)
Definition compile_column (column_transformers : gmap string factory)
    (query_name : string) (i : nat) (column : pyval) (sources : source_table)
  : result (source_table * column_entry) * pyval :=
  if negb (py_truthy column) then (Ok (sources, (None, None)), column)
  else match column with
  | PDict col =>
      let column_name := get "name" col in
      if negb (py_truthy column_name) then
        (Raise (ValueError ("field `name` for column #" +:+ str_of_nat i +:+ " of "
                            +:+ query_name +:+ " is required")), column)
      else match column_name with
      | PStr column_name =>
          match dict_get column_name sources with
          | Some definer =>
              (Raise (already_defined column_name query_name definer), column)
          | None =>
              let sources := (sources ++ [(column_name, (Column, i))])%list in
              let column_type := get "type" col in
              if negb (py_truthy column_type) then
                (Raise (ValueError ("field `type` for column " +:+ column_name +:+ " of "
                                    +:+ query_name +:+ " is required")), column)
              else match column_type with
              | PStr column_type =>
                  if String.eqb column_type "source" then
                    (Ok (sources, (Some column_name, Some (None, None))), column)
                  else match column_transformers !! column_type with
                  | None =>
                      (Raise (ValueError ("unknown type `" +:+ column_type
                                          +:+ "` for column " +:+ column_name +:+ " of "
                                          +:+ query_name)), column)
                  | Some f =>
                      let modifiers := without ["name"; "type"] col in
                      let '(r, post) :=
                        call_factory recursion_limit column_transformers f
                                     column_name modifiers in
                      let column := PDict (writeback col post) in
                      match r with
                      | Raise e =>
                          let error := "error compiling type `" +:+ column_type
                                       +:+ "` for column " +:+ column_name +:+ " of "
                                       +:+ query_name +:+ ": " +:+ str_exc e in
                          (Raise (reraise e error), column)
                      | Ok transformer =>
                          if String.eqb column_type "tag" then
                            (Ok (sources,
                                 (Some column_name, Some (Some column_type, Some transformer))),
                             column)
                          else
                            (Ok (sources, (Some column_name, Some (None, Some transformer))),
                             column)
                      end
                  end
              | _ =>
                  (Raise (ValueError ("field `type` for column " +:+ column_name +:+ " of "
                                      +:+ query_name +:+ " must be a string")), column)
              end
          end
      | _ =>
          (Raise (ValueError ("field `name` for column #" +:+ str_of_nat i +:+ " of "
                              +:+ query_name +:+ " must be a string")), column)
      end
  | _ =>
      (Raise (ValueError ("column #" +:+ str_of_nat i +:+ " of " +:+ query_name
                          +:+ " is not a mapping")), column)
  end.

(** The loop [for i, entry in enumerate(entries, i)] of [compile], over
    the columns and over the extras: a turn raises, which ends the loop, or
    gives the Source Table to go on with and the item to append to
    [items].  Next to the outcome, the entries as the loop leaves them. *)
Fixpoint for_each {A : Type}
    (turn : nat -> pyval -> source_table -> result (source_table * A) * pyval)
    (i : nat) (entries : list pyval) (sources : source_table) (items : list A)
  : result (source_table * list A) * list pyval :=
  match entries with
  | [] => (Ok (sources, items), [])
  | entry :: rest =>
      match turn i entry sources with
      | (Raise e, entry) => (Raise e, entry :: rest)
      | (Ok (sources, item), entry) =>
          let '(r, rest) := for_each turn (S i) rest sources (items ++ [item])%list in
          (r, entry :: rest)
      end
  end.

(** The loop [for i, column in enumerate(columns, 1)], from the index [i]
    on. *)
Definition compile_columns (column_transformers : gmap string factory)
    (query_name : string) (i : nat) (columns : list pyval)
    (sources : source_table) (column_data : list column_entry)
  : result (source_table * list column_entry) * list pyval :=
  for_each (compile_column column_transformers query_name) i columns sources column_data.

(** The type of an extra: given, or [expression] when the entry has that
    key and no type. *)
Definition extra_type_of (extra_transformers submission_transformers : gmap string factory)
    (extra_name query_name : string) (ext : dict) : result string :=
  let extra_type := get "type" ext in
  if negb (py_truthy extra_type) then
    if has_key "expression" ext then Ok "expression"
    else Raise (ValueError ("field `type` for extra " +:+ extra_name +:+ " of "
                            +:+ query_name +:+ " is required"))
  else match extra_type with
  | PStr extra_type =>
      match extra_transformers !! extra_type, submission_transformers !! extra_type with
      | None, None =>
          Raise (ValueError ("unknown type `" +:+ extra_type +:+ "` for extra "
                             +:+ extra_name +:+ " of " +:+ query_name))
      | _, _ => Ok extra_type
      end
  | _ => Raise (ValueError ("field `type` for extra " +:+ extra_name +:+ " of "
                            +:+ query_name +:+ " must be a string"))
  end.

(** One turn of the loop over the extras. *)
Definition compile_extra (extra_transformers submission_transformers : gmap string factory)
    (query_name : string) (i : nat) (extra : pyval) (sources : source_table)
  : result (source_table * extra_entry) * pyval :=
  match extra with
  | PDict ext =>
      let extra_name := get "name" ext in
      if negb (py_truthy extra_name) then
        (Raise (ValueError ("field `name` for extra #" +:+ str_of_nat i +:+ " of "
                            +:+ query_name +:+ " is required")), extra)
      else match extra_name with
      | PStr extra_name =>
          match dict_get extra_name sources with
          | Some definer =>
              (Raise (already_defined extra_name query_name definer), extra)
          | None =>
              let sources := (sources ++ [(extra_name, (Extra, i))])%list in
              match extra_type_of extra_transformers submission_transformers
                                  extra_name query_name ext with
              | Raise e => (Raise e, extra)
              | Ok extra_type =>
                  let transformer_factory :=
                    match extra_transformers !! extra_type with
                    | Some f => Some f
                    | None => submission_transformers !! extra_type
                    end in
                  let extra_source := get "source" ext in
                  let submission :=
                    bool_decide (is_Some (submission_transformers !! extra_type)) in
                  if (submission && negb (py_truthy extra_source))%bool then
                    (Raise (ValueError ("field `source` for extra " +:+ extra_name
                                        +:+ " of " +:+ query_name +:+ " is required")),
                     extra)
                  else
                    let modifiers :=
                      if submission then without ["name"; "type"; "source"] ext
                      else dict_set "sources" (sources_value sources)
                                    (without ["name"; "type"] ext) in
                    let '(r, post) :=
                      match transformer_factory with
                      | Some f =>
                          call_factory recursion_limit submission_transformers f
                                       extra_name modifiers
                      | None =>
                          (Raise (interp_raise (NotCallable "NoneType")), modifiers)
                      end in
                    let extra :=
                      PDict (writeback ext (if submission then post
                                            else without ["sources"] post)) in
                    match r with
                    | Raise e =>
                        let error := "error compiling type `" +:+ extra_type
                                     +:+ "` for extra " +:+ extra_name +:+ " of "
                                     +:+ query_name +:+ ": " +:+ str_exc e in
                        (Raise (reraise e error), extra)
                    | Ok transformer =>
                        let transformer :=
                          if submission
                          then create_extra_transformer transformer extra_source
                          else transformer in
                        (Ok (sources, (extra_name, transformer)), extra)
                    end
              end
          end
      | _ =>
          (Raise (ValueError ("field `name` for extra #" +:+ str_of_nat i +:+ " of "
                              +:+ query_name +:+ " must be a string")), extra)
      end
  | _ =>
      (Raise (ValueError ("extra #" +:+ str_of_nat i +:+ " of " +:+ query_name
                          +:+ " is not a mapping")), extra)
  end.

(** The loop [for i, extra in enumerate(extras, 1)], from the index [i]
    on. *)
Definition compile_extras (extra_transformers submission_transformers : gmap string factory)
    (query_name : string) (i : nat) (extras : list pyval)
    (sources : source_table) (extra_data : list extra_entry)
  : result (source_table * list extra_entry) * list pyval :=
  for_each (compile_extra extra_transformers submission_transformers query_name)
           i extras sources extra_data.

(** What a successful compilation assigns to the attributes. *)
Record compiled : Type := {
  c_name : string;
  c_query : string;
  c_columns : list column_entry;
  c_extras : list extra_entry;
  c_tags : option (list pyval);
}.

(** A value stored back at a key the mapping already has. *)
Definition stored (k : string) (v : pyval) (d : dict) : dict :=
  if has_key k d then dict_set k v d else d.

(** The second half of [compile], from the Source Table on: the two loops
    and what to assign, next to the configuration as the run leaves it. *)
Definition compile_entries (column_transformers extra_transformers : gmap string factory)
    (query_name query : string) (columns : list pyval) (tags : option (list pyval))
    (data : dict) : result compiled * dict :=
  let '(r, columns) :=
    compile_columns column_transformers query_name 1 columns [] [] in
  let data := stored "columns" (PList columns) data in
  match r with
  | Raise e => (Raise e, data)
  | Ok (sources, column_data) =>
      match column_transformers !! "tag" with
      | None => (Raise (KeyError "tag"), data)
      | Some _ =>
          let submission_transformers := delete "tag" column_transformers in
          match get_or (PList []) "extras" data with
          | PList extras =>
              let '(r, extras) :=
                compile_extras extra_transformers submission_transformers
                               query_name 1 extras sources [] in
              let data := stored "extras" (PList extras) data in
              match r with
              | Raise e => (Raise e, data)
              | Ok (_, extra_data) =>
                  (Ok {| c_name := query_name; c_query := query;
                         c_columns := column_data; c_extras := extra_data;
                         c_tags := tags |}, data)
              end
          | _ =>
              (Raise (ValueError ("field `extras` for " +:+ query_name
                                  +:+ " must be a list")), data)
          end
      end
  end.

(** The first half of [compile], the fields of the query, then the
    second. *)
Definition compile_data (column_transformers extra_transformers : gmap string factory)
    (data : dict) : result compiled * dict :=
  let query_name := get "name" data in
  if negb (py_truthy query_name) then
    (Raise (ValueError "query field `name` is required"), data)
  else match query_name with
  | PStr query_name =>
      let query := get "query" data in
      if negb (py_truthy query) then
        (Raise (ValueError ("field `query` for " +:+ query_name +:+ " is required")), data)
      else match query with
      | PStr query =>
          let columns := get "columns" data in
          if negb (py_truthy columns) then
            (Raise (ValueError ("field `columns` for " +:+ query_name +:+ " is required")),
             data)
          else match columns with
          | PList columns =>
              match get_or (PList []) "tags" data with
              | PNone =>
                  compile_entries column_transformers extra_transformers
                                  query_name query columns None data
              | PList tags =>
                  compile_entries column_transformers extra_transformers
                                  query_name query columns (Some tags) data
              | _ =>
                  (Raise (ValueError ("field `tags` for " +:+ query_name
                                      +:+ " must be a list")), data)
              end
          | _ =>
              (Raise (ValueError ("field `columns` for " +:+ query_name
                                  +:+ " must be a list")), data)
          end
      | _ =>
          (Raise (ValueError ("field `query` for " +:+ query_name +:+ " must be a string")),
           data)
      end
  | _ => (Raise (ValueError "query field `name` must be a string"), data)
  end.

(** [Query.compile]: the outcome of the call and the instance after it. *)
Definition compile (column_transformers extra_transformers : gmap string factory)
    (self : Query) : result unit * Query :=
  match name self with
  | Some _ => (Ok tt, self)
  | None =>
      match query_data self with
      | None => (Raise (interp_raise (NoAttribute "Query" "query_data")), self)
      | Some (PDict data) =>
          match compile_data column_transformers extra_transformers data with
          | (Ok c, _) =>
              (Ok tt,
               {| query_data := None; name := Some (c_name c); query := Some (c_query c);
                  columns := Some (c_columns c); extras := Some (c_extras c);
                  tags := c_tags c |})
          | (Raise e, data) =>
              (Raise e,
               {| query_data := Some (PDict data); name := name self;
                  query := query self; columns := columns self;
                  extras := extras self; tags := tags self |})
          end
      | Some v => (Raise (interp_raise (NoAttribute (type_name v) "get")), self)
      end
  end.


End Model.

(** * The model at a concrete interpreter *)

(** A stand-in for what the model leaves open: floats as pairs of a
    mantissa and a binary exponent, the sinks as the log of what was
    submitted, and three supplied factories (gauge, rate, monotonic count)
    that submit under their name. *)
Module Fixture.

Definition words (e : interp_error) : string :=
  match e with
  | MissingArgument func _ => func +:+ "() missing required positional arguments"
  | MultipleValues func param =>
      func +:+ "() got multiple values for argument '" +:+ param +:+ "'"
  | TooManyArguments func => func +:+ "() takes fewer positional arguments"
  | Unhashable t => "unhashable type: '" +:+ t +:+ "'"
  | BadSubscript t => "'" +:+ t +:+ "' object is not subscriptable"
  | NotIterable t => "'" +:+ t +:+ "' object is not iterable"
  | NotCallable t => "'" +:+ t +:+ "' object is not callable"
  | NoLength t => "object of type '" +:+ t +:+ "' has no len()"
  | NotAString t => "expected a string, " +:+ t +:+ " found"
  | NoAttribute t a => "'" +:+ t +:+ "' object has no attribute '" +:+ a +:+ "'"
  | RecursionDepth => "maximum recursion depth exceeded"
  end.

#[export] Instance interpreter : Interpreter := {|
  float := (Z * Z)%type;
  float_truthy f := negb (fst f =? 0)%Z;
  float_str f := str_of_Z (fst f) +:+ "*2**" +:+ str_of_Z (snd f);
  interp_msg := words;
  key_repr key := squote +:+ key +:+ squote;
  world := list (string * string * string);
  code := string;
  recursion_limit := 100;
|}.

(** A submission: the method, the metric and the value as it prints. *)
Definition submit (method metric : string) : transform :=
  fun args _ w =>
    match args with
    | value :: _ => (Ok PNone, (w ++ [(method, metric, py_str value)])%list)
    | [] => (Raise (interp_raise (MissingArgument method ["value"])), w)
    end.

#[export] Instance environment : Environment := {|
  is_affirmative v :=
    match v with
    | PBool b => b
    | PInt z => negb (z =? 0)%Z
    | PStr s => mem (lower s) ["yes"; "true"; "1"; "y"; "on"]
    | _ => false
    end;
  py_format template v :=
    Ok (String.substring 0 (String.length template - 2) template +:+ py_str v);
  TIME_UNITS :=
    list_to_map [("microsecond", 1000000); ("millisecond", 1000);
                 ("nanosecond", 1000000000); ("second", 1)]%Z;
  total_time_to_temporal_percent v scale := Ok (PList [v; scale]);
  compute_percent part total := Ok (PList [part; total]);
  py_compile text filename := Ok text;
  py_eval c sources := fun w => (Ok (PStr c), w);
  supplied_factory id metric _ _ :=
    match id with
    | 0 => Ok (submit "gauge" metric)
    | 1 => Ok (submit "rate" metric)
    | 2 => Ok (submit "monotonic_count" metric)
    | _ => Raise (ValueError "this method takes no options")
    end;
|}.

(** The registries of [transform.py], with the three submission methods. *)
Definition column_transformers : gmap string factory :=
  list_to_map [("temporal_percent", get_temporal_percent_factory);
               ("monotonic_gauge", get_monotonic_gauge_factory);
               ("tag", get_tag_factory);
               ("match", get_match_factory);
               ("gauge", supplied 0); ("rate", supplied 1);
               ("monotonic_count", supplied 2)].

Definition extra_transformers : gmap string factory :=
  list_to_map [("expression", get_expression_factory);
               ("percent", get_percent_factory)].

(** Entries of a configuration. *)
Definition column (column_name column_type : string) : pyval :=
  PDict [("name", PStr column_name); ("type", PStr column_type)].

Definition status_column : pyval :=
  PDict [("name", PStr "status"); ("type", PStr "match"); ("source", PStr "total");
         ("items", PDict [("OK", PDict [("name", PStr "ok_count");
                                        ("type", PStr "monotonic_count")])])].

Definition fields (query_columns query_extras : list pyval) : dict :=
  [("name", PStr "q"); ("query", PStr "select 1");
   ("columns", PList query_columns); ("extras", PList query_extras)].

Definition configuration (query_columns query_extras : list pyval) : pyval :=
  PDict (fields query_columns query_extras).

(** A configuration that compiles: its second column is passed over. *)
Definition sample_columns : list pyval :=
  [column "used" "gauge"; PNone; column "total" "source"; column "host" "tag";
   status_column].

Definition sample_extras : list pyval :=
  [PDict [("name", PStr "ratio"); ("expression", PStr "used / total")];
   PDict [("name", PStr "share"); ("type", PStr "percent");
          ("part", PStr "used"); ("total", PStr "total")];
   PDict [("name", PStr "capacity"); ("type", PStr "gauge"); ("source", PStr "total")]].

Definition sample : pyval := configuration sample_columns sample_extras.

(** The same with [tags] set. *)
Definition sample_with_tags (v : pyval) : pyval :=
  PDict (dict_set "tags" v (fields sample_columns sample_extras)).

(** A configuration whose second column has no type, after a [match]
    column that compiles. *)
Definition half_compiled : pyval :=
  configuration [status_column; PDict [("name", PStr "b")]] [].

(** Two columns of one name, with a column passed over between them; two
    extras of one name; and two columns of one name of which the first has
    no type. *)
Definition twice_columns : list pyval :=
  [column "a" "gauge"; PNone; column "a" "source"].

Definition twice_extras : list pyval :=
  [PDict [("name", PStr "x"); ("expression", PStr "a")];
   PDict [("name", PStr "x"); ("expression", PStr "a + 1")]].

Definition untyped_first : list pyval :=
  [PDict [("name", PStr "dup")]; column "dup" "source"].

(** An extra of a submission type without a source, and one whose source
    is not declared. *)
Definition no_source : dict :=
  [("name", PStr "capacity"); ("type", PStr "gauge")].

Definition undeclared_source : dict :=
  [("name", PStr "capacity"); ("type", PStr "gauge"); ("source", PStr "nowhere")].

(** The items of a compiled [match]. *)
Definition ok_items : list (string * (string * transform)) :=
  [("OK", ("status", submit "monotonic_count" "ok_count"))].


End Fixture.

(** * Properties *)

Section Properties.

Context `{Environment}.

(** ** Dictionaries *)

Lemma dict_get_set {A : Type} (k k' : string) (v : A) (d : list (string * A)) :
  dict_get k (dict_set k' v d) = if String.eqb k' k then Some v else dict_get k d.
Proof.
  induction d as [|[k0 v0] d IH]; simpl.
  - destruct (String.eqb k' k); reflexivity.
  - destruct (String.eqb k0 k') eqn:E0; simpl.
    + apply String.eqb_eq in E0; subst k0.
      destruct (String.eqb k' k); reflexivity.
    + destruct (String.eqb k0 k) eqn:E1; [|exact IH].
      apply String.eqb_eq in E1; subst k0.
      rewrite String.eqb_sym, E0. reflexivity.
Qed.

Lemma get_or_set_eq (dflt v : pyval) (k : string) (d : dict) :
  get_or dflt k (dict_set k v d) = v.
Proof. unfold get_or. rewrite dict_get_set, String.eqb_refl. reflexivity. Qed.

Lemma get_or_set_ne (dflt v : pyval) (k k' : string) (d : dict) :
  k' <> k -> get_or dflt k (dict_set k' v d) = get_or dflt k d.
Proof.
  intros Hne. unfold get_or. rewrite dict_get_set.
  destruct (String.eqb_spec k' k); [contradiction|reflexivity].
Qed.

Lemma get_or_stored_ne (dflt v : pyval) (k k' : string) (d : dict) :
  k' <> k -> get_or dflt k (stored k' v d) = get_or dflt k d.
Proof.
  intros Hne. unfold stored. destruct (has_key k' d); [|reflexivity].
  apply get_or_set_ne, Hne.
Qed.

Lemma dict_get_app {A : Type} (k : string) (d1 d2 : list (string * A)) :
  dict_get k (d1 ++ d2)%list
  = match dict_get k d1 with Some v => Some v | None => dict_get k d2 end.
Proof.
  induction d1 as [|[k0 v0] d1 IH]; simpl; [reflexivity|].
  destruct (String.eqb k0 k); [reflexivity|exact IH].
Qed.

(** ** The shape of [compile] *)

(** The attributes a successful compilation leaves. *)
Definition assigned (c : compiled) : Query :=
  {| query_data := None; name := Some (c_name c); query := Some (c_query c);
     columns := Some (c_columns c); extras := Some (c_extras c); tags := c_tags c |}.

Lemma compile_init (cts ets : gmap string factory) (data : dict) :
  data <> [] ->
  compile cts ets (init (PDict data))
  = match compile_data cts ets data with
    | (Ok c, _) => (Ok tt, assigned c)
    | (Raise e, data') =>
        (Raise e, {| query_data := Some (PDict data'); name := None; query := None;
                     columns := None; extras := None; tags := None |})
    end.
Proof.
  intros Hne. unfold compile, init. simpl.
  destruct data as [|kv data]; [congruence|]. simpl.
  destruct (compile_data cts ets (kv :: data)) as [[c|e] data']; reflexivity.
Qed.

(** The first component of [compile_entries] reads the configuration for
    its extras only, and passes the tags through. *)
Definition with_tags (t : option (list pyval)) (c : compiled) : compiled :=
  {| c_name := c_name c; c_query := c_query c; c_columns := c_columns c;
     c_extras := c_extras c; c_tags := t |}.

Lemma compile_entries_fst (cts ets : gmap string factory) (qn q : string)
    (cols : list pyval) (t t' : option (list pyval)) (d d' : dict) :
  get_or (PList []) "extras" d = get_or (PList []) "extras" d' ->
  fst (compile_entries cts ets qn q cols t d)
  = match fst (compile_entries cts ets qn q cols t' d') with
    | Ok c => Ok (with_tags t c)
    | Raise e => Raise e
    end.
Proof.
  intros Hd. unfold compile_entries.
  destruct (compile_columns cts qn 1 cols [] []) as [[[s cd]|e] cols']; simpl; [|reflexivity].
  destruct (cts !! "tag"); simpl; [|reflexivity].
  rewrite !get_or_stored_ne by discriminate. rewrite Hd.
  destruct (get_or (PList []) "extras" d'); simpl; try reflexivity.
  destruct (compile_extras ets (delete "tag" cts) qn 1 l s []) as [[[s' ed]|e] exts'];
    reflexivity.
Qed.

(** ** Compiling twice *)

(** C2.  Once [compile] has succeeded on a [Query], calling it again, with
    any registries, succeeds at once and leaves the instance, and so every
    compiled attribute, as the first call left it. *)
Theorem compile_again_is_noop (cts ets cts' ets' : gmap string factory)
    (self self1 : Query) :
  compile cts ets self = (Ok tt, self1) ->
  compile cts' ets' self1 = (Ok tt, self1).
Proof.
  unfold compile. intros Hc.
  destruct (name self) eqn:Hn.
  - injection Hc as <-. rewrite Hn. reflexivity.
  - destruct (query_data self) as [v|]; [|discriminate].
    destruct v; try discriminate.
    destruct (compile_data cts ets d) as [[c|e] d']; [|discriminate].
    injection Hc as <-. reflexivity.
Qed.

(** ** A failed compilation *)

(** C3, amended.  When [compile] raises on a fresh [Query], the attributes
    [name], [query], [columns], [extras] and [tags] are still [None] and the
    raw configuration is still stored.  (What is stored is the mapping as
    the run left it: see [failed_compile_changes_configuration].) *)
Theorem compile_error_assigns_nothing (cts ets : gmap string factory)
    (data : pyval) (e : exc) (self' : Query) :
  compile cts ets (init data) = (Raise e, self') ->
  name self' = None /\ query self' = None /\ columns self' = None
  /\ extras self' = None /\ tags self' = None
  /\ exists data', query_data self' = Some data'.
Proof.
  unfold compile, init. simpl. intros Hc.
  destruct (if py_truthy data then data else PDict []) as [| | | | | |d] eqn:Hd;
    try (injection Hc as _ <-; simpl; eauto 10).
  destruct (compile_data cts ets d) as [[c|e'] d']; [discriminate|].
  injection Hc as _ <-. simpl. eauto 10.
Qed.

(** ** The [tags] field *)

Lemma dict_set_nonempty {A : Type} (k : string) (v : A) (d : list (string * A)) :
  dict_set k v d <> [].
Proof. destruct d as [|[k0 v0] d]; simpl; [|destruct (String.eqb k0 k)]; discriminate. Qed.

(** With another value for [tags], [compile_data] reads the same name,
    query and columns. *)
Lemma compile_data_set_tags (cts ets : gmap string factory) (data : dict) (v : pyval) :
  compile_data cts ets (dict_set "tags" v data)
  = let data' := dict_set "tags" v data in
    let query_name := get "name" data in
    if negb (py_truthy query_name) then
      (Raise (ValueError "query field `name` is required"), data')
    else match query_name with
    | PStr query_name =>
        let query := get "query" data in
        if negb (py_truthy query) then
          (Raise (ValueError ("field `query` for " +:+ query_name +:+ " is required")), data')
        else match query with
        | PStr query =>
            let columns := get "columns" data in
            if negb (py_truthy columns) then
              (Raise (ValueError ("field `columns` for " +:+ query_name +:+ " is required")),
               data')
            else match columns with
            | PList columns =>
                match v with
                | PNone => compile_entries cts ets query_name query columns None data'
                | PList tags =>
                    compile_entries cts ets query_name query columns (Some tags) data'
                | _ =>
                    (Raise (ValueError ("field `tags` for " +:+ query_name
                                        +:+ " must be a list")), data')
                end
            | _ =>
                (Raise (ValueError ("field `columns` for " +:+ query_name
                                    +:+ " must be a list")), data')
            end
        | _ =>
            (Raise (ValueError ("field `query` for " +:+ query_name +:+ " must be a string")),
             data')
        end
    | _ => (Raise (ValueError "query field `name` must be a string"), data')
    end.
Proof.
  unfold compile_data, get.
  rewrite !get_or_set_ne by discriminate. rewrite get_or_set_eq. reflexivity.
Qed.

(** C10.  Take a configuration that compiles with an empty list of tags,
    and then has the empty list as its [tags].  With [tags] set to [None]
    it compiles to the same attributes, except that [tags] is [None]; with
    [tags] set to anything else that is not a list, [compile] raises the
    error that the field must be a list. *)
Theorem compile_tags_none (cts ets : gmap string factory) (data : dict) (self1 : Query) :
  compile cts ets (init (PDict (dict_set "tags" (PList []) data))) = (Ok tt, self1) ->
  tags self1 = Some []
  /\ compile cts ets (init (PDict (dict_set "tags" PNone data)))
     = (Ok tt, {| query_data := query_data self1; name := name self1;
                  query := query self1; columns := columns self1;
                  extras := extras self1; tags := None |})
  /\ forall v : pyval,
       v <> PNone -> (forall l, v <> PList l) ->
       exists query_name,
         name self1 = Some query_name
         /\ fst (compile cts ets (init (PDict (dict_set "tags" v data))))
            = Raise (ValueError ("field `tags` for " +:+ query_name +:+ " must be a list")).
Proof.
  rewrite !compile_init by apply dict_set_nonempty.
  intros Hc.
  assert (Hall : forall v, compile cts ets (init (PDict (dict_set "tags" v data)))
                           = match compile_data cts ets (dict_set "tags" v data) with
                             | (Ok c, _) => (Ok tt, assigned c)
                             | (Raise e, data') =>
                                 (Raise e, {| query_data := Some (PDict data'); name := None;
                                              query := None; columns := None;
                                              extras := None; tags := None |})
                             end)
    by (intros v; apply compile_init, dict_set_nonempty).
  rewrite compile_data_set_tags in Hc. cbv zeta in Hc.
  destruct (py_truthy (get "name" data)) eqn:Hn; simpl in Hc; [|discriminate].
  destruct (get "name" data) as [| | | |qn| |] eqn:Hname; try discriminate.
  destruct (py_truthy (get "query" data)) eqn:Hq; simpl in Hc; [|discriminate].
  destruct (get "query" data) as [| | | |q| |] eqn:Hquery; try discriminate.
  destruct (py_truthy (get "columns" data)) eqn:Hcs; simpl in Hc; [|discriminate].
  destruct (get "columns" data) as [| | | | |cols|] eqn:Hcols; try discriminate.
  pose proof (compile_entries_fst cts ets qn q cols None (Some [])
                (dict_set "tags" PNone data) (dict_set "tags" (PList []) data)) as Hfst.
  rewrite !get_or_set_ne in Hfst by discriminate. specialize (Hfst eq_refl).
  destruct (compile_entries cts ets qn q cols (Some []) (dict_set "tags" (PList []) data))
    as [[c|e] d1] eqn:Hce; [|discriminate].
  injection Hc as <-. simpl in Hfst.
  assert (Htags : c_tags c = Some []).
  { unfold compile_entries in Hce. repeat case_match; simplify_eq; reflexivity. }
  assert (Hcname : c_name c = qn).
  { unfold compile_entries in Hce. repeat case_match; simplify_eq; reflexivity. }
  split; [exact Htags|]. split.
  - rewrite compile_data_set_tags. cbv zeta. rewrite Hname, Hquery, Hcols.
    rewrite Hn, Hq, Hcs. simpl.
    destruct (compile_entries cts ets qn q cols None (dict_set "tags" PNone data))
      as [r d2]. simpl in Hfst. subst r. reflexivity.
  - intros v HvN HvL. exists qn. split; [simpl; congruence|].
    rewrite Hall, compile_data_set_tags. cbv zeta. rewrite Hname, Hquery, Hcols.
    rewrite Hn, Hq, Hcs. simpl.
    destruct v; try reflexivity; [congruence|]. exfalso. eapply HvL. reflexivity.
Qed.

(** ** The Source Table along the loops *)

(** The name an entry declares: the entry is a mapping whose [name] is a
    text that is not empty. *)
Definition declared_name (entry : pyval) : option string :=
  match entry with
  | PDict d =>
      match get "name" d with
      | PStr n => if String.eqb n "" then None else Some n
      | _ => None
      end
  | _ => None
  end.

(** The first of [entries], counted from [i], that declares [n]. *)
Fixpoint first_definer (k : kind) (i : nat) (entries : list pyval) (n : string)
  : option (kind * nat) :=
  match entries with
  | [] => None
  | e :: rest =>
      match declared_name e with
      | Some n' => if String.eqb n' n then Some (k, i) else first_definer k (S i) rest n
      | None => first_definer k (S i) rest n
      end
  end.

Section Loop.

Context {A : Type}.
Variable turn : nat -> pyval -> source_table -> result (source_table * A) * pyval.
Variable k : kind.
Variable query_name : string.

(** A turn that succeeds adds to the Source Table the name its entry
    declares, under its kind and index, and nothing else. *)
Definition registers : Prop :=
  forall i e s s' a e',
    turn i e s = (Ok (s', a), e') ->
    match declared_name e with
    | Some n => dict_get n s = None /\ s' = (s ++ [(n, (k, i))])%list
    | None => s' = s
    end.

(** A turn whose entry declares a name of the Source Table raises the
    error that cites the definer. *)
Definition rejects : Prop :=
  forall i e s n definer,
    declared_name e = Some n ->
    dict_get n s = Some definer ->
    turn i e s = (Raise (already_defined n query_name definer), e).

Lemma for_each_app (i : nat) (pre rest : list pyval) (s : source_table) (items : list A) :
  for_each turn i (pre ++ rest)%list s items
  = match for_each turn i pre s items with
    | (Ok (s1, items1), pre') =>
        let '(r, rest') := for_each turn (i + length pre) rest s1 items1 in
        (r, (pre' ++ rest')%list)
    | (Raise e, pre') => (Raise e, (pre' ++ rest)%list)
    end.
Proof.
  revert i s items. induction pre as [|e pre IH]; intros i s items; simpl.
  - rewrite Nat.add_0_r. destruct (for_each turn i rest s items); reflexivity.
  - destruct (turn i e s) as [[[s1 a]|err] e1]; [|reflexivity].
    rewrite IH.
    destruct (for_each turn (S i) pre s1 (items ++ [a])) as [[[s2 items2]|err] pre'];
      [|reflexivity].
    replace (i + S (length pre)) with (S i + length pre) by lia.
    destruct (for_each turn (S i + length pre) rest s2 items2); reflexivity.
Qed.

Lemma for_each_sources (i : nat) (es es' : list pyval) (s s' : source_table)
    (items items' : list A) :
  registers ->
  for_each turn i es s items = (Ok (s', items'), es') ->
  forall n, dict_get n s'
            = match dict_get n s with
              | Some v => Some v
              | None => first_definer k i es n
              end.
Proof.
  intros Hreg. revert i s items es'.
  induction es as [|e es IH]; intros i s items es' Hloop n; simpl in *.
  - injection Hloop as <- _ _. destruct (dict_get n s); reflexivity.
  - destruct (turn i e s) as [[[s1 a]|err] e1] eqn:Hturn; [|discriminate].
    destruct (for_each turn (S i) es s1 (items ++ [a])) as [[[s2 items2]|err] rest']
      eqn:Hrest; [|discriminate].
    injection Hloop as <- <- _.
    rewrite (IH _ _ _ _ Hrest n).
    specialize (Hreg _ _ _ _ _ _ Hturn).
    destruct (declared_name e) as [n0|].
    + destruct Hreg as [Hfresh ->]. rewrite dict_get_app. simpl.
      destruct (dict_get n s) eqn:Hn; [reflexivity|].
      destruct (String.eqb n0 n); reflexivity.
    + subst s1. reflexivity.
Qed.

(** What each turn yields is found at the place of its entry. *)
Lemma for_each_items (P : pyval -> A -> Prop) (i : nat) (es es' : list pyval)
    (s s' : source_table) (items items' : list A) :
  (forall i e s s' a e', turn i e s = (Ok (s', a), e') -> P e a) ->
  for_each turn i es s items = (Ok (s', items'), es') ->
  exists new, items' = (items ++ new)%list /\ Forall2 P es new.
Proof.
  intros HP. revert i s items es'.
  induction es as [|e es IH]; intros i s items es' Hloop; simpl in *.
  - injection Hloop as _ <- _. exists []. rewrite app_nil_r. split; constructor.
  - destruct (turn i e s) as [[[s1 a]|err] e1] eqn:Hturn; [|discriminate].
    destruct (for_each turn (S i) es s1 (items ++ [a])) as [[[s2 items2]|err] rest']
      eqn:Hrest; [|discriminate].
    injection Hloop as <- <- _.
    destruct (IH _ _ _ _ Hrest) as (new & -> & Hnew).
    exists (a :: new). rewrite <- app_assoc. split; [reflexivity|].
    constructor; [eapply HP, Hturn|exact Hnew].
Qed.

(** The loop raises as soon as a turn does. *)
Lemma for_each_raises_at (i : nat) (pre post : list pyval) (e : pyval)
    (s : source_table) (items : list A) :
  (forall i s, raises (fst (turn i e s))) ->
  raises (fst (for_each turn i (pre ++ e :: post)%list s items)).
Proof.
  intros Hturn. rewrite for_each_app.
  destruct (for_each turn i pre s items) as [[[s1 items1]|err] pre']; [|eexists; reflexivity].
  simpl. destruct (Hturn (i + length pre) s1) as [err Herr].
  destruct (turn (i + length pre) e s1) as [[[s2 a]|err'] e1]; [discriminate|].
  eexists; reflexivity.
Qed.

(** The second entry to declare a name is rejected, and the error cites the
    first. *)
Lemma for_each_rejects (i : nat) (pre post pre' : list pyval) (e : pyval)
    (s s1 : source_table) (items items1 : list A) (n : string) (definer : kind * nat) :
  rejects ->
  for_each turn i pre s items = (Ok (s1, items1), pre') ->
  declared_name e = Some n ->
  dict_get n s1 = Some definer ->
  fst (for_each turn i (pre ++ e :: post)%list s items)
  = Raise (already_defined n query_name definer).
Proof.
  intros Hrej Hpre He Hn. rewrite for_each_app, Hpre. simpl.
  rewrite (Hrej _ _ _ _ _ He Hn). reflexivity.
Qed.

Lemma first_definer_some (i j : nat) (es : list pyval) (e : pyval) (n : string) :
  es !! j = Some e -> declared_name e = Some n ->
  exists definer, first_definer k i es n = Some definer.
Proof.
  revert i j. induction es as [|e0 es IH]; intros i j Hj Hd; [destruct j; discriminate|].
  simpl. destruct j as [|j]; simpl in Hj.
  - injection Hj as ->. rewrite Hd, String.eqb_refl. eauto.
  - destruct (declared_name e0) as [n'|]; [destruct (String.eqb n' n)|]; eauto.
Qed.

(** A loop raises when it comes to an entry whose name the Source Table had
    at the start, or an earlier entry declares. *)
Lemma for_each_redeclared (i : nat) (es : list pyval) (s : source_table)
    (items : list A) (j2 : nat) (e2 : pyval) (n : string) :
  registers -> rejects ->
  es !! j2 = Some e2 -> declared_name e2 = Some n ->
  (exists definer, dict_get n s = Some definer)
  \/ (exists j1 e1, j1 < j2 /\ es !! j1 = Some e1 /\ declared_name e1 = Some n) ->
  raises (fst (for_each turn i es s items)).
Proof.
  intros Hreg Hrej H2 Hd2 Hbefore.
  pose proof (take_drop_middle es j2 e2 H2) as Hsplit.
  rewrite <- Hsplit. rewrite for_each_app.
  destruct (for_each turn i (take j2 es) s items) as [[[s1 items1]|err] pre'] eqn:Hpre;
    [|eexists; reflexivity].
  simpl.
  assert (Hin : exists definer, dict_get n s1 = Some definer).
  { rewrite (for_each_sources _ _ _ _ _ _ _ Hreg Hpre n).
    destruct Hbefore as [[definer Hs]|(j1 & e1 & Hlt & H1 & Hd1)].
    - rewrite Hs. eauto.
    - destruct (dict_get n s); [eauto|].
      eapply (first_definer_some _ j1); [|exact Hd1].
      rewrite lookup_take_lt; [exact H1|lia]. }
  destruct Hin as [definer Hdef].
  rewrite (Hrej _ _ _ _ _ Hd2 Hdef). eexists; reflexivity.
Qed.

End Loop.

(** *** The turns of the two loops *)

Lemma declared_name_truthy (e : pyval) (n : string) :
  declared_name e = Some n ->
  exists d, e = PDict d /\ get "name" d = PStr n /\ py_truthy e = true
            /\ py_truthy (PStr n) = true.
Proof.
  unfold declared_name. intros Hd.
  destruct e as [| | | | | |d]; try discriminate.
  destruct (get "name" d) as [| | | |n'| |] eqn:Hname; try discriminate.
  destruct (String.eqb n' "") eqn:Hn'; [discriminate|].
  injection Hd as <-. exists d.
  split; [reflexivity|]. split; [exact Hname|]. split.
  - destruct d; [discriminate|reflexivity].
  - unfold py_truthy. rewrite Hn'. reflexivity.
Qed.

Lemma falsy_declares_nothing (e : pyval) :
  py_truthy e = false -> declared_name e = None.
Proof.
  intros Hf. destruct (declared_name e) as [n|] eqn:Hd; [|reflexivity].
  destruct (declared_name_truthy _ _ Hd) as (d & _ & _ & Ht & _). congruence.
Qed.

(** A column that is falsy is passed over: no name, no transform, and the
    Source Table as it was. *)
Lemma compile_column_falsy (cts : gmap string factory) (qn : string) (i : nat)
    (column : pyval) (s : source_table) :
  py_truthy column = false ->
  compile_column cts qn i column s = (Ok (s, (None, None)), column).
Proof. intros Hf. unfold compile_column. rewrite Hf. reflexivity. Qed.

Lemma compile_column_rejects (cts : gmap string factory) (qn : string) :
  rejects (compile_column cts qn) qn.
Proof.
  intros i e s n definer Hd Hn.
  destruct (declared_name_truthy _ _ Hd) as (d & -> & Hname & Ht & Htn).
  unfold compile_column. rewrite Ht. simpl negb. cbv iota.
  rewrite Hname, Htn. simpl negb. cbv iota. rewrite Hn. reflexivity.
Qed.

Lemma compile_column_registers (cts : gmap string factory) (qn : string) :
  registers (compile_column cts qn) Column.
Proof.
  intros i e s s' a e' Hturn.
  destruct (py_truthy e) eqn:Ht.
  - unfold compile_column in Hturn. rewrite Ht in Hturn. simpl negb in Hturn. cbv iota in Hturn.
    destruct e as [| | | | | |d]; try discriminate.
    unfold declared_name.
    destruct (py_truthy (get "name" d)) eqn:Htn; simpl negb in Hturn; cbv iota in Hturn;
      [|discriminate].
    destruct (get "name" d) as [| | | |n| |]; try discriminate.
    unfold py_truthy in Htn. apply negb_true_iff in Htn. rewrite Htn.
    destruct (dict_get n s) eqn:Hn; [discriminate|].
    split; [reflexivity|].
    repeat case_match; simplify_eq; reflexivity.
  - rewrite compile_column_falsy in Hturn by exact Ht.
    rewrite falsy_declares_nothing by exact Ht. congruence.
Qed.

Lemma compile_extra_rejects (ets subs : gmap string factory) (qn : string) :
  rejects (compile_extra ets subs qn) qn.
Proof.
  intros i e s n definer Hd Hn.
  destruct (declared_name_truthy _ _ Hd) as (d & -> & Hname & Ht & Htn).
  unfold compile_extra.
  rewrite Hname, Htn. simpl negb. cbv iota. rewrite Hn. reflexivity.
Qed.

Lemma compile_extra_registers (ets subs : gmap string factory) (qn : string) :
  registers (compile_extra ets subs qn) Extra.
Proof.
  intros i e s s' a e' Hturn.
  unfold compile_extra in Hturn.
  destruct e as [| | | | | |d]; try discriminate.
  unfold declared_name.
  destruct (py_truthy (get "name" d)) eqn:Htn; simpl negb in Hturn; cbv iota in Hturn;
    [|discriminate].
  destruct (get "name" d) as [| | | |n| |]; try discriminate.
  unfold py_truthy in Htn. apply negb_true_iff in Htn. rewrite Htn.
  destruct (dict_get n s) eqn:Hn; [discriminate|].
  split; [reflexivity|].
  repeat case_match; simplify_eq; reflexivity.
Qed.


(** *** What a successful compilation went through *)

Lemma compile_entries_ok (cts ets : gmap string factory) (qn q : string)
    (cols : list pyval) (t : option (list pyval)) (data data' : dict) (c : compiled) :
  compile_entries cts ets qn q cols t data = (Ok c, data') ->
  exists s cd cols' exts s' ed exts',
    compile_columns cts qn 1 cols [] [] = (Ok (s, cd), cols')
    /\ is_Some (cts !! "tag")
    /\ get_or (PList []) "extras" data = PList exts
    /\ compile_extras ets (delete "tag" cts) qn 1 exts s [] = (Ok (s', ed), exts')
    /\ c = {| c_name := qn; c_query := q; c_columns := cd; c_extras := ed; c_tags := t |}.
Proof.
  unfold compile_entries. intros Hc.
  destruct (compile_columns cts qn 1 cols [] []) as [[[s cd]|e] cols']; [|discriminate].
  destruct (cts !! "tag") as [f|] eqn:Htag; [|discriminate].
  rewrite get_or_stored_ne in Hc by discriminate.
  destruct (get_or (PList []) "extras" data) as [| | | | |exts|]; try discriminate.
  destruct (compile_extras ets (delete "tag" cts) qn 1 exts s []) as [[[s' ed]|e] exts']
    eqn:Hext; [|discriminate].
  injection Hc as <- _.
  exists s, cd, cols', exts, s', ed, exts'. eauto 10.
Qed.

Lemma compile_data_ok (cts ets : gmap string factory) (data data' : dict) (c : compiled) :
  compile_data cts ets data = (Ok c, data') ->
  exists qn q cols t,
    get "name" data = PStr qn /\ get "query" data = PStr q
    /\ get "columns" data = PList cols
    /\ compile_entries cts ets qn q cols t data = (Ok c, data').
Proof.
  unfold compile_data. intros Hc.
  destruct (py_truthy (get "name" data)); simpl negb in Hc; cbv iota in Hc; [|discriminate].
  destruct (get "name" data) as [| | | |qn| |]; try discriminate.
  destruct (py_truthy (get "query" data)); simpl negb in Hc; cbv iota in Hc; [|discriminate].
  destruct (get "query" data) as [| | | |q| |]; try discriminate.
  destruct (py_truthy (get "columns" data)); simpl negb in Hc; cbv iota in Hc; [|discriminate].
  destruct (get "columns" data) as [| | | | |cols|]; try discriminate.
  destruct (get_or (PList []) "tags" data); try discriminate; eauto 10.
Qed.

Lemma compile_ok (cts ets : gmap string factory) (data : dict) (self' : Query) :
  data <> [] ->
  compile cts ets (init (PDict data)) = (Ok tt, self') ->
  exists c data', compile_data cts ets data = (Ok c, data') /\ self' = assigned c.
Proof.
  intros Hne. rewrite compile_init by exact Hne.
  destruct (compile_data cts ets data) as [[c|e] data']; [|discriminate].
  intros Hc. injection Hc as <-. eauto.
Qed.

Lemma first_definer_found (k : kind) (i : nat) (es : list pyval) (n : string)
    (definer : kind * nat) :
  first_definer k i es n = Some definer ->
  exists j e, definer = (k, i + j) /\ es !! j = Some e /\ declared_name e = Some n.
Proof.
  revert i. induction es as [|e es IH]; intros i Hf; simpl in Hf; [discriminate|].
  destruct (declared_name e) as [n'|] eqn:Hd.
  - destruct (String.eqb_spec n' n) as [->|Hne].
    + injection Hf as <-. exists 0, e. rewrite Nat.add_0_r. auto.
    + destruct (IH _ Hf) as (j & e' & -> & Hj & Hd').
      exists (S j), e'. replace (i + S j) with (S i + j) by lia. auto.
  - destruct (IH _ Hf) as (j & e' & -> & Hj & Hd').
    exists (S j), e'. replace (i + S j) with (S i + j) by lia. auto.
Qed.

(** ** Columns that are passed over *)

(** C9.  Take a list of columns with a falsy entry at the 1-based position
    [S j].  The turn of that entry succeeds and leaves the Source Table as
    it is; when [compile] succeeds, [columns[j]] is [(None, None)]; and
    after the loop over the columns, and after the loop over the extras, no
    name of the Source Table is registered for column [S j], so no error
    can cite it as a definer. *)
Theorem ignored_column (cts ets : gmap string factory) (cols : list pyval) (j : nat)
    (column : pyval) :
  cols !! j = Some column ->
  py_truthy column = false ->
  (forall qn s, compile_column cts qn (S j) column s = (Ok (s, (None, None)), column))
  /\ (forall data self',
        get "columns" data = PList cols ->
        compile cts ets (init (PDict data)) = (Ok tt, self') ->
        exists cd, columns self' = Some cd /\ cd !! j = Some (None, None))
  /\ (forall qn s cd cols',
        compile_columns cts qn 1 cols [] [] = (Ok (s, cd), cols') ->
        (forall n, dict_get n s <> Some (Column, S j))
        /\ forall subs exts s' ed exts',
             compile_extras ets subs qn 1 exts s [] = (Ok (s', ed), exts') ->
             forall n, dict_get n s' <> Some (Column, S j)).
Proof.
  intros Hj Hf.
  assert (Hcols : forall qn s cd cols',
             compile_columns cts qn 1 cols [] [] = (Ok (s, cd), cols') ->
             forall n, dict_get n s <> Some (Column, S j)).
  { intros qn s cd cols' Hloop n Hn.
    rewrite (for_each_sources _ _ _ _ _ _ _ _ _ (compile_column_registers cts qn) Hloop n)
      in Hn.
    simpl in Hn. apply first_definer_found in Hn as (j' & e & Heq & Hj' & Hd).
    injection Heq as Heq. subst j'. rewrite Hj in Hj'. injection Hj' as <-.
    rewrite falsy_declares_nothing in Hd by exact Hf. discriminate. }
  split; [|split].
  - intros qn s. apply compile_column_falsy, Hf.
  - intros data self' Hcolumns Hc.
    assert (Hne : data <> []) by (intros ->; discriminate).
    destruct (compile_ok _ _ _ _ Hne Hc) as (c & data' & Hdata & ->).
    destruct (compile_data_ok _ _ _ _ _ Hdata) as (qn & q & cols0 & t & _ & _ & Hcols0 & Hent).
    rewrite Hcolumns in Hcols0. injection Hcols0 as <-.
    destruct (compile_entries_ok _ _ _ _ _ _ _ _ _ Hent)
      as (s & cd & cols' & exts & s' & ed & exts' & Hloop & _ & _ & _ & ->).
    exists cd. split; [reflexivity|].
    destruct (for_each_items _
                (fun e a => py_truthy e = false -> a = (None, None))
                _ _ _ _ _ _ _
                ltac:(intros i e s0 s1 a e' Hturn Hfe;
                      rewrite compile_column_falsy in Hturn by exact Hfe; congruence)
                Hloop) as (new & -> & Hnew).
    destruct (Forall2_lookup_l _ _ _ _ _ Hnew Hj) as (a & Ha & HP).
    change (new !! j = Some (None, None)). rewrite Ha, (HP Hf). reflexivity.
  - intros qn s cd cols' Hloop. split; [eapply Hcols, Hloop|].
    intros subs exts s' ed exts' Hext n Hn.
    rewrite (for_each_sources _ _ _ _ _ _ _ _ _ (compile_extra_registers ets subs qn) Hext n)
      in Hn.
    destruct (dict_get n s) as [v|] eqn:Hs.
    + injection Hn as ->. eapply Hcols; eauto.
    + apply first_definer_found in Hn as (j' & e & Heq & _). discriminate.
Qed.


(** ** A name declared twice *)

(** The fields of the query pass their checks. *)
Definition fields_valid (data : dict) (qn q : string) (cols : list pyval) : Prop :=
  get "name" data = PStr qn /\ qn <> ""
  /\ get "query" data = PStr q /\ q <> ""
  /\ get "columns" data = PList cols /\ cols <> []
  /\ (get_or (PList []) "tags" data = PNone
      \/ exists l, get_or (PList []) "tags" data = PList l).

Lemma compile_data_valid (cts ets : gmap string factory) (data : dict) (qn q : string)
    (cols : list pyval) :
  fields_valid data qn q cols ->
  exists t, compile_data cts ets data = compile_entries cts ets qn q cols t data.
Proof.
  intros (Hn & Hqn & Hq & Hqq & Hc & Hcc & Ht). unfold compile_data.
  rewrite Hn, Hq, Hc. unfold py_truthy.
  apply String.eqb_neq in Hqn, Hqq. rewrite Hqn, Hqq. simpl negb. cbv iota.
  destruct cols as [|c0 cols]; [congruence|].
  destruct Ht as [->|[l ->]]; eauto.
Qed.

Lemma compile_entries_columns_raise (cts ets : gmap string factory) (qn q : string)
    (cols : list pyval) (t : option (list pyval)) (data : dict) (e : exc) :
  fst (compile_columns cts qn 1 cols [] []) = Raise e ->
  fst (compile_entries cts ets qn q cols t data) = Raise e.
Proof.
  unfold compile_entries. destruct (compile_columns cts qn 1 cols [] []) as [r cols'].
  simpl. intros ->. reflexivity.
Qed.

Lemma compile_entries_extras_raise (cts ets : gmap string factory) (qn q : string)
    (cols cols' exts : list pyval) (t : option (list pyval)) (data : dict)
    (s : source_table) (cd : list column_entry) (e : exc) :
  compile_columns cts qn 1 cols [] [] = (Ok (s, cd), cols') ->
  is_Some (cts !! "tag") ->
  get_or (PList []) "extras" data = PList exts ->
  fst (compile_extras ets (delete "tag" cts) qn 1 exts s []) = Raise e ->
  fst (compile_entries cts ets qn q cols t data) = Raise e.
Proof.
  unfold compile_entries. intros -> [f ->] Hexts.
  rewrite get_or_stored_ne by discriminate. rewrite Hexts.
  destruct (compile_extras ets (delete "tag" cts) qn 1 exts s []) as [r exts'].
  simpl. intros ->. reflexivity.
Qed.

Lemma fst_compile_init (cts ets : gmap string factory) (data : dict) :
  data <> [] ->
  fst (compile cts ets (init (PDict data)))
  = match fst (compile_data cts ets data) with
    | Ok _ => Ok tt
    | Raise e => Raise e
    end.
Proof.
  intros Hne. rewrite compile_init by exact Hne.
  destruct (compile_data cts ets data) as [[c|e] data']; reflexivity.
Qed.

(** C1, amended.  In a configuration where two entries (columns, extras or
    one of each) declare the same name [n], [compile] never succeeds.  When
    the checks before the second of them pass (the fields of the query, the
    entries before it and, for an extra, the columns and the presence of
    [tag] among the column transformers), [compile] raises the error that
    gives the name, and the kind and the 1-based index of the first entry
    that declares it. *)
Theorem duplicate_name (cts ets : gmap string factory) (data : dict)
    (cols exts : list pyval) (n : string) :
  get "columns" data = PList cols ->
  get_or (PList []) "extras" data = PList exts ->
  (forall j1 j2 e1 e2,
      j1 < j2 ->
      (cols ++ exts)%list !! j1 = Some e1 -> (cols ++ exts)%list !! j2 = Some e2 ->
      declared_name e1 = Some n -> declared_name e2 = Some n ->
      raises (fst (compile cts ets (init (PDict data)))))
  /\ (forall qn q pre e post definer,
        fields_valid data qn q cols ->
        cols = (pre ++ e :: post)%list ->
        is_ok (fst (compile_columns cts qn 1 pre [] [])) = true ->
        declared_name e = Some n ->
        first_definer Column 1 pre n = Some definer ->
        fst (compile cts ets (init (PDict data)))
        = Raise (ValueError ("the name " +:+ n +:+ " of " +:+ qn
                             +:+ " was already defined in " +:+ kind_name (fst definer)
                             +:+ " #" +:+ str_of_nat (snd definer))))
  /\ (forall qn q s cd cols' pre e post definer,
        fields_valid data qn q cols ->
        compile_columns cts qn 1 cols [] [] = (Ok (s, cd), cols') ->
        is_Some (cts !! "tag") ->
        exts = (pre ++ e :: post)%list ->
        is_ok (fst (compile_extras ets (delete "tag" cts) qn 1 pre s [])) = true ->
        declared_name e = Some n ->
        match first_definer Column 1 cols n with
        | Some d => Some d
        | None => first_definer Extra 1 pre n
        end = Some definer ->
        fst (compile cts ets (init (PDict data)))
        = Raise (ValueError ("the name " +:+ n +:+ " of " +:+ qn
                             +:+ " was already defined in " +:+ kind_name (fst definer)
                             +:+ " #" +:+ str_of_nat (snd definer)))).
Proof.
  intros Hcols Hexts.
  assert (Hne : data <> []) by (intros ->; discriminate).
  split; [|split].
  - intros j1 j2 e1 e2 Hlt H1 H2 Hd1 Hd2.
    destruct (compile cts ets (init (PDict data))) as [[[]|err] self'] eqn:Hc;
      [|eexists; reflexivity].
    exfalso.
    destruct (compile_ok _ _ _ _ Hne Hc) as (c & data' & Hdata & _).
    destruct (compile_data_ok _ _ _ _ _ Hdata) as (qn & q & cols0 & t & _ & _ & Hcols0 & Hent).
    rewrite Hcols in Hcols0. injection Hcols0 as <-.
    destruct (compile_entries_ok _ _ _ _ _ _ _ _ _ Hent)
      as (s & cd & cols' & exts0 & s' & ed & exts' & Hloop & _ & Hexts0 & Hxloop & _).
    rewrite Hexts in Hexts0. injection Hexts0 as <-.
    pose proof (compile_column_registers cts qn) as Hreg.
    pose proof (compile_column_rejects cts qn) as Hrej.
    pose proof (compile_extra_registers ets (delete "tag" cts) qn) as Hxreg.
    pose proof (compile_extra_rejects ets (delete "tag" cts) qn) as Hxrej.
    destruct (decide (j2 < length cols)) as [Hin2|Hout2].
    + rewrite lookup_app_l in H1 by lia. rewrite lookup_app_l in H2 by lia.
      destruct (for_each_redeclared _ _ _ 1 cols [] [] j2 e2 n Hreg Hrej H2 Hd2) as [err Herr].
      { right. exists j1, e1. auto. }
      unfold compile_columns in Hloop. rewrite Hloop in Herr. discriminate.
    + rewrite lookup_app_r in H2 by lia.
      destruct (for_each_redeclared _ _ _ 1 exts s [] _ e2 n Hxreg Hxrej H2 Hd2) as [err Herr].
      { destruct (decide (j1 < length cols)) as [Hin1|Hout1].
        - left. rewrite lookup_app_l in H1 by lia.
          rewrite (for_each_sources _ _ _ _ _ _ _ _ _ Hreg Hloop n). simpl.
          eapply first_definer_some; eauto.
        - right. rewrite lookup_app_r in H1 by lia.
          exists (j1 - length cols), e1. split; [lia|auto]. }
      unfold compile_extras in Hxloop. rewrite Hxloop in Herr. discriminate.
  - intros qn q pre e post definer Hvalid -> Hpre Hd Hdef.
    rewrite fst_compile_init by exact Hne.
    destruct (compile_data_valid cts ets _ _ _ _ Hvalid) as [t ->].
    erewrite compile_entries_columns_raise; [reflexivity|].
    destruct (compile_columns cts qn 1 pre [] []) as [[[s1 items1]|err] pre'] eqn:Hloop;
      [|discriminate].
    unfold compile_columns.
    eapply (for_each_rejects _ qn); eauto using compile_column_rejects.
    rewrite (for_each_sources _ _ _ _ _ _ _ _ _ (compile_column_registers cts qn) Hloop n).
    exact Hdef.
  - intros qn q s cd cols' pre e post definer Hvalid Hloop Htag -> Hpre Hd Hdef.
    rewrite fst_compile_init by exact Hne.
    destruct (compile_data_valid cts ets _ _ _ _ Hvalid) as [t ->].
    erewrite compile_entries_extras_raise; [reflexivity|exact Hloop|exact Htag|exact Hexts|].
    destruct (compile_extras ets (delete "tag" cts) qn 1 pre s [])
      as [[[s1 items1]|err] pre'] eqn:Hxloop; [|discriminate].
    unfold compile_extras.
    eapply (for_each_rejects _ qn); eauto using compile_extra_rejects.
    rewrite (for_each_sources _ _ _ _ _ _ _ _ _
               (compile_extra_registers ets (delete "tag" cts) qn) Hxloop n).
    rewrite (for_each_sources _ _ _ _ _ _ _ _ _ (compile_column_registers cts qn) Hloop n).
    exact Hdef.
Qed.


(** ** The [source] of an extra *)

(** The type an extra resolves to: the text given as its [type], or
    [expression] when it has that key and no type. *)
Definition resolved_type (ext : dict) : option string :=
  let extra_type := get "type" ext in
  if negb (py_truthy extra_type) then
    if has_key "expression" ext then Some "expression" else None
  else match extra_type with
       | PStr s => Some s
       | _ => None
       end.

Lemma extra_type_of_resolved (ets subs : gmap string factory) (n qn : string)
    (ext : dict) (ty : string) :
  resolved_type ext = Some ty ->
  is_Some (subs !! ty) ->
  extra_type_of ets subs n qn ext = Ok ty.
Proof.
  unfold resolved_type, extra_type_of. intros Hr [f Hf].
  destruct (py_truthy (get "type" ext)); simpl negb in *; cbv iota in *.
  - destruct (get "type" ext); try discriminate. injection Hr as ->.
    rewrite Hf. destruct (ets !! ty); reflexivity.
  - destruct (has_key "expression" ext); [|discriminate]. congruence.
Qed.

(** The turn of an extra of a submission type without a source raises. *)
Lemma compile_extra_without_source (ets subs : gmap string factory) (qn : string)
    (i : nat) (ext : dict) (s : source_table) (ty : string) :
  resolved_type ext = Some ty ->
  is_Some (subs !! ty) ->
  py_truthy (get "source" ext) = false ->
  raises (fst (compile_extra ets subs qn i (PDict ext) s))
  /\ forall n, get "name" ext = PStr n -> n <> "" -> dict_get n s = None ->
       fst (compile_extra ets subs qn i (PDict ext) s)
       = Raise (ValueError ("field `source` for extra " +:+ n +:+ " of " +:+ qn
                            +:+ " is required")).
Proof.
  intros Hr Hs Hsrc.
  assert (Hexact : forall n, get "name" ext = PStr n -> n <> "" -> dict_get n s = None ->
            fst (compile_extra ets subs qn i (PDict ext) s)
            = Raise (ValueError ("field `source` for extra " +:+ n +:+ " of " +:+ qn
                                 +:+ " is required"))).
  { intros n Hn Hne Hfresh. unfold compile_extra. rewrite Hn. unfold py_truthy at 1.
    apply String.eqb_neq in Hne. rewrite Hne. simpl negb. cbv iota. rewrite Hfresh.
    rewrite (extra_type_of_resolved _ _ _ _ _ _ Hr Hs).
    rewrite bool_decide_eq_true_2 by exact Hs. rewrite Hsrc. reflexivity. }
  split; [|exact Hexact].
  destruct (get "name" ext) as [| | | |n| |] eqn:Hn;
    try (unfold compile_extra; rewrite Hn;
         destruct (negb (py_truthy _)); eexists; reflexivity).
  destruct (String.eqb_spec n "") as [->|Hne].
  - unfold compile_extra; rewrite Hn. simpl. eexists; reflexivity.
  - destruct (dict_get n s) as [definer|] eqn:Hfresh.
    + unfold compile_extra; rewrite Hn. unfold py_truthy at 1.
      apply String.eqb_neq in Hne. rewrite Hne. simpl negb. cbv iota. rewrite Hfresh.
      eexists; reflexivity.
    + rewrite (Hexact n eq_refl Hne Hfresh). eexists; reflexivity.
Qed.

(** C4, amended.  An extra whose type resolves to a submission type (a
    column transformer other than [tag]) and whose [source] is missing or
    falsy makes [compile] raise; its turn, when the name is new, raises the
    error that the field [source] is required.  (That the source names an
    entry of the Source Table is not asked for: see
    [undeclared_source_compiles].) *)
Theorem extra_source_required (cts ets : gmap string factory) (data : dict)
    (exts : list pyval) (j : nat) (ext : dict) (ty : string) :
  get_or (PList []) "extras" data = PList exts ->
  exts !! j = Some (PDict ext) ->
  resolved_type ext = Some ty ->
  is_Some (delete "tag" cts !! ty) ->
  py_truthy (get "source" ext) = false ->
  raises (fst (compile cts ets (init (PDict data))))
  /\ forall qn i s n,
       get "name" ext = PStr n -> n <> "" -> dict_get n s = None ->
       fst (compile_extra ets (delete "tag" cts) qn i (PDict ext) s)
       = Raise (ValueError ("field `source` for extra " +:+ n +:+ " of " +:+ qn
                            +:+ " is required")).
Proof.
  intros Hexts Hj Hr Hs Hsrc. split.
  - assert (Hne : data <> []) by (intros ->; injection Hexts as <-; discriminate).
    destruct (compile cts ets (init (PDict data))) as [[[]|err] self'] eqn:Hc;
      [|eexists; reflexivity].
    exfalso.
    destruct (compile_ok _ _ _ _ Hne Hc) as (c & data' & Hdata & _).
    destruct (compile_data_ok _ _ _ _ _ Hdata) as (qn & q & cols & t & _ & _ & _ & Hent).
    destruct (compile_entries_ok _ _ _ _ _ _ _ _ _ Hent)
      as (s & cd & cols' & exts0 & s' & ed & exts' & _ & _ & Hexts0 & Hxloop & _).
    rewrite Hexts in Hexts0. injection Hexts0 as <-.
    pose proof (take_drop_middle exts j _ Hj) as Hsplit.
    destruct (for_each_raises_at (compile_extra ets (delete "tag" cts) qn) 1
                (take j exts) (drop (S j) exts) (PDict ext) s []) as [err Herr].
    { intros i s0. eapply compile_extra_without_source; eauto. }
    rewrite Hsplit in Herr. unfold compile_extras in Hxloop. rewrite Hxloop in Herr.
    discriminate.
  - intros qn i s n. eapply compile_extra_without_source; eauto.
Qed.


(** ** The scale of [temporal_percent] *)

(** A scale the factory refuses: none, a text that is no unit of the table,
    or a value that is neither a text nor an integer. *)
Definition scale_refused (scale : pyval) : Prop :=
  match scale with
  | PNone => True
  | PStr unit => TIME_UNITS !! lower unit = None
  | _ => is_int scale = false
  end.

(** C5, amended.  The factory of [temporal_percent] raises when [scale] is
    absent or [None], a text that is not a unit of the table, or neither a
    text nor an integer.  An integer is accepted whatever its sign, and so
    is a boolean: the factory then goes on to the [rate] factory, and
    answers with the transform over it or with its error. *)
Theorem temporal_percent_scale (transformers : gmap string factory)
    (column_name : string) (modifiers : dict) :
  (scale_refused (get "scale" modifiers) ->
   (forall depth,
       raises (fst (call_factory depth transformers get_temporal_percent_factory
                                 column_name modifiers)))
   /\ forall call, exists msg,
        get_temporal_percent transformers call column_name modifiers
        = (Raise (ValueError msg), modifiers))
  /\ (forall call scale,
        get "scale" modifiers = scale -> is_int scale = true ->
        fst (get_temporal_percent transformers call column_name modifiers)
        = match fst (call_entry transformers call "rate" column_name
                                (without ["scale"] modifiers)) with
          | Ok rate => Ok (temporal_percent rate scale)
          | Raise e => Raise e
          end)
  /\ (forall call unit z,
        get "scale" modifiers = PStr unit -> TIME_UNITS !! lower unit = Some z ->
        fst (get_temporal_percent transformers call column_name modifiers)
        = match fst (call_entry transformers call "rate" column_name
                                (without ["scale"] modifiers)) with
          | Ok rate => Ok (temporal_percent rate (PInt z))
          | Raise e => Raise e
          end).
Proof.
  split; [|split].
  - intros Href.
    assert (Hraise : forall call, exists msg,
               get_temporal_percent transformers call column_name modifiers
               = (Raise (ValueError msg), modifiers)).
    { intros call. unfold get_temporal_percent.
      destruct (get "scale" modifiers) as [| | | |unit| |]; simpl in Href;
        try discriminate; try (eexists; reflexivity).
      rewrite Href. eexists; reflexivity. }
    split; [|exact Hraise].
    intros [|depth]; simpl; [eexists; reflexivity|].
    destruct (keyword_clash "get_temporal_percent" "column_name" modifiers);
      [eexists; reflexivity|].
    destruct (Hraise (call_factory depth transformers)) as [msg ->].
    eexists; reflexivity.
  - intros call scale Hscale Hint. unfold get_temporal_percent. rewrite Hscale.
    destruct scale; try discriminate; simpl;
      destruct (call_entry transformers call "rate" column_name
                           (without ["scale"] modifiers)) as [[rate|e] post]; reflexivity.
  - intros call unit z Hscale Hunit. unfold get_temporal_percent. rewrite Hscale, Hunit.
    destruct (call_entry transformers call "rate" column_name
                         (without ["scale"] modifiers)) as [[rate|e] post]; reflexivity.
Qed.

(** ** Longest name first *)

(** C6.  With the sources [cpu] and [cpu_total], declared in either order,
    the expression [cpu / cpu_total] becomes the text where each name is
    replaced by its reference into the source map: each reference occurs
    once, and none for [cpu] stands before [_total].  [get_expression]
    compiles that text. *)
Theorem substitution_longest_first :
  substitute (sources_value [("cpu", (Column, 1)); ("cpu_total", (Column, 2))])
             "cpu / cpu_total"
  = Ok (reference "cpu" +:+ " / " +:+ reference "cpu_total")
  /\ substitute (sources_value [("cpu_total", (Column, 1)); ("cpu", (Column, 2))])
                "cpu / cpu_total"
     = Ok (reference "cpu" +:+ " / " +:+ reference "cpu_total")
  /\ occurrences (reference "cpu") (reference "cpu" +:+ " / " +:+ reference "cpu_total") = 1
  /\ occurrences (reference "cpu_total")
                 (reference "cpu" +:+ " / " +:+ reference "cpu_total") = 1
  /\ contains (reference "cpu" +:+ "_total")
              (reference "cpu" +:+ " / " +:+ reference "cpu_total") = false
  /\ forall transformers call name,
       fst (get_expression transformers call name
              [("sources", sources_value [("cpu", (Column, 1)); ("cpu_total", (Column, 2))]);
               ("expression", PStr "cpu / cpu_total")])
       = match py_compile (reference "cpu" +:+ " / " +:+ reference "cpu_total") name with
         | Ok expression => Ok (execute_expression expression None)
         | Raise e => Raise e
         end.
Proof.
  repeat split; try reflexivity.
  intros transformers call name0. unfold get_expression. simpl.
  destruct (py_compile _ name0); reflexivity.
Qed.


(** ** Calls that give their arguments by position *)

Lemma without_absent (ps : list string) (kwargs : dict) :
  (forall p, In p ps -> has_key p kwargs = false) -> without ps kwargs = kwargs.
Proof.
  intros Hps. unfold without.
  induction kwargs as [|[k v] kwargs IH]; simpl; [reflexivity|].
  assert (Hk : mem k ps = false).
  { destruct (mem k ps) eqn:Hm; [|reflexivity].
    unfold mem in Hm. apply existsb_exists in Hm as (p & Hin & Heq).
    apply String.eqb_eq in Heq. subst p.
    specialize (Hps k Hin). unfold has_key in Hps. simpl in Hps.
    rewrite String.eqb_refl in Hps. discriminate. }
  rewrite Hk. simpl. f_equal. apply IH.
  intros p Hin. specialize (Hps p Hin). unfold has_key in *. simpl in Hps.
  destruct (String.eqb k p); [discriminate|exact Hps].
Qed.

Lemma no_clash (ps : list string) (kwargs : dict) :
  (forall p, In p ps -> has_key p kwargs = false) ->
  List.find (fun k => mem k ps) (map fst kwargs) = None.
Proof.
  intros Hps. induction kwargs as [|[k v] kwargs IH]; simpl; [reflexivity|].
  assert (Hk : mem k ps = false).
  { destruct (mem k ps) eqn:Hm; [|reflexivity].
    unfold mem in Hm. apply existsb_exists in Hm as (p & Hin & Heq).
    apply String.eqb_eq in Heq. subst p.
    specialize (Hps k Hin). unfold has_key in Hps. simpl in Hps.
    rewrite String.eqb_refl in Hps. discriminate. }
  rewrite Hk. apply IH.
  intros p Hin. specialize (Hps p Hin). unfold has_key in *. simpl in Hps.
  destruct (String.eqb k p); [discriminate|exact Hps].
Qed.

(** A value given by position, and no keyword of that name. *)
Lemma bind_value (func : string) (value : pyval) (rest : list pyval) (kwargs : dict) :
  has_key "value" kwargs = false ->
  bind_params func ["value"] true (value :: rest) kwargs = Ok ([value], kwargs).
Proof.
  intros Hk. unfold bind_params.
  assert (Hps : forall p, In p ["value"] -> has_key p kwargs = false)
    by (intros p [<-|[]]; exact Hk).
  replace (take (length (value :: rest)) ["value"]) with ["value"]
    by (simpl; rewrite take_nil; reflexivity).
  replace (drop (length (value :: rest)) ["value"]) with (@nil string)
    by (simpl; rewrite drop_nil; reflexivity).
  rewrite (no_clash _ _ Hps). simpl.
  rewrite (without_absent _ _ Hps). reflexivity.
Qed.

Lemma bind_value_sources (func : string) (value sources : pyval) (rest : list pyval)
    (kwargs : dict) :
  has_key "value" kwargs = false -> has_key "sources" kwargs = false ->
  bind_params func ["value"; "sources"] true (value :: sources :: rest) kwargs
  = Ok ([value; sources], kwargs).
Proof.
  intros Hv Hs. unfold bind_params.
  assert (Hps : forall p, In p ["value"; "sources"] -> has_key p kwargs = false)
    by (intros p [<-|[<-|[]]]; assumption).
  replace (take (length (value :: sources :: rest)) ["value"; "sources"])
    with ["value"; "sources"] by (simpl; rewrite take_nil; reflexivity).
  replace (drop (length (value :: sources :: rest)) ["value"; "sources"])
    with (@nil string) by (simpl; rewrite drop_nil; reflexivity).
  rewrite (no_clash _ _ Hps). simpl.
  rewrite (without_absent _ _ Hps). reflexivity.
Qed.

(** ** The composition of [monotonic_gauge] *)

(** C7.  [get_monotonic_gauge] calls the [gauge] factory under the name
    with [.total] and then the [monotonic_count] factory under the name
    with [.count], on the same modifiers (as the first call left them: a
    supplied factory leaves them as they are), and answers with their
    composition.  Called on a value and a context, the composition calls
    the gauge and then the monotonic count, each on that value and that
    context. *)
Theorem monotonic_gauge_composes (transformers : gmap string factory)
    (call : factory -> string -> dict -> built) (column_name : string)
    (modifiers modifiers1 modifiers2 : dict) (fg fm : factory)
    (gauge monotonic_count : transform) :
  transformers !! "gauge" = Some fg ->
  transformers !! "monotonic_count" = Some fm ->
  call fg (column_name +:+ ".total") modifiers = (Ok gauge, modifiers1) ->
  call fm (column_name +:+ ".count") modifiers1 = (Ok monotonic_count, modifiers2) ->
  get_monotonic_gauge transformers call column_name modifiers
  = (Ok (monotonic_gauge gauge monotonic_count), modifiers2)
  /\ (forall depth id, call = call_factory (S depth) transformers -> fg = supplied id ->
        modifiers1 = modifiers)
  /\ forall (value : pyval) (rest : list pyval) (kwargs : dict) (w : world),
       has_key "value" kwargs = false ->
       monotonic_gauge gauge monotonic_count (value :: rest) kwargs w
       = match gauge [value] kwargs w with
         | (Ok _, w1) =>
             match monotonic_count [value] kwargs w1 with
             | (Ok _, w2) => (Ok PNone, w2)
             | (Raise e, w2) => (Raise e, w2)
             end
         | (Raise e, w1) => (Raise e, w1)
         end.
Proof.
  intros Hg Hm Hcg Hcm. split; [|split].
  - unfold get_monotonic_gauge, call_entry. rewrite Hg, Hcg, Hm, Hcm. reflexivity.
  - intros depth id -> ->. simpl in Hcg. congruence.
  - intros value rest kwargs w Hk. unfold monotonic_gauge.
    rewrite bind_value by exact Hk. unfold bind; simpl.
    destruct (gauge [value] kwargs w) as [[r|e] w1]; [|reflexivity].
    destruct (monotonic_count [value] kwargs w1) as [[r'|e] w2]; reflexivity.
Qed.

(** ** The dispatch of [match] *)

(** C8, amended.  Call a compiled [match] on a raw value and a source map,
    both given by position.  If the raw value is a key of the items and the
    source map has the source of that item, the transform of the item is
    called on the value found there, with the same context.  If the raw
    value can be a key (it is no list and no mapping) and is not one of the
    items, nothing is called and nothing is raised. *)
Theorem match_dispatch (compiled_items : list (string * (string * transform)))
    (value sources : pyval) (rest : list pyval) (kwargs : dict) (w : world) :
  has_key "value" kwargs = false ->
  has_key "sources" kwargs = false ->
  (forall item source transformer v,
      value = PStr item ->
      dict_get item compiled_items = Some (source, transformer) ->
      getitem sources source = Ok v ->
      match_ compiled_items (value :: sources :: rest) kwargs w
      = match transformer [v] kwargs w with
        | (Ok _, w1) => (Ok PNone, w1)
        | (Raise e, w1) => (Raise e, w1)
        end)
  /\ ((forall l, value <> PList l) -> (forall d, value <> PDict d) ->
      (forall item, value = PStr item -> dict_get item compiled_items = None) ->
      match_ compiled_items (value :: sources :: rest) kwargs w = (Ok PNone, w)).
Proof.
  intros Hv Hs. split.
  - intros item source transformer v -> Hitem Hsrc. unfold match_.
    rewrite bind_value_sources by assumption. simpl. rewrite Hitem.
    unfold bind, lift. rewrite Hsrc.
    destruct (transformer [v] kwargs w) as [[r|e] w1]; reflexivity.
  - intros Hl Hd Hnone. unfold match_.
    rewrite bind_value_sources by assumption. simpl.
    destruct value; try reflexivity.
    + rewrite (Hnone s eq_refl). reflexivity.
    + exfalso. eapply Hl. reflexivity.
    + exfalso. eapply Hd. reflexivity.
Qed.


(** ** What a successful compilation assigns *)

Lemma dict_get_None_keys {A : Type} (k : string) (d : list (string * A)) :
  dict_get k d = None <-> ~ In k (map fst d).
Proof.
  induction d as [|[k0 v0] d IH]; simpl; [tauto|].
  destruct (String.eqb_spec k0 k) as [->|Hne].
  - split; [discriminate|]. intros Hn. exfalso. apply Hn. left. reflexivity.
  - rewrite IH. split.
    + intros Hn [Heq|Hin]; [congruence|tauto].
    + intros Hn Hin. apply Hn. right. exact Hin.
Qed.

(** The names of the Source Table after a loop: those it had, then those
    the entries declare, in order; and no name twice. *)
Lemma for_each_keys {A : Type}
    (turn : nat -> pyval -> source_table -> result (source_table * A) * pyval)
    (k : kind) (i : nat) (es es' : list pyval) (s s' : source_table)
    (items items' : list A) :
  registers turn k ->
  for_each turn i es s items = (Ok (s', items'), es') ->
  map fst s' = (map fst s ++ omap declared_name es)%list
  /\ (NoDup (map fst s) -> NoDup (map fst s')).
Proof.
  intros Hreg. revert i s items es'.
  induction es as [|e es IH]; intros i s items es' Hloop; simpl in Hloop.
  - injection Hloop as <- _ _. simpl. rewrite app_nil_r. auto.
  - destruct (turn i e s) as [[[s1 a]|err] e1] eqn:Hturn; [|discriminate].
    destruct (for_each turn (S i) es s1 (items ++ [a])) as [[[s2 items2]|err] rest']
      eqn:Hrest; [|discriminate].
    injection Hloop as <- <- _.
    destruct (IH _ _ _ _ Hrest) as [Hkeys Hnodup].
    specialize (Hreg _ _ _ _ _ _ Hturn). simpl.
    destruct (declared_name e) as [n|].
    + destruct Hreg as [Hfresh ->]. split.
      { rewrite Hkeys, map_app. simpl. rewrite <- app_assoc. reflexivity. }
      intros Hs. apply Hnodup. rewrite map_app. simpl.
      apply NoDup_app. split; [exact Hs|]. split.
      * intros x Hx Hx'. apply list_elem_of_In in Hx. apply list_elem_of_In in Hx'.
        destruct Hx' as [<-|[]]. apply dict_get_None_keys in Hfresh. tauto.
      * apply NoDup_singleton.
    + subst s1. auto.
Qed.

Lemma compile_column_name (cts : gmap string factory) (qn : string) (i : nat)
    (e e' : pyval) (s s' : source_table) (a : column_entry) :
  compile_column cts qn i e s = (Ok (s', a), e') -> fst a = declared_name e.
Proof.
  intros Hturn. destruct (py_truthy e) eqn:Ht.
  - unfold compile_column in Hturn. rewrite Ht in Hturn. simpl negb in Hturn.
    cbv iota in Hturn.
    destruct e as [| | | | | |d]; try discriminate. unfold declared_name.
    destruct (py_truthy (get "name" d)) eqn:Htn; simpl negb in Hturn; cbv iota in Hturn;
      [|discriminate].
    destruct (get "name" d) as [| | | |n| |]; try discriminate.
    unfold py_truthy in Htn. apply negb_true_iff in Htn. rewrite Htn.
    repeat case_match; simplify_eq; reflexivity.
  - rewrite compile_column_falsy in Hturn by exact Ht.
    rewrite falsy_declares_nothing by exact Ht. injection Hturn as _ <- _. reflexivity.
Qed.

Lemma compile_extra_name (ets subs : gmap string factory) (qn : string) (i : nat)
    (e e' : pyval) (s s' : source_table) (a : extra_entry) :
  compile_extra ets subs qn i e s = (Ok (s', a), e') -> Some (fst a) = declared_name e.
Proof.
  intros Hturn. unfold compile_extra in Hturn.
  destruct e as [| | | | | |d]; try discriminate. unfold declared_name.
  destruct (py_truthy (get "name" d)) eqn:Htn; simpl negb in Hturn; cbv iota in Hturn;
    [|discriminate].
  destruct (get "name" d) as [| | | |n| |]; try discriminate.
  unfold py_truthy in Htn. apply negb_true_iff in Htn. rewrite Htn.
  repeat case_match; simplify_eq; reflexivity.
Qed.

Lemma Forall2_map_eq {A B C : Type} (f : A -> C) (g : B -> C) (l : list A) (l' : list B) :
  Forall2 (fun x y => g y = f x) l l' -> map g l' = map f l.
Proof. induction 1; simpl; [reflexivity|]. f_equal; assumption. Qed.

(** What a successful compilation went through, from the configuration
    on. *)
Lemma compile_ok_loops (cts ets : gmap string factory) (data : dict) (self' : Query) :
  compile cts ets (init (PDict data)) = (Ok tt, self') ->
  exists qn q cols exts t s cd cols' s' ed exts',
    get "name" data = PStr qn /\ get "query" data = PStr q
    /\ get "columns" data = PList cols
    /\ get_or (PList []) "extras" data = PList exts
    /\ compile_columns cts qn 1 cols [] [] = (Ok (s, cd), cols')
    /\ is_Some (cts !! "tag")
    /\ compile_extras ets (delete "tag" cts) qn 1 exts s [] = (Ok (s', ed), exts')
    /\ (exists data', compile_data cts ets data
                      = (Ok {| c_name := qn; c_query := q; c_columns := cd;
                               c_extras := ed; c_tags := t |}, data'))
    /\ self' = assigned {| c_name := qn; c_query := q; c_columns := cd;
                           c_extras := ed; c_tags := t |}.
Proof.
  intros Hc.
  assert (Hne : data <> []).
  { intros ->. vm_compute in Hc. discriminate. }
  destruct (compile_ok _ _ _ _ Hne Hc) as (c & data' & Hdata & ->).
  destruct (compile_data_ok _ _ _ _ _ Hdata) as (qn & q & cols & t & Hn & Hq & Hcols & Hent).
  destruct (compile_entries_ok _ _ _ _ _ _ _ _ _ Hent)
    as (s & cd & cols' & exts & s' & ed & exts' & Hloop & Htag & Hexts & Hxloop & ->).
  exists qn, q, cols, exts, t, s, cd, cols', s', ed, exts'. eauto 12.
Qed.

(** X1.  When [compile] succeeds, the names the columns and the extras of
    the configuration declare are pairwise distinct. *)
Theorem compiled_names_unique (cts ets : gmap string factory) (data : dict)
    (cols exts : list pyval) (self' : Query) :
  get "columns" data = PList cols ->
  get_or (PList []) "extras" data = PList exts ->
  compile cts ets (init (PDict data)) = (Ok tt, self') ->
  NoDup (omap declared_name (cols ++ exts)%list).
Proof.
  intros Hcols Hexts Hc.
  destruct (compile_ok_loops _ _ _ _ Hc)
    as (qn & q & cols0 & exts0 & t & s & cd & cols' & s' & ed & exts'
        & _ & _ & Hcols0 & Hexts0 & Hloop & _ & Hxloop & _).
  rewrite Hcols in Hcols0. injection Hcols0 as <-.
  rewrite Hexts in Hexts0. injection Hexts0 as <-.
  destruct (for_each_keys _ _ _ _ _ _ _ _ _ (compile_column_registers cts qn) Hloop)
    as [Hk Hnd].
  destruct (for_each_keys _ _ _ _ _ _ _ _ _
              (compile_extra_registers ets (delete "tag" cts) qn) Hxloop) as [Hxk Hxnd].
  rewrite omap_app. simpl in Hk. rewrite <- Hk, <- Hxk.
  apply Hxnd, Hnd. constructor.
Qed.

(** X2.  When [compile] succeeds, [name] and [query] are those of the
    configuration, [columns] and [extras] have one item for each entry, in
    order, under the name the entry declares ([None] for a column passed
    over), [tags] is the list given ([None] for [None], the empty list when
    there is none), and the raw configuration is deleted. *)
Theorem compile_assigns (cts ets : gmap string factory) (data : dict) (self' : Query) :
  compile cts ets (init (PDict data)) = (Ok tt, self') ->
  exists qn q cols exts cd ed,
    get "name" data = PStr qn /\ get "query" data = PStr q
    /\ get "columns" data = PList cols
    /\ get_or (PList []) "extras" data = PList exts
    /\ query_data self' = None
    /\ name self' = Some qn /\ query self' = Some q
    /\ columns self' = Some cd /\ extras self' = Some ed
    /\ map fst cd = map declared_name cols
    /\ map (fun e => Some (fst e)) ed = map declared_name exts
    /\ tags self' = match get_or (PList []) "tags" data with
                    | PList l => Some l
                    | _ => None
                    end.
Proof.
  intros Hc.
  destruct (compile_ok_loops _ _ _ _ Hc)
    as (qn & q & cols & exts & t & s & cd & cols' & s' & ed & exts'
        & Hn & Hq & Hcols & Hexts & Hloop & _ & Hxloop & [data' Hdata] & ->).
  exists qn, q, cols, exts, cd, ed. repeat split; try assumption; try reflexivity.
  - destruct (for_each_items _ (fun e a => fst a = declared_name e) _ _ _ _ _ _ _
                (fun i e s0 s1 a e' Ht => compile_column_name _ _ _ _ _ _ _ _ Ht) Hloop)
      as (new & -> & Hnew).
    simpl. apply Forall2_map_eq. exact Hnew.
  - destruct (for_each_items _ (fun e a => Some (fst a) = declared_name e) _ _ _ _ _ _ _
                (fun i e s0 s1 a e' Ht => compile_extra_name _ _ _ _ _ _ _ _ _ Ht) Hxloop)
      as (new & -> & Hnew).
    simpl. apply (Forall2_map_eq declared_name (fun e : extra_entry => Some (fst e))).
    exact Hnew.
  - simpl. unfold compile_data in Hdata. rewrite Hn, Hq, Hcols in Hdata.
    repeat case_match; simplify_eq; try reflexivity;
      unfold compile_entries in *; repeat case_match; simplify_eq; reflexivity.
Qed.


(** ** The binding of a column *)

Lemma compile_column_binding (cts : gmap string factory) (qn : string) (i : nat)
    (col : dict) (e' : pyval) (s s' : source_table) (a : column_entry) (n ty : string) :
  compile_column cts qn i (PDict col) s = (Ok (s', a), e') ->
  get "name" col = PStr n -> get "type" col = PStr ty ->
  exists binding,
    a = (Some n, Some binding)
    /\ (ty = "source" -> binding = (None, None))
    /\ (ty <> "source" ->
        exists f t,
          cts !! ty = Some f
          /\ fst (call_factory recursion_limit cts f n (without ["name"; "type"] col)) = Ok t
          /\ binding = (if String.eqb ty "tag" then Some "tag" else None, Some t)).
Proof.
  intros Hturn Hn Hty.
  assert (Ht : py_truthy (PDict col) = true) by (destruct col; [discriminate|reflexivity]).
  unfold compile_column in Hturn. cbv zeta in Hturn. rewrite Ht, Hn, Hty in Hturn.
  simpl negb in Hturn. cbv iota in Hturn.
  destruct (String.eqb n ""); simpl negb in Hturn; cbv iota in Hturn; [discriminate|].
  destruct (dict_get n s); [discriminate|].
  destruct (String.eqb ty ""); simpl negb in Hturn; cbv iota in Hturn; [discriminate|].
  destruct (String.eqb ty "source") eqn:Hsource.
  - apply String.eqb_eq in Hsource. injection Hturn as _ <- _.
    eexists. split; [reflexivity|]. split; [auto|congruence].
  - apply String.eqb_neq in Hsource.
    destruct (cts !! ty) as [f|] eqn:Hf; [|discriminate].
    destruct (call_factory recursion_limit cts f n (without ["name"; "type"] col))
      as [[t|err] post] eqn:Hcall; [|discriminate].
    destruct (String.eqb ty "tag") eqn:Htag.
    + assert (Hty' : ty = "tag") by (apply String.eqb_eq; exact Htag).
      injection Hturn as _ <- _.
      eexists. split; [reflexivity|]. split; [congruence|]. intros _.
      exists f, t. rewrite Hcall, Hty'. auto.
    + injection Hturn as _ <- _.
      eexists. split; [reflexivity|]. split; [congruence|]. intros _.
      exists f, t. rewrite Hcall. auto.
Qed.

(** X3.  When [compile] succeeds, the item of [columns] for a column with
    a name and a type holds the name and a pair: [(None, None)] for the
    type [source]; otherwise the transform the registered factory builds
    from the name and from the keys of the column other than [name] and
    [type], marked [tag] for the type [tag] and [None] for every other. *)
Theorem compiled_bindings (cts ets : gmap string factory) (data : dict)
    (cols : list pyval) (self' : Query) (j : nat) (col : dict) (n ty : string) :
  get "columns" data = PList cols ->
  compile cts ets (init (PDict data)) = (Ok tt, self') ->
  cols !! j = Some (PDict col) ->
  get "name" col = PStr n -> get "type" col = PStr ty ->
  exists cd binding,
    columns self' = Some cd
    /\ cd !! j = Some (Some n, Some binding)
    /\ (ty = "source" -> binding = (None, None))
    /\ (ty <> "source" ->
        exists f t,
          cts !! ty = Some f
          /\ fst (call_factory recursion_limit cts f n (without ["name"; "type"] col)) = Ok t
          /\ binding = (if String.eqb ty "tag" then Some "tag" else None, Some t)).
Proof.
  intros Hcols Hc Hj Hn Hty.
  destruct (compile_ok_loops _ _ _ _ Hc)
    as (qn & q & cols0 & exts & t & s & cd & cols' & s' & ed & exts'
        & _ & _ & Hcols0 & _ & Hloop & _ & _ & _ & ->).
  rewrite Hcols in Hcols0. injection Hcols0 as <-.
  destruct (for_each_items _
              (fun e a => forall col n ty,
                   e = PDict col -> get "name" col = PStr n -> get "type" col = PStr ty ->
                   exists binding,
                     a = (Some n, Some binding)
                     /\ (ty = "source" -> binding = (None, None))
                     /\ (ty <> "source" ->
                         exists f t,
                           cts !! ty = Some f
                           /\ fst (call_factory recursion_limit cts f n
                                                (without ["name"; "type"] col)) = Ok t
                           /\ binding = (if String.eqb ty "tag" then Some "tag" else None,
                                         Some t)))
              _ _ _ _ _ _ _
              ltac:(intros i e s0 s1 a e' Hturn col0 n0 ty0 ->;
                    eapply compile_column_binding; exact Hturn)
              Hloop) as (new & -> & Hnew).
  destruct (Forall2_lookup_l _ _ _ _ _ Hnew Hj) as (a & Ha & HP).
  destruct (HP col n ty eq_refl Hn Hty) as (binding & -> & Hsource & Hother).
  exists new, binding. auto.
Qed.

(** ** The [tag] transformer *)

(** X4.  Without a [tag] among the column transformers, [compile] succeeds
    on no configuration; when the fields and the columns pass, the error
    is the [KeyError] for [tag], with or without extras. *)
Theorem tag_must_be_registered (cts ets : gmap string factory) :
  cts !! "tag" = None ->
  (forall data : pyval, raises (fst (compile cts ets (init data))))
  /\ forall (data : dict) qn q cols s cd cols',
       fields_valid data qn q cols ->
       compile_columns cts qn 1 cols [] [] = (Ok (s, cd), cols') ->
       fst (compile cts ets (init (PDict data))) = Raise (KeyError "tag").
Proof.
  intros Htag. split.
  - intros data.
    destruct (compile cts ets (init data)) as [[[]|err] self'] eqn:Hc;
      [|eexists; reflexivity].
    exfalso. unfold compile, init in Hc. simpl in Hc.
    destruct (if py_truthy data then data else PDict []) as [| | | | | |d]; try discriminate.
    destruct (compile_data cts ets d) as [[c|e] d'] eqn:Hdata; [|discriminate].
    destruct (compile_data_ok _ _ _ _ _ Hdata) as (qn & q & cols & t & _ & _ & _ & Hent).
    destruct (compile_entries_ok _ _ _ _ _ _ _ _ _ Hent)
      as (s & cd & cols' & exts & s' & ed & exts' & _ & [f Hf] & _).
    congruence.
  - intros data qn q cols s cd cols' Hvalid Hloop.
    assert (Hne : data <> []) by (intros ->; destruct Hvalid as (Hn & _); discriminate).
    rewrite fst_compile_init by exact Hne.
    destruct (compile_data_valid cts ets _ _ _ _ Hvalid) as [t ->].
    unfold compile_entries. rewrite Hloop, Htag. reflexivity.
Qed.

(** X5.  The type [tag] is no type for an extra: unless the extra
    transformers have a [tag] of their own, an extra of that type makes
    [compile] raise, and its turn, when the name is new, raises the error
    of an unknown type. *)
Theorem tag_is_no_extra_type (cts ets : gmap string factory) (data : dict)
    (exts : list pyval) (j : nat) (ext : dict) :
  ets !! "tag" = None ->
  get_or (PList []) "extras" data = PList exts ->
  exts !! j = Some (PDict ext) ->
  get "type" ext = PStr "tag" ->
  raises (fst (compile cts ets (init (PDict data))))
  /\ forall qn i s n,
       get "name" ext = PStr n -> n <> "" -> dict_get n s = None ->
       fst (compile_extra ets (delete "tag" cts) qn i (PDict ext) s)
       = Raise (ValueError ("unknown type `tag` for extra " +:+ n +:+ " of " +:+ qn)).
Proof.
  intros Hets Hexts Hj Hty.
  assert (Hexact : forall qn i s n,
             get "name" ext = PStr n -> n <> "" -> dict_get n s = None ->
             fst (compile_extra ets (delete "tag" cts) qn i (PDict ext) s)
             = Raise (ValueError ("unknown type `tag` for extra " +:+ n +:+ " of " +:+ qn))).
  { intros qn i s n Hn Hne Hfresh. unfold compile_extra. rewrite Hn. unfold py_truthy at 1.
    apply String.eqb_neq in Hne. rewrite Hne. simpl negb. cbv iota. rewrite Hfresh.
    unfold extra_type_of. rewrite Hty. simpl negb. cbv iota.
    rewrite Hets, lookup_delete_eq. reflexivity. }
  split; [|exact Hexact].
  assert (Hne : data <> []) by (intros ->; injection Hexts as <-; discriminate).
  destruct (compile cts ets (init (PDict data))) as [[[]|err] self'] eqn:Hc;
    [|eexists; reflexivity].
  exfalso.
  destruct (compile_ok_loops _ _ _ _ Hc)
    as (qn & q & cols & exts0 & t & s & cd & cols' & s' & ed & exts'
        & _ & _ & _ & Hexts0 & _ & _ & Hxloop & _).
  rewrite Hexts in Hexts0. injection Hexts0 as <-.
  pose proof (take_drop_middle exts j _ Hj) as Hsplit.
  destruct (for_each_raises_at (compile_extra ets (delete "tag" cts) qn) 1
              (take j exts) (drop (S j) exts) (PDict ext) s []) as [err Herr].
  { intros i s0.
    destruct (get "name" ext) as [| | | |n| |] eqn:Hn;
      try (unfold compile_extra; rewrite Hn;
           destruct (negb (py_truthy _)); eexists; reflexivity).
    destruct (String.eqb_spec n "") as [->|Hnn].
    - unfold compile_extra; rewrite Hn. simpl. eexists; reflexivity.
    - destruct (dict_get n s0) as [definer|] eqn:Hfresh.
      + unfold compile_extra; rewrite Hn. unfold py_truthy at 1.
        apply String.eqb_neq in Hnn. rewrite Hnn. simpl negb. cbv iota. rewrite Hfresh.
        eexists; reflexivity.
      + rewrite (Hexact qn i s0 n eq_refl Hnn Hfresh). eexists; reflexivity. }
  rewrite Hsplit in Herr. unfold compile_extras in Hxloop. rewrite Hxloop in Herr.
  discriminate.
Qed.


(** ** The fields of the query *)

(** X6.  A [Query] made from nothing ([None], an empty mapping, any falsy
    value) stores the empty mapping, and [compile] on it, as on every
    mapping without a truthy [name], raises the error that the name is
    required, whatever else the mapping holds. *)
Theorem name_is_required (cts ets : gmap string factory) :
  (forall v : pyval,
      py_truthy v = false ->
      query_data (init v) = Some (PDict [])
      /\ fst (compile cts ets (init v)) = Raise (ValueError "query field `name` is required"))
  /\ forall data : dict,
       py_truthy (get "name" data) = false ->
       fst (compile cts ets (init (PDict data)))
       = Raise (ValueError "query field `name` is required").
Proof.
  split.
  - intros v Hv. unfold compile, init. simpl. rewrite Hv. split; reflexivity.
  - intros data Hn. unfold compile, init. simpl.
    destruct data as [|kv data]; [reflexivity|]. simpl.
    unfold compile_data. rewrite Hn. reflexivity.
Qed.

(** X7.  Unlike [tags], the field [extras] may not be [None]: when the
    fields, the columns and the registry pass, any value of [extras] that
    is not a list, [None] too, makes [compile] raise the error that the
    field must be a list. *)
Theorem extras_must_be_a_list (cts ets : gmap string factory) (data : dict)
    (qn q : string) (cols cols' : list pyval) (s : source_table)
    (cd : list column_entry) (v : pyval) :
  fields_valid data qn q cols ->
  compile_columns cts qn 1 cols [] [] = (Ok (s, cd), cols') ->
  is_Some (cts !! "tag") ->
  get_or (PList []) "extras" data = v ->
  (forall l, v <> PList l) ->
  fst (compile cts ets (init (PDict data)))
  = Raise (ValueError ("field `extras` for " +:+ qn +:+ " must be a list")).
Proof.
  intros Hvalid Hloop [f Hf] Hv Hnl.
  assert (Hne : data <> []) by (intros ->; destruct Hvalid as (Hn & _); discriminate).
  rewrite fst_compile_init by exact Hne.
  destruct (compile_data_valid cts ets _ _ _ _ Hvalid) as [t ->].
  unfold compile_entries. rewrite Hloop, Hf.
  rewrite get_or_stored_ne by discriminate. rewrite Hv.
  destruct v; try reflexivity. exfalso. eapply Hnl. reflexivity.
Qed.

(** ** The error of a factory *)

(** X8.  When the factory of a column raises, [compile] raises an error of
    the same class; unless that is [KeyError], its text is the text of the
    factory's error after the type, the column and the query. *)
Theorem factory_error_is_wrapped (cts ets : gmap string factory) (data : dict)
    (qn q : string) (pre post pre' : list pyval) (col : dict) (s : source_table)
    (cd : list column_entry) (n ty : string) (f : factory) (cls msg : string) :
  fields_valid data qn q (pre ++ PDict col :: post)%list ->
  compile_columns cts qn 1 pre [] [] = (Ok (s, cd), pre') ->
  get "name" col = PStr n -> n <> "" -> dict_get n s = None ->
  get "type" col = PStr ty -> ty <> "" -> ty <> "source" ->
  cts !! ty = Some f ->
  fst (call_factory recursion_limit cts f n (without ["name"; "type"] col))
  = Raise (Exc cls msg) ->
  exists text,
    fst (compile cts ets (init (PDict data))) = Raise (Exc cls text)
    /\ (cls <> "KeyError" ->
        text = "error compiling type `" +:+ ty +:+ "` for column " +:+ n +:+ " of "
               +:+ qn +:+ ": " +:+ msg).
Proof.
  intros Hvalid Hpre Hn Hnn Hfresh Hty Htn Hns Hf Hcall.
  assert (Hne : data <> []) by (intros ->; destruct Hvalid as (Hd & _); discriminate).
  assert (Ht : py_truthy (PDict col) = true) by (destruct col; [discriminate|reflexivity]).
  exists (if String.eqb cls "KeyError"
          then key_repr ("error compiling type `" +:+ ty +:+ "` for column " +:+ n +:+ " of "
                         +:+ qn +:+ ": " +:+ msg)
          else "error compiling type `" +:+ ty +:+ "` for column " +:+ n +:+ " of "
               +:+ qn +:+ ": " +:+ msg).
  split.
  - rewrite fst_compile_init by exact Hne.
    destruct (compile_data_valid cts ets _ _ _ _ Hvalid) as [t ->].
    erewrite compile_entries_columns_raise; [reflexivity|].
    unfold compile_columns in *. rewrite for_each_app, Hpre. simpl.
    unfold compile_column at 1. cbv zeta. rewrite Ht, Hn, Hty. simpl negb. cbv iota.
    unfold py_truthy.
    apply String.eqb_neq in Hnn, Htn, Hns. rewrite Hnn, Htn, Hns. simpl negb. cbv iota.
    rewrite Hfresh, Hf.
    destruct (call_factory recursion_limit cts f n (without ["name"; "type"] col))
      as [r post0]. simpl in Hcall. subst r. reflexivity.
  - intros Hk. apply String.eqb_neq in Hk. rewrite Hk. reflexivity.
Qed.


(** ** The items of [match] *)

Lemma dict_get_without {A : Type} (k : string) (ks : list string) (d : list (string * A)) :
  dict_get k (without ks d) = if mem k ks then None else dict_get k d.
Proof.
  unfold without. induction d as [|[k0 v0] d IH]; simpl.
  - destruct (mem k ks); reflexivity.
  - destruct (mem k0 ks) eqn:Hm; simpl.
    + rewrite IH. destruct (String.eqb_spec k0 k) as [->|Hne]; [|reflexivity].
      rewrite Hm. reflexivity.
    + destruct (String.eqb_spec k0 k) as [->|Hne]; [|exact IH].
      rewrite Hm. reflexivity.
Qed.

Lemma dict_get_writeback (k : string) (d post : dict) :
  dict_get k (writeback d post)
  = match dict_get k d with
    | Some v => Some (match dict_get k post with Some v' => v' | None => v end)
    | None => None
    end.
Proof.
  unfold writeback. induction d as [|[k0 v0] d IH]; simpl; [reflexivity|].
  destruct (String.eqb_spec k0 k) as [->|Hne]; [reflexivity|exact IH].
Qed.

Lemma writeback_keys (d post : dict) : map fst (writeback d post) = map fst d.
Proof. unfold writeback. rewrite map_map. reflexivity. Qed.

(** The three keys [_compile_match_items] pops from an item. *)
Definition consumed (data : pyval) : Prop :=
  exists d, data = PDict d
            /\ has_key "name" d = false /\ has_key "type" d = false
            /\ has_key "source" d = false.

(** What an item compiles to: its source is its own [source] when it has
    one, the [source] of the modifiers otherwise, and its transform is
    built by the factory of its [type] under its [name], from modifiers of
    the keys [keys] updated with what else the item holds. *)
Definition compiles_to (transformers : gmap string factory)
    (call : factory -> string -> dict -> built) (global_transform_source : pyval)
    (keys : list string)
    (entry : string * pyval) (compiled : string * (string * transform)) : Prop :=
  fst compiled = fst entry
  /\ exists d transform_name transform_type f modifiers,
       snd entry = PDict d
       /\ get "name" d = PStr transform_name
       /\ get "type" d = PStr transform_type
       /\ transformers !! transform_type = Some f
       /\ get_or global_transform_source "source" d = PStr (fst (snd compiled))
       /\ map fst modifiers = keys
       /\ fst (call f transform_name
                    (dict_update modifiers (without ["name"; "type"; "source"] d)))
          = Ok (snd (snd compiled)).

Lemma without_without {A : Type} (ks ks' : list string) (d : list (string * A)) :
  without ks' (without ks d) = without (ks ++ ks') d.
Proof.
  unfold without. induction d as [|[k0 v0] d IH]; simpl; [reflexivity|].
  unfold mem in *. rewrite existsb_app.
  destruct (existsb (String.eqb k0) ks); simpl; [exact IH|].
  destruct (existsb (String.eqb k0) ks'); simpl; [exact IH|]. f_equal. exact IH.
Qed.

Lemma compile_match_item_ok (transformers : gmap string factory)
    (call : factory -> string -> dict -> built) (gsrc : pyval) (item : string)
    (data data' : pyval) (modifiers modifiers' : dict) (c : string * transform) :
  compile_match_item transformers call gsrc item data modifiers = (Ok c, data', modifiers') ->
  compiles_to transformers call gsrc (map fst modifiers) (item, data) (item, c)
  /\ consumed data' /\ map fst modifiers' = map fst modifiers.
Proof.
  unfold compile_match_item. intros Hc.
  destruct data as [| | | | | |d]; try discriminate. cbv zeta in Hc.
  destruct (negb (py_truthy (get "name" d))); [discriminate|].
  destruct (get "name" d) as [| | | |nm| |] eqn:Hnm; try discriminate.
  destruct (negb (py_truthy (get "type" (without ["name"] d)))); [discriminate|].
  destruct (get "type" (without ["name"] d)) as [| | | |ty| |] eqn:Hty; try discriminate.
  destruct (transformers !! ty) as [f|] eqn:Hf; [|discriminate].
  destruct (negb (py_truthy (get_or gsrc "source" (without ["type"] (without ["name"] d)))));
    [discriminate|].
  destruct (get_or gsrc "source" (without ["type"] (without ["name"] d)))
    as [| | | |src| |] eqn:Hsrc; try discriminate.
  rewrite !without_without in Hc. simpl app in Hc.
  destruct (call f nm (dict_update modifiers (without ["name"; "type"; "source"] d)))
    as [[t|err] post] eqn:Hcall; [|discriminate].
  injection Hc as <- <- <-. split; [|split].
  - split; [reflexivity|]. exists d, nm, ty, f, modifiers. simpl.
    unfold get, get_or in *. rewrite !without_without in Hsrc. simpl app in Hsrc.
    rewrite dict_get_without in Hty, Hsrc. simpl in Hty, Hsrc.
    rewrite Hcall. auto 10.
  - eexists. split; [reflexivity|].
    unfold has_key. rewrite !dict_get_writeback, !dict_get_without. simpl. auto.
  - apply writeback_keys.
Qed.

Lemma compile_match_loop_ok (transformers : gmap string factory)
    (call : factory -> string -> dict -> built) (gsrc : pyval)
    (items items' : list (string * pyval)) (modifiers modifiers' : dict)
    (compiled0 compiled : list (string * (string * transform))) :
  compile_match_loop transformers call gsrc items modifiers compiled0
  = (Ok compiled, items', modifiers') ->
  exists outs,
    Forall2 (compiles_to transformers call gsrc (map fst modifiers)) items outs
    /\ compiled = fold_left (fun acc kv => dict_set (fst kv) (snd kv) acc) outs compiled0
    /\ map fst items' = map fst items
    /\ Forall (fun kv => consumed (snd kv)) items'.
Proof.
  revert items' modifiers compiled0.
  induction items as [|[item data] items IH]; intros items' modifiers compiled0 Hloop;
    simpl in Hloop.
  - injection Hloop as <- <- _. exists []. simpl. repeat split; constructor.
  - destruct (compile_match_item transformers call gsrc item data modifiers)
      as [[[c|err] data1] modifiers1] eqn:Hitem; [|discriminate].
    destruct (compile_match_loop transformers call gsrc items modifiers1
                                 (dict_set item c compiled0))
      as [[r rest] modifiers2] eqn:Hrest.
    injection Hloop as -> <- ->.
    destruct (IH _ _ _ Hrest) as (outs & Houts & -> & Hkeys & Hcons).
    destruct (compile_match_item_ok _ _ _ _ _ _ _ _ _ Hitem) as (Hc & Hd & Hm).
    rewrite Hm in Houts.
    exists ((item, c) :: outs). simpl. repeat split.
    + constructor; assumption.
    + f_equal. exact Hkeys.
    + constructor; assumption.
Qed.

Lemma dict_set_fresh {A : Type} (k : string) (v : A) (d : list (string * A)) :
  ~ In k (map fst d) -> dict_set k v d = (d ++ [(k, v)])%list.
Proof.
  induction d as [|[k0 v0] d IH]; simpl; intros Hk; [reflexivity|].
  destruct (String.eqb_spec k0 k) as [->|Hne]; [tauto|]. f_equal. apply IH. tauto.
Qed.

Lemma fold_dict_set_fresh {A : Type} (outs acc : list (string * A)) :
  NoDup (map fst outs) ->
  (forall k, In k (map fst outs) -> ~ In k (map fst acc)) ->
  fold_left (fun acc kv => dict_set (fst kv) (snd kv) acc) outs acc = (acc ++ outs)%list.
Proof.
  revert acc. induction outs as [|[k v] outs IH]; intros acc Hnd Hfresh; simpl.
  - rewrite app_nil_r. reflexivity.
  - apply NoDup_cons in Hnd as [Hk Hnd].
    rewrite dict_set_fresh by (apply Hfresh; left; reflexivity).
    rewrite IH; [rewrite <- app_assoc; reflexivity|exact Hnd|].
    intros k' Hin. rewrite map_app, in_app_iff. simpl. intros [Hacc|[<-|[]]].
    + eapply Hfresh; [right; exact Hin|exact Hacc].
    + apply Hk. apply list_elem_of_In. exact Hin.
Qed.

Lemma Forall2_compiles_keys (transformers : gmap string factory)
    (call : factory -> string -> dict -> built) (gsrc : pyval) (keys : list string)
    (items : list (string * pyval)) (outs : list (string * (string * transform))) :
  Forall2 (compiles_to transformers call gsrc keys) items outs ->
  map fst outs = map fst items.
Proof. induction 1 as [|x y l l' [Hk _] _ IH]; simpl; [reflexivity|]. f_equal; assumption. Qed.

(** X9.  When [_compile_match_items] succeeds on items of distinct keys,
    the compiled items are one for each item of the configuration, in
    order and under the same key; the source of each is the item's own
    [source] when it has one and the [source] of the modifiers otherwise,
    and its transform is built by the factory registered for its [type],
    under its [name], from modifiers that have the keys of the given ones
    other than [items] and [source], updated with the item's other
    keys. *)
Theorem match_items_compiled (transformers : gmap string factory)
    (call : factory -> string -> dict -> built) (modifiers post : dict)
    (items : list (string * pyval))
    (compiled_items : list (string * (string * transform))) :
  get "items" modifiers = PDict items ->
  NoDup (map fst items) ->
  _compile_match_items transformers call modifiers = (Ok compiled_items, post) ->
  Forall2 (compiles_to transformers call (get "source" modifiers)
                       (map fst (without ["items"; "source"] modifiers)))
          items compiled_items.
Proof.
  intros Hitems Hnd Hc. unfold _compile_match_items in Hc. rewrite Hitems in Hc.
  cbv zeta in Hc.
  destruct (compile_match_loop transformers call
              (get "source" (without ["items"] modifiers)) items
              (without ["source"] (without ["items"] modifiers)) [])
    as [[r items'] rest] eqn:Hloop.
  injection Hc as -> _.
  destruct (compile_match_loop_ok _ _ _ _ _ _ _ _ _ Hloop) as (outs & Houts & -> & _).
  assert (Hg : get "source" (without ["items"] modifiers) = get "source" modifiers).
  { unfold get, get_or. rewrite dict_get_without. reflexivity. }
  rewrite Hg, without_without in Houts. simpl app in Houts.
  rewrite fold_dict_set_fresh; [exact Houts| |intros k _ []].
  rewrite (Forall2_compiles_keys _ _ _ _ _ _ Houts). exact Hnd.
Qed.

(** X10.  [_compile_match_items] changes the configuration it is given:
    when it succeeds, the [items] of the modifiers hold the same keys as
    before, and every item has lost its [name], its [type] and its
    [source]. *)
Theorem match_consumes_items (transformers : gmap string factory)
    (call : factory -> string -> dict -> built) (modifiers post : dict)
    (items : list (string * pyval))
    (compiled_items : list (string * (string * transform))) :
  get "items" modifiers = PDict items ->
  _compile_match_items transformers call modifiers = (Ok compiled_items, post) ->
  exists items',
    get "items" post = PDict items'
    /\ map fst items' = map fst items
    /\ Forall (fun kv => consumed (snd kv)) items'.
Proof.
  intros Hitems Hc. unfold _compile_match_items in Hc. rewrite Hitems in Hc.
  cbv zeta in Hc.
  destruct (compile_match_loop transformers call
              (get "source" (without ["items"] modifiers)) items
              (without ["source"] (without ["items"] modifiers)) [])
    as [[r items'] rest] eqn:Hloop.
  injection Hc as -> <-.
  destruct (compile_match_loop_ok _ _ _ _ _ _ _ _ _ Hloop) as (outs & _ & _ & Hkeys & Hcons).
  exists items'. split; [|auto].
  unfold get, get_or in *. rewrite dict_get_writeback. simpl.
  destruct (dict_get "items" modifiers); [reflexivity|discriminate].
Qed.


(** ** Substitution of source names, in general *)

(** The order of the alternation on names: longer first. *)
Definition longer (x y : string) : bool := (String.length y <=? String.length x)%nat.

Lemma insert_sorted_map {A B : Type} (f : A -> B) (le : A -> A -> bool)
    (le' : B -> B -> bool) (x : A) (l : list A) :
  (forall a b, le' (f a) (f b) = le a b) ->
  insert_sorted le' (f x) (map f l) = map f (insert_sorted le x l).
Proof.
  intros Hle. induction l as [|y l IH]; simpl; [reflexivity|].
  rewrite Hle. destruct (le x y); simpl; [reflexivity|]. f_equal. exact IH.
Qed.

Lemma sorted_by_map {A B : Type} (f : A -> B) (le : A -> A -> bool)
    (le' : B -> B -> bool) (l : list A) :
  (forall a b, le' (f a) (f b) = le a b) ->
  sorted_by le' (map f l) = map f (sorted_by le l).
Proof.
  intros Hle. unfold sorted_by. induction l as [|x l IH]; simpl; [reflexivity|].
  rewrite IH. apply insert_sorted_map, Hle.
Qed.

Lemma all_strings_map (l : list string) : all_strings (map PStr l) = Ok l.
Proof. induction l as [|x l IH]; simpl; [reflexivity|]. rewrite IH. reflexivity. Qed.

(** The alternation built from a Source Table: its names, longer first. *)
Lemma alternation_sources (table : source_table) :
  alternation (sources_value table) = Ok (sorted_by longer (map fst table)).
Proof.
  unfold alternation, sources_value, py_iter, rbind.
  rewrite map_map. simpl.
  assert (Hnone : forall l : list string,
             List.find (fun v => match py_len v with None => true | Some _ => false end)
                       (map PStr l) = None)
    by (induction l as [|x l IH]; simpl; [reflexivity|exact IH]).
  rewrite <- (map_map fst PStr), Hnone.
  rewrite (sorted_by_map PStr longer longer_first) by reflexivity.
  apply all_strings_map.
Qed.

Lemma insert_sorted_In {A : Type} (le : A -> A -> bool) (x y : A) (l : list A) :
  In y (insert_sorted le x l) <-> y = x \/ In y l.
Proof.
  induction l as [|z l IH]; simpl; [intuition congruence|].
  destruct (le x z); simpl; [intuition congruence|]. rewrite IH. intuition congruence.
Qed.

Lemma sorted_by_In {A : Type} (le : A -> A -> bool) (y : A) (l : list A) :
  In y (sorted_by le l) <-> In y l.
Proof.
  unfold sorted_by. induction l as [|x l IH]; simpl; [tauto|].
  rewrite insert_sorted_In, IH. intuition congruence.
Qed.

Lemma find_nothing {A : Type} (P : A -> bool) (l : list A) :
  (forall x, In x l -> P x = false) -> List.find P l = None.
Proof.
  induction l as [|x l IH]; simpl; intros Hl; [reflexivity|].
  rewrite (Hl x) by auto. apply IH. auto.
Qed.

Lemma prefix_empty (a : string) : a <> "" -> String.prefix a "" = false.
Proof. destruct a; [congruence|reflexivity]. Qed.

(** Where no name occurs, nothing is replaced. *)
Lemma sub_sources_nothing (alternatives : list string) (prev_quote : bool) (s : string) :
  (forall a, In a alternatives -> a <> "" /\ contains a s = false) ->
  sub_sources alternatives prev_quote 0 s = s.
Proof.
  revert prev_quote. induction s as [|c s IH]; intros prev_quote Halt.
  - simpl. destruct prev_quote; [reflexivity|].
    unfold match_here. rewrite find_nothing; [reflexivity|].
    intros a Ha. destruct (Halt a Ha) as [Hne _]. rewrite prefix_empty by exact Hne.
    reflexivity.
  - assert (Hhere : match_here alternatives (String c s) = None).
    { unfold match_here. apply find_nothing. intros a Ha.
      destruct (Halt a Ha) as [_ Hc]. simpl in Hc.
      apply orb_false_iff in Hc as [Hp _].
      change (String.prefix a (String c s) = false) in Hp. rewrite Hp. reflexivity. }
    cbn [sub_sources]. rewrite Hhere.
    assert (Hcopy : sub_sources alternatives (is_quote c) 0 s = s).
    { apply IH. intros a Ha. destruct (Halt a Ha) as [Hne Hc]. split; [exact Hne|].
      simpl in Hc. apply orb_false_iff in Hc as [_ Hc]. exact Hc. }
    destruct prev_quote; rewrite Hcopy; reflexivity.
Qed.

(** X11.  An expression in which no name of the Source Table occurs is
    left as it is by the substitution. *)
Theorem substitution_leaves_other_text (table : source_table) (expression : string) :
  table <> [] ->
  (forall n, In n (map fst table) -> n <> "" /\ contains n expression = false) ->
  substitute (sources_value table) expression = Ok expression.
Proof.
  intros Hne Hnames. unfold substitute. rewrite alternation_sources. simpl.
  assert (Hs : sorted_by longer (map fst table) <> []).
  { destruct table as [|[n v] table]; [congruence|]. intros Hnil.
    assert (Hin : In n (sorted_by longer (map fst ((n, v) :: table))))
      by (apply sorted_by_In; left; reflexivity).
    rewrite Hnil in Hin. destruct Hin. }
  destruct (sorted_by longer (map fst table)) as [|a alts] eqn:Hsorted; [congruence|].
  rewrite sub_sources_nothing; [reflexivity|].
  intros b Hb. apply Hnames. apply (sorted_by_In longer). rewrite Hsorted. exact Hb.
Qed.

Lemma insert_sorted_sorted (x : string) (l : list string) :
  StronglySorted (fun a b => longer a b = true) l ->
  StronglySorted (fun a b => longer a b = true) (insert_sorted longer x l).
Proof.
  induction 1 as [|y l Hl IH Hy]; simpl.
  - constructor; constructor.
  - destruct (longer x y) eqn:Hxy.
    + constructor; [constructor; assumption|].
      constructor; [exact Hxy|].
      rewrite List.Forall_forall in Hy. apply List.Forall_forall. intros b Hb.
      specialize (Hy b Hb). unfold longer in *.
      apply Nat.leb_le in Hxy, Hy. apply Nat.leb_le. lia.
    + constructor; [exact IH|].
      apply List.Forall_forall. intros b Hb. apply insert_sorted_In in Hb as [->|Hb].
      * unfold longer in *. apply Nat.leb_gt in Hxy. apply Nat.leb_le. lia.
      * rewrite List.Forall_forall in Hy. apply Hy, Hb.
Qed.

Lemma sorted_by_sorted (l : list string) :
  StronglySorted (fun a b => longer a b = true) (sorted_by longer l).
Proof.
  unfold sorted_by. induction l as [|x l IH]; simpl; [constructor|].
  apply insert_sorted_sorted, IH.
Qed.

(** In a list in the order of the alternation, the first element with a
    property is at least as long as every element with it. *)
Lemma find_longest (P : string -> bool) (l : list string) (n : string) :
  StronglySorted (fun a b => longer a b = true) l ->
  In n l -> P n = true ->
  exists a, List.find P l = Some a /\ P a = true
            /\ (String.length n <= String.length a)%nat.
Proof.
  induction 1 as [|y l Hl IH Hy]; intros Hin HP; [destruct Hin|].
  simpl. destruct (P y) eqn:HPy.
  - exists y. split; [reflexivity|]. split; [exact HPy|].
    destruct Hin as [->|Hin]; [lia|].
    rewrite List.Forall_forall in Hy. specialize (Hy n Hin). unfold longer in Hy.
    apply Nat.leb_le in Hy. exact Hy.
  - destruct Hin as [->|Hin]; [congruence|]. apply IH; assumption.
Qed.

Lemma prefix_whole (a n : string) :
  String.prefix a n = true -> (String.length n <= String.length a)%nat -> a = n.
Proof.
  revert n. induction a as [|c a IH]; intros [|d n]; simpl; intros Hp Hl;
    try reflexivity; try lia; try discriminate.
  destruct (Ascii.ascii_dec c d) as [->|]; [|discriminate].
  f_equal. apply IH; [exact Hp|lia].
Qed.

Lemma prefix_self (n : string) : String.prefix n n = true.
Proof.
  induction n as [|c n IH]; simpl; [reflexivity|].
  destruct (Ascii.ascii_dec c c); [exact IH|congruence].
Qed.

Lemma string_drop_all (n : string) : string_drop (String.length n) n = "".
Proof. induction n as [|c n IH]; simpl; [reflexivity|exact IH]. Qed.

(** The characters of a match are passed over. *)
Lemma sub_sources_skip (alternatives : list string) (prev_quote : bool) (s : string) :
  (forall a, In a alternatives -> a <> "") ->
  sub_sources alternatives prev_quote (String.length s) s = "".
Proof.
  intros Hne. revert prev_quote. induction s as [|c s IH]; intros prev_quote.
  - simpl. destruct prev_quote; [reflexivity|].
    unfold match_here. rewrite find_nothing; [reflexivity|].
    intros a Ha. rewrite prefix_empty by (apply Hne, Ha). reflexivity.
  - simpl. apply IH.
Qed.

Lemma append_empty (s : string) : s +:+ "" = s.
Proof.
  induction s as [|c s IH]; [reflexivity|].
  change (String c (s +:+ "") = String c s). f_equal. exact IH.
Qed.

(** X12.  An expression that is exactly one declared name becomes the
    reference to that name, whichever other names are declared: a shorter
    name that is a prefix of it never takes the match. *)
Theorem substitution_whole_name (table : source_table) (n : string) :
  In n (map fst table) ->
  (forall m, In m (map fst table) -> m <> "") ->
  substitute (sources_value table) n = Ok (reference n).
Proof.
  intros Hin Hne. unfold substitute. rewrite alternation_sources. simpl.
  pose proof (sorted_by_sorted (map fst table)) as Hsorted.
  assert (Hin' : In n (sorted_by longer (map fst table))) by (apply sorted_by_In, Hin).
  assert (Hne' : forall a, In a (sorted_by longer (map fst table)) -> a <> "")
    by (intros a Ha; apply Hne; apply (sorted_by_In longer); exact Ha).
  destruct (sorted_by longer (map fst table)) as [|a0 alts] eqn:Halts; [destruct Hin'|].
  set (alternatives := a0 :: alts) in *. clearbody alternatives.
  destruct (find_longest
              (fun a => (String.prefix a n
                         && negb (next_is_quote (string_drop (String.length a) n)))%bool)
              alternatives n Hsorted Hin') as (a & Hfind & HP & Hlen).
  { rewrite prefix_self, string_drop_all. reflexivity. }
  apply andb_true_iff in HP as [Hpre _].
  apply prefix_whole in Hpre; [|exact Hlen]. subst a.
  destruct n as [|c n]; [exfalso; exact (Hne "" Hin eq_refl)|].
  cbn [sub_sources]. unfold match_here. rewrite Hfind.
  replace (String.length (String c n) - 1) with (String.length n) by (simpl; lia).
  rewrite sub_sources_skip by exact Hne'. rewrite append_empty. reflexivity.
Qed.


(** ** The sources of [percent] *)

Lemma get_without (k : string) (ks : list string) (d : dict) :
  mem k ks = false -> get k (without ks d) = get k d.
Proof. intros Hk. unfold get, get_or. rewrite dict_get_without, Hk. reflexivity. Qed.

Lemma dict_get_In {A : Type} (k : string) (d : list (string * A)) (v : A) :
  dict_get k d = Some v -> In k (map fst d).
Proof.
  induction d as [|[k0 v0] d IH]; simpl; [discriminate|].
  destruct (String.eqb_spec k0 k) as [->|Hne]; [left; reflexivity|].
  intros Hd. right. apply IH, Hd.
Qed.

Lemma has_key_In {A : Type} (k : string) (d : list (string * A)) :
  has_key k d = true -> In k (map fst d).
Proof.
  unfold has_key. destruct (dict_get k d) eqn:Hd; [|discriminate].
  intros _. eapply dict_get_In, Hd.
Qed.

(** What [get_percent] asks of its modifiers before it builds. *)
Lemma get_percent_ok (transformers : gmap string factory)
    (call : factory -> string -> dict -> built) (n : string) (modifiers available : dict)
    (t : transform) (post : dict) :
  dict_get "sources" modifiers = Some (PDict available) ->
  get_percent transformers call n modifiers = (Ok t, post) ->
  exists part total,
    get "part" modifiers = PStr part /\ get "total" modifiers = PStr total
    /\ has_key part available = true /\ has_key total available = true.
Proof.
  intros Hs Hp. unfold get_percent in Hp. rewrite Hs in Hp.
  rewrite !get_without in Hp by reflexivity.
  destruct (get "part" modifiers) as [| | | |part| |]; try discriminate.
  simpl in Hp. destruct (has_key part available) eqn:Hpart; [|discriminate].
  simpl in Hp.
  destruct (get "total" modifiers) as [| | | |total| |]; try discriminate.
  simpl in Hp. destruct (has_key total available) eqn:Htotal; [|discriminate].
  exists part, total. auto.
Qed.

(** X13.  [get_percent] builds a transform only when [part] and [total]
    are both texts and both keys of the mapping given as [sources]. *)
Theorem percent_sources_available (depth : nat) (transformers : gmap string factory)
    (n : string) (modifiers available : dict) (t : transform) (post : dict) :
  dict_get "sources" modifiers = Some (PDict available) ->
  call_factory depth transformers get_percent_factory n modifiers = (Ok t, post) ->
  exists part total,
    get "part" modifiers = PStr part /\ get "total" modifiers = PStr total
    /\ has_key part available = true /\ has_key total available = true.
Proof.
  intros Hs Hcall. destruct depth as [|depth]; [discriminate|].
  simpl in Hcall.
  destruct (keyword_clash "get_percent" "name" modifiers); [discriminate|].
  eapply get_percent_ok; eassumption.
Qed.

(** The turn of the entry at the place [j] of a loop that succeeds, and
    the names of the Source Table it starts from. *)
Lemma for_each_turn {A : Type}
    (turn : nat -> pyval -> source_table -> result (source_table * A) * pyval)
    (k : kind) (i : nat) (es es' : list pyval) (s s' : source_table)
    (items items' : list A) (j : nat) (e : pyval) :
  registers turn k ->
  for_each turn i es s items = (Ok (s', items'), es') ->
  es !! j = Some e ->
  exists sj sj' a e',
    turn (i + j) e sj = (Ok (sj', a), e')
    /\ map fst sj = (map fst s ++ omap declared_name (take j es))%list.
Proof.
  intros Hreg Hloop Hj.
  pose proof (take_drop_middle es j e Hj) as Hsplit.
  rewrite <- Hsplit in Hloop. rewrite for_each_app in Hloop.
  destruct (for_each turn i (take j es) s items) as [[[s1 items1]|err] pre'] eqn:Hpre;
    [|discriminate].
  assert (Hlen : length (take j es) = j).
  { rewrite length_take. apply lookup_lt_Some in Hj. lia. }
  rewrite Hlen in Hloop. simpl in Hloop.
  destruct (turn (i + j) e s1) as [[[s2 a]|err] e1] eqn:Hturn.
  - exists s1, s2, a, e1. split; [exact Hturn|].
    apply (for_each_keys turn k _ _ _ _ _ _ _ Hreg Hpre).
  - discriminate.
Qed.

Lemma compile_extra_percent (ets subs : gmap string factory) (qn : string) (i : nat)
    (ext : dict) (s s' : source_table) (a : extra_entry) (e' : pyval) :
  ets !! "percent" = Some get_percent_factory ->
  subs !! "percent" = None ->
  get "type" ext = PStr "percent" ->
  compile_extra ets subs qn i (PDict ext) s = (Ok (s', a), e') ->
  exists n part total,
    declared_name (PDict ext) = Some n
    /\ get "part" ext = PStr part /\ get "total" ext = PStr total
    /\ In part (map fst s ++ [n])%list /\ In total (map fst s ++ [n])%list.
Proof.
  intros Hets Hsubs Hty Hturn.
  unfold compile_extra in Hturn. cbv zeta in Hturn.
  unfold declared_name.
  destruct (get "name" ext) as [| | | |n| |] eqn:Hn;
    try (destruct (negb (py_truthy _)); discriminate).
  unfold py_truthy at 1 in Hturn.
  destruct (String.eqb n "") eqn:Hnn; simpl negb in Hturn; cbv iota in Hturn;
    [discriminate|].
  destruct (dict_get n s); [discriminate|].
  unfold extra_type_of in Hturn. rewrite Hty in Hturn.
  simpl negb in Hturn. cbv iota in Hturn. rewrite Hets, Hsubs in Hturn.
  rewrite (bool_decide_eq_false_2 (is_Some None)) in Hturn
    by (intros [? ?]; discriminate).
  simpl andb in Hturn. cbv iota in Hturn. rewrite Hets in Hturn.
  destruct (call_factory _ _ _ _ _) as [[t|err] post] eqn:Hcall; [|discriminate].
  destruct recursion_limit as [|depth]; [discriminate|].
  simpl in Hcall.
  destruct (keyword_clash "get_percent" "name" _); [discriminate|].
  eapply get_percent_ok in Hcall; [|rewrite dict_get_set; reflexivity].
  destruct Hcall as (part & total & Hpart & Htotal & Hp & Ht).
  unfold get, get_or in Hpart, Htotal.
  rewrite dict_get_set, dict_get_without in Hpart, Htotal.
  simpl in Hpart, Htotal.
  apply has_key_In in Hp, Ht. rewrite map_map in Hp, Ht. simpl in Hp, Ht.
  rewrite <- (map_map fst (fun x => x)), map_id in Hp, Ht.
  rewrite map_app in Hp, Ht.
  exists n, part, total. auto.
Qed.

(** X14.  In a configuration that compiles, an extra of the type
    [percent] names as [part] and as [total] two names that the columns,
    the extras before it or the extra itself declare: no name declared
    after it, and none that is not declared. *)
Theorem percent_extra_sources (cts ets : gmap string factory) (data : dict)
    (cols exts : list pyval) (self' : Query) (j : nat) (ext : dict) :
  ets !! "percent" = Some get_percent_factory ->
  cts !! "percent" = None ->
  get "columns" data = PList cols ->
  get_or (PList []) "extras" data = PList exts ->
  compile cts ets (init (PDict data)) = (Ok tt, self') ->
  exts !! j = Some (PDict ext) ->
  get "type" ext = PStr "percent" ->
  exists part total,
    get "part" ext = PStr part /\ get "total" ext = PStr total
    /\ In part (omap declared_name (cols ++ take (S j) exts)%list)
    /\ In total (omap declared_name (cols ++ take (S j) exts)%list).
Proof.
  intros Hets Hcts Hcols Hexts Hc Hj Hty.
  destruct (compile_ok_loops _ _ _ _ Hc)
    as (qn & q & cols0 & exts0 & t & s & cd & cols' & s' & ed & exts'
        & _ & _ & Hcols0 & Hexts0 & Hloop & _ & Hxloop & _).
  rewrite Hcols in Hcols0. injection Hcols0 as <-.
  rewrite Hexts in Hexts0. injection Hexts0 as <-.
  destruct (for_each_keys _ Column _ _ _ _ _ _ _ (compile_column_registers cts qn) Hloop)
    as [Hs _].
  destruct (for_each_turn _ Extra _ _ _ _ _ _ _ _ _
              (compile_extra_registers ets (delete "tag" cts) qn) Hxloop Hj)
    as (sj & sj' & a & e' & Hturn & Hsj).
  assert (Hsubs : delete "tag" cts !! "percent" = None)
    by (rewrite lookup_delete_ne by discriminate; exact Hcts).
  destruct (compile_extra_percent _ _ _ _ _ _ _ _ _ Hets Hsubs Hty Hturn)
    as (n & part & total & Hname & Hpart & Htotal & Hp & Ht).
  assert (Hall : (map fst sj ++ [n])%list
                 = omap declared_name (cols ++ take (S j) exts)%list).
  { assert (Hone : omap declared_name [PDict ext] = [n])
      by (cbn [omap list_omap]; rewrite Hname; reflexivity).
    rewrite Hsj, Hs, (take_S_r _ _ _ Hj), !omap_app, Hone.
    rewrite <- app_assoc. reflexivity. }
  rewrite Hall in Hp, Ht. exists part, total. auto.
Qed.

(** ** A registry that loops *)

(** X15.  With [get_monotonic_gauge] itself registered as [gauge], the
    factory calls itself until the call stack is used up: whatever room
    there is, the outcome is the recursion error, and no transform. *)
Theorem monotonic_gauge_as_gauge (transformers : gmap string factory) (depth : nat)
    (n : string) (modifiers : dict) :
  transformers !! "gauge" = Some get_monotonic_gauge_factory ->
  has_key "column_name" modifiers = false ->
  has_key "transformers" modifiers = false ->
  call_factory depth transformers get_monotonic_gauge_factory n modifiers
  = (Raise (interp_raise RecursionDepth), modifiers).
Proof.
  intros Hgauge Hc Ht. revert n.
  induction depth as [|depth IH]; intros n; [reflexivity|].
  cbn [call_factory]. unfold keyword_clash.
  rewrite (no_clash ["column_name"; "transformers"] modifiers).
  - unfold get_monotonic_gauge, call_entry. rewrite Hgauge, IH. reflexivity.
  - intros p [<-|[<-|[]]]; assumption.
Qed.


(** ** What a failed compilation leaves of the configuration *)

(** Two mappings with the same keys in the same order, and the same
    values but under [columns] and [extras]. *)
Definition same_fields (d d' : dict) : Prop :=
  map fst d' = map fst d
  /\ forall k, k <> "columns" -> k <> "extras" -> dict_get k d' = dict_get k d.

Lemma same_fields_refl (d : dict) : same_fields d d.
Proof. split; reflexivity. Qed.

Lemma same_fields_trans (d1 d2 d3 : dict) :
  same_fields d1 d2 -> same_fields d2 d3 -> same_fields d1 d3.
Proof.
  intros [Hk1 Hv1] [Hk2 Hv2]. split; [congruence|].
  intros k Hc He. rewrite Hv2, Hv1 by assumption. reflexivity.
Qed.

Lemma dict_set_keys {A : Type} (k : string) (v : A) (d : list (string * A)) :
  has_key k d = true -> map fst (dict_set k v d) = map fst d.
Proof.
  unfold has_key. induction d as [|[k0 v0] d IH]; simpl; [discriminate|].
  destruct (String.eqb k0 k); simpl; [reflexivity|]. intros Hk. f_equal. apply IH, Hk.
Qed.

Lemma stored_same_fields (k : string) (v : pyval) (d : dict) :
  k = "columns" \/ k = "extras" -> same_fields d (stored k v d).
Proof.
  intros Hk. unfold stored. destruct (has_key k d) eqn:Hhas; [|apply same_fields_refl].
  split; [apply dict_set_keys, Hhas|].
  intros k' Hc He. rewrite dict_get_set.
  destruct (String.eqb_spec k k') as [<-|_]; [|reflexivity].
  destruct Hk; contradiction.
Qed.

Lemma compile_entries_same_fields (cts ets : gmap string factory) (qn q : string)
    (cols : list pyval) (t : option (list pyval)) (data : dict) :
  same_fields data (snd (compile_entries cts ets qn q cols t data)).
Proof.
  unfold compile_entries.
  destruct (compile_columns cts qn 1 cols [] []) as [r cols'].
  pose proof (stored_same_fields "columns" (PList cols') data (or_introl eq_refl)) as Hc.
  destruct r as [[s cd]|err]; [|exact Hc].
  destruct (cts !! "tag"); [|exact Hc].
  destruct (get_or (PList []) "extras" (stored "columns" (PList cols') data));
    try exact Hc.
  destruct (compile_extras _ _ _ _ _ _ _) as [r exts'].
  assert (Hx : same_fields data (stored "extras" (PList exts')
                                        (stored "columns" (PList cols') data))).
  { eapply same_fields_trans; [exact Hc|]. apply stored_same_fields. right. reflexivity. }
  destruct r as [[s' ed]|err]; exact Hx.
Qed.

Lemma compile_data_same_fields (cts ets : gmap string factory) (data : dict) :
  same_fields data (snd (compile_data cts ets data)).
Proof.
  unfold compile_data.
  repeat case_match; try apply same_fields_refl; apply compile_entries_same_fields.
Qed.

(** X16.  A [compile] that raises keeps the configuration on the
    instance, with the fields it had, in their order, and with the values
    it had for every field but [columns] and [extras]. *)
Theorem failed_compile_keeps_fields (cts ets : gmap string factory) (data : dict)
    (e : exc) (self' : Query) :
  compile cts ets (init (PDict data)) = (Raise e, self') ->
  exists data',
    query_data self' = Some (PDict data') /\ same_fields data data'.
Proof.
  intros Hc. destruct data as [|kv data].
  - vm_compute in Hc. injection Hc as _ <-. exists []. split; [reflexivity|].
    apply same_fields_refl.
  - rewrite compile_init in Hc by discriminate.
    pose proof (compile_data_same_fields cts ets (kv :: data)) as Hsame.
    destruct (compile_data cts ets (kv :: data)) as [[c|err] data']; [discriminate|].
    injection Hc as _ <-. exists data'. split; [reflexivity|exact Hsame].
Qed.

End Properties.

(** * The properties at the concrete interpreter *)

Module Examples.

Import Fixture.

(** [sample] compiles, and a second call, with empty registries, changes
    nothing. *)
Lemma compile_again_witness :
  fst (compile column_transformers extra_transformers (init sample)) = Ok tt
  /\ compile ∅ ∅ (snd (compile column_transformers extra_transformers (init sample)))
     = (Ok tt, snd (compile column_transformers extra_transformers (init sample))).
Proof.
  split; [vm_compute; reflexivity|].
  apply (compile_again_is_noop column_transformers extra_transformers ∅ ∅ (init sample)).
  vm_compute. reflexivity.
Defined.

Lemma compile_error_witness :
  name (snd (compile column_transformers extra_transformers (init half_compiled))) = None
  /\ query (snd (compile column_transformers extra_transformers (init half_compiled))) = None
  /\ columns (snd (compile column_transformers extra_transformers (init half_compiled))) = None
  /\ extras (snd (compile column_transformers extra_transformers (init half_compiled))) = None
  /\ tags (snd (compile column_transformers extra_transformers (init half_compiled))) = None
  /\ exists data',
       query_data (snd (compile column_transformers extra_transformers (init half_compiled)))
       = Some data'.
Proof.
  apply (compile_error_assigns_nothing column_transformers extra_transformers half_compiled
           (ValueError "field `type` for column b of q is required")).
  vm_compute. reflexivity.
Defined.

(** C3, as stated, fails: [compile] raises on [half_compiled], and the
    configuration the instance stores is no longer the one it had: the
    item of the [match] column has lost its [name] and its [type]. *)
Lemma failed_compile_changes_configuration :
  fst (compile column_transformers extra_transformers (init half_compiled))
  = Raise (ValueError "field `type` for column b of q is required")
  /\ query_data (snd (compile column_transformers extra_transformers (init half_compiled)))
     = Some (configuration
               [PDict [("name", PStr "status"); ("type", PStr "match");
                       ("source", PStr "total"); ("items", PDict [("OK", PDict [])])];
                PDict [("name", PStr "b")]] [])
  /\ snd (compile column_transformers extra_transformers (init half_compiled))
     <> init half_compiled.
Proof.
  split; [vm_compute; reflexivity|]. split; [vm_compute; reflexivity|].
  intros Heq. apply (f_equal query_data) in Heq. vm_compute in Heq. discriminate Heq.
Qed.

(** [sample] has no [tags]; with [None] for them it compiles to the same
    attributes but [tags], and with a text for them it does not compile. *)
Lemma compile_tags_witness :
  tags (snd (compile column_transformers extra_transformers
                     (init (sample_with_tags (PList []))))) = Some []
  /\ tags (snd (compile column_transformers extra_transformers
                        (init (sample_with_tags PNone)))) = None
  /\ fst (compile column_transformers extra_transformers
                  (init (sample_with_tags (PStr "env:prod"))))
     = Raise (ValueError "field `tags` for q must be a list").
Proof.
  destruct (compile_tags_none column_transformers extra_transformers
              (fields sample_columns sample_extras)
              (snd (compile column_transformers extra_transformers
                            (init (sample_with_tags (PList []))))))
    as (Hempty & Hnone & Hother).
  { vm_compute. reflexivity. }
  split; [exact Hempty|]. split.
  - unfold sample_with_tags. rewrite Hnone. reflexivity.
  - destruct (Hother (PStr "env:prod")) as (qn & Hqn & Herr); [discriminate..|].
    injection Hqn as <-. exact Herr.
Defined.

(** The second column of [sample] is [None]. *)
Lemma ignored_column_witness :
  compile_column column_transformers "q" 2 PNone [("used", (Column, 1))]
  = (Ok ([("used", (Column, 1))], (None, None)), PNone)
  /\ (exists cd,
        columns (snd (compile column_transformers extra_transformers (init sample))) = Some cd
        /\ cd !! 1 = Some (None, None))
  /\ forall n, dict_get n [("used", (Column, 1)); ("total", (Column, 3));
                            ("host", (Column, 4)); ("status", (Column, 5))]
                <> Some (Column, 2).
Proof.
  destruct (ignored_column column_transformers extra_transformers sample_columns 1 PNone
              eq_refl eq_refl) as (Hturn & Hcompiled & Htable).
  split; [apply Hturn|]. split.
  - apply (Hcompiled (fields sample_columns sample_extras)); [reflexivity|].
    vm_compute. reflexivity.
  - apply (Htable "q" _
             match fst (compile_columns column_transformers "q" 1 sample_columns [] []) with
             | Ok (_, cd) => cd
             | Raise _ => []
             end
             (snd (compile_columns column_transformers "q" 1 sample_columns [] []))).
    vm_compute. reflexivity.
Defined.

(** Two columns named [a], two extras named [x]: the error cites the first
    of each pair. *)
Lemma duplicate_name_witness :
  fst (compile column_transformers extra_transformers
               (init (configuration twice_columns [])))
  = Raise (ValueError "the name a of q was already defined in column #1")
  /\ fst (compile column_transformers extra_transformers
                  (init (configuration [column "a" "source"] twice_extras)))
     = Raise (ValueError "the name x of q was already defined in extra #1")
  /\ raises (fst (compile column_transformers extra_transformers
                          (init (configuration untyped_first [])))).
Proof.
  assert (Hvalid : forall cols exts, cols <> [] ->
            fields_valid (fields cols exts) "q" "select 1" cols).
  { intros cols exts Hne. repeat split; try reflexivity; try discriminate; try exact Hne.
    right. exists []. reflexivity. }
  split; [|split].
  - destruct (duplicate_name column_transformers extra_transformers
                (fields twice_columns []) twice_columns [] "a" eq_refl eq_refl)
      as (_ & Hcolumn & _).
    apply (Hcolumn "q" "select 1" [column "a" "gauge"; PNone] (column "a" "source") []
                   (Column, 1)); try reflexivity.
    apply Hvalid. discriminate.
  - destruct (duplicate_name column_transformers extra_transformers
                (fields [column "a" "source"] twice_extras) [column "a" "source"]
                twice_extras "x" eq_refl eq_refl)
      as (_ & _ & Hextra).
    apply (Hextra "q" "select 1" [("a", (Column, 1))]
                  [(Some "a", Some (None, None))] [column "a" "source"]
                  [PDict [("name", PStr "x"); ("expression", PStr "a")]]
                  (PDict [("name", PStr "x"); ("expression", PStr "a + 1")]) []
                  (Extra, 1)); try reflexivity.
    + apply Hvalid. discriminate.
    + eexists. vm_compute. reflexivity.
  - destruct (duplicate_name column_transformers extra_transformers
                (fields untyped_first []) untyped_first [] "dup" eq_refl eq_refl)
      as (Hnever & _ & _).
    apply (Hnever 0 1 (PDict [("name", PStr "dup")]) (column "dup" "source"));
      [lia|reflexivity..].
Defined.

(** C1, as stated, fails: the two columns of [untyped_first] declare the
    name [dup], and the error [compile] raises is about the missing type of
    the first; it cites no definer and no index. *)
Lemma duplicate_not_reported :
  declared_name (PDict [("name", PStr "dup")]) = Some "dup"
  /\ declared_name (column "dup" "source") = Some "dup"
  /\ fst (compile column_transformers extra_transformers
                  (init (configuration untyped_first [])))
     = Raise (ValueError "field `type` for column dup of q is required")
  /\ contains "1" "field `type` for column dup of q is required" = false
  /\ contains "already defined" "field `type` for column dup of q is required" = false.
Proof. repeat split; vm_compute; reflexivity. Qed.

(** An extra of type [gauge] without a source. *)
Lemma extra_source_witness :
  raises (fst (compile column_transformers extra_transformers
                       (init (configuration [column "total" "source"] [PDict no_source]))))
  /\ fst (compile_extra extra_transformers (delete "tag" column_transformers) "q" 1
                        (PDict no_source) [("total", (Column, 1))])
     = Raise (ValueError "field `source` for extra capacity of q is required").
Proof.
  destruct (extra_source_required column_transformers extra_transformers
              (fields [column "total" "source"] [PDict no_source]) [PDict no_source]
              0 no_source "gauge" eq_refl eq_refl eq_refl) as (Hraises & Hturn).
  - eexists. vm_compute. reflexivity.
  - reflexivity.
  - split; [exact Hraises|].
    apply (Hturn "q" 1 [("total", (Column, 1))] "capacity"); [reflexivity|discriminate|reflexivity].
Defined.

(** C4, as stated, fails: the source [nowhere] of the extra is declared by
    no column and no extra, and [compile] succeeds. *)
Lemma undeclared_source_compiles :
  first_definer Column 1 [column "total" "source"] "nowhere" = None
  /\ first_definer Extra 1 [PDict undeclared_source] "nowhere" = None
  /\ fst (compile column_transformers extra_transformers
                  (init (configuration [column "total" "source"] [PDict undeclared_source])))
     = Ok tt.
Proof. repeat split; vm_compute; reflexivity. Qed.

(** With the adapter as the specification describes it, the missing source
    shows when the compiled extra is called on a row. *)
Example undeclared_source_at_row_time :
  match extras (snd (compile column_transformers extra_transformers
                             (init (configuration [column "total" "source"]
                                                  [PDict undeclared_source])))) with
  | Some [(_, transformer)] =>
      fst (transformer [PDict [("total", PInt 5)]] [] [])
      = Raise (Exc "KeyError" "'nowhere'")
  | _ => False
  end.
Proof. vm_compute. reflexivity. Qed.

(** A unit the table does not have is refused; a negative integer is
    taken. *)
Lemma temporal_percent_scale_witness :
  raises (fst (call_factory recursion_limit column_transformers
                            get_temporal_percent_factory "busy"
                            [("scale", PStr "fortnight")]))
  /\ fst (get_temporal_percent column_transformers
                               (call_factory recursion_limit column_transformers)
                               "busy" [("scale", PInt (-5))])
     = Ok (temporal_percent (submit "rate" "busy") (PInt (-5)))
  /\ fst (get_temporal_percent column_transformers
                               (call_factory recursion_limit column_transformers)
                               "busy" [("scale", PStr "Millisecond")])
     = Ok (temporal_percent (submit "rate" "busy") (PInt 1000)).
Proof.
  split; [|split].
  - destruct (temporal_percent_scale column_transformers "busy"
                [("scale", PStr "fortnight")]) as (Hrefused & _ & _).
    apply Hrefused. vm_compute. reflexivity.
  - destruct (temporal_percent_scale column_transformers "busy"
                [("scale", PInt (-5))]) as (_ & Hint & _).
    rewrite (Hint _ (PInt (-5)) eq_refl eq_refl). vm_compute. reflexivity.
  - destruct (temporal_percent_scale column_transformers "busy"
                [("scale", PStr "Millisecond")]) as (_ & _ & Hunit).
    rewrite (Hunit _ "Millisecond" 1000%Z eq_refl); vm_compute; reflexivity.
Defined.

(** C5, as stated, fails: with the scale [0], and with a negative one, the
    factory raises nothing and answers with a transform. *)
Lemma non_positive_scale_accepted :
  fst (call_factory recursion_limit column_transformers get_temporal_percent_factory
                    "busy" [("scale", PInt 0)])
  = Ok (temporal_percent (submit "rate" "busy") (PInt 0))
  /\ fst (call_factory recursion_limit column_transformers get_temporal_percent_factory
                       "busy" [("scale", PInt (-1000))])
     = Ok (temporal_percent (submit "rate" "busy") (PInt (-1000))).
Proof. split; vm_compute; reflexivity. Qed.

(** The composition over the gauge and the monotonic count of the fixture
    submits the value twice, the gauge first. *)
Lemma monotonic_gauge_witness :
  get_monotonic_gauge column_transformers (call_factory 5 column_transformers) "reads"
                      [("tags", PList [PStr "env:prod"])]
  = (Ok (monotonic_gauge (submit "gauge" "reads.total")
                         (submit "monotonic_count" "reads.count")),
     [("tags", PList [PStr "env:prod"])])
  /\ monotonic_gauge (submit "gauge" "reads.total") (submit "monotonic_count" "reads.count")
                     [PInt 7] [] []
     = (Ok PNone, [("gauge", "reads.total", "7"); ("monotonic_count", "reads.count", "7")]).
Proof.
  destruct (monotonic_gauge_composes column_transformers
              (call_factory 5 column_transformers) "reads"
              [("tags", PList [PStr "env:prod"])] [("tags", PList [PStr "env:prod"])]
              [("tags", PList [PStr "env:prod"])] (supplied 0) (supplied 2)
              (submit "gauge" "reads.total") (submit "monotonic_count" "reads.count"))
    as (Hbuilt & _ & Hcall); try (vm_compute; reflexivity).
  split; [exact Hbuilt|].
  rewrite (Hcall (PInt 7) [] [] [] eq_refl). reflexivity.
Defined.

(** The item [OK] submits the value of its source; another text, or a
    number, submits nothing. *)
Lemma match_dispatch_witness :
  match_ ok_items [PStr "OK"; PDict [("status", PInt 3)]] [] []
  = (Ok PNone, [("monotonic_count", "ok_count", "3")])
  /\ match_ ok_items [PStr "DOWN"; PDict [("status", PInt 3)]] [] [] = (Ok PNone, [])
  /\ match_ ok_items [PInt 3; PDict [("status", PInt 3)]] [] [] = (Ok PNone, []).
Proof.
  split; [|split].
  - destruct (match_dispatch ok_items (PStr "OK") (PDict [("status", PInt 3)]) [] [] []
                eq_refl eq_refl) as (Hkey & _).
    rewrite (Hkey "OK" "status" (submit "monotonic_count" "ok_count") (PInt 3)
                  eq_refl eq_refl eq_refl).
    reflexivity.
  - destruct (match_dispatch ok_items (PStr "DOWN") (PDict [("status", PInt 3)]) [] [] []
                eq_refl eq_refl) as (_ & Hnone).
    apply Hnone; [discriminate..|]. intros item Hitem. injection Hitem as <-. reflexivity.
  - destruct (match_dispatch ok_items (PInt 3) (PDict [("status", PInt 3)]) [] [] []
                eq_refl eq_refl) as (_ & Hnone).
    apply Hnone; discriminate.
Defined.

(** C8, as stated, fails: a raw value that is a list is no key of the
    items, and the call raises; and when the source map lacks the source of
    the item, the call raises and the transform of the item is not
    called. *)
Lemma unhashable_value_raises :
  match_ ok_items [PList []; PDict [("status", PInt 3)]] [] []
  = (Raise (Exc "TypeError" "unhashable type: 'list'"), [])
  /\ match_ ok_items [PStr "OK"; PDict []] [] []
     = (Raise (Exc "KeyError" "'status'"), []).
Proof. split; vm_compute; reflexivity. Qed.


(** ** The configuration [sample], compiled *)

Lemma fields_are_valid (cols exts : list pyval) :
  cols <> [] -> fields_valid (fields cols exts) "q" "select 1" cols.
Proof.
  intros Hne. repeat split; try reflexivity; try discriminate; try exact Hne.
  right. exists []. reflexivity.
Qed.

(** The names of [sample] are pairwise distinct. *)
Lemma compiled_names_unique_witness :
  NoDup (omap declared_name (sample_columns ++ sample_extras)%list).
Proof.
  apply (compiled_names_unique column_transformers extra_transformers
           (fields sample_columns sample_extras) sample_columns sample_extras
           (snd (compile column_transformers extra_transformers (init sample))));
    vm_compute; reflexivity.
Defined.

(** What [compile] assigns for [sample]. *)
Lemma compile_assigns_witness :
  query_data (snd (compile column_transformers extra_transformers (init sample))) = None
  /\ name (snd (compile column_transformers extra_transformers (init sample))) = Some "q"
  /\ query (snd (compile column_transformers extra_transformers (init sample)))
     = Some "select 1"
  /\ tags (snd (compile column_transformers extra_transformers (init sample))) = Some []
  /\ exists cd ed,
       columns (snd (compile column_transformers extra_transformers (init sample))) = Some cd
       /\ extras (snd (compile column_transformers extra_transformers (init sample)))
          = Some ed
       /\ map fst cd = [Some "used"; None; Some "total"; Some "host"; Some "status"]
       /\ map fst ed = ["ratio"; "share"; "capacity"].
Proof.
  destruct (compile_assigns column_transformers extra_transformers
              (fields sample_columns sample_extras)
              (snd (compile column_transformers extra_transformers (init sample))))
    as (qn & q & cols & exts & cd & ed & Hn & Hq & Hcols & Hexts & Hdata & Hname & Hquery
        & Hcd & Hed & Hkeys & Hxkeys & Htags).
  { vm_compute. reflexivity. }
  injection Hn as <-. injection Hq as <-. injection Hcols as <-. injection Hexts as <-.
  split; [exact Hdata|]. split; [exact Hname|]. split; [exact Hquery|].
  split; [exact Htags|].
  exists cd, ed. split; [exact Hcd|]. split; [exact Hed|]. split; [exact Hkeys|].
  assert (Hsome : map Some (map fst ed) = map Some ["ratio"; "share"; "capacity"])
    by (rewrite map_map; exact Hxkeys).
  clear -Hsome. revert Hsome. generalize (map fst ed). intros l Hl.
  destruct l as [|a [|b [|c [|d l]]]]; try discriminate.
  injection Hl as -> -> ->. reflexivity.
Defined.

(** The fourth column of [sample] is a tag, the third a plain source. *)
Lemma compiled_bindings_witness :
  (exists cd binding,
      columns (snd (compile column_transformers extra_transformers (init sample))) = Some cd
      /\ cd !! 3 = Some (Some "host", Some binding)
      /\ fst binding = Some "tag")
  /\ exists cd,
       columns (snd (compile column_transformers extra_transformers (init sample))) = Some cd
       /\ cd !! 2 = Some (Some "total", Some (None, None)).
Proof.
  split.
  - destruct (compiled_bindings column_transformers extra_transformers
                (fields sample_columns sample_extras) sample_columns
                (snd (compile column_transformers extra_transformers (init sample)))
                3 [("name", PStr "host"); ("type", PStr "tag")] "host" "tag")
      as (cd & binding & Hcd & Hj & _ & Hother); try (vm_compute; reflexivity).
    exists cd, binding. split; [exact Hcd|]. split; [exact Hj|].
    destruct Hother as (f & t & _ & _ & ->); [discriminate|reflexivity].
  - destruct (compiled_bindings column_transformers extra_transformers
                (fields sample_columns sample_extras) sample_columns
                (snd (compile column_transformers extra_transformers (init sample)))
                2 [("name", PStr "total"); ("type", PStr "source")] "total" "source")
      as (cd & binding & Hcd & Hj & Hsource & _); try (vm_compute; reflexivity).
    exists cd. split; [exact Hcd|]. rewrite Hj, (Hsource eq_refl). reflexivity.
Defined.

(** Without [tag] in the registry of the columns, one gauge column is
    enough for the [KeyError]. *)
Lemma tag_must_be_registered_witness :
  fst (compile (delete "tag" column_transformers) extra_transformers
               (init (configuration [column "used" "gauge"] [])))
  = Raise (KeyError "tag").
Proof.
  destruct (tag_must_be_registered (delete "tag" column_transformers) extra_transformers)
    as [_ Hkey]; [vm_compute; reflexivity|].
  apply (Hkey (fields [column "used" "gauge"] []) "q" "select 1" [column "used" "gauge"]
              [("used", (Column, 1))]
              [(Some "used", Some (None, Some (submit "gauge" "used")))]
              [column "used" "gauge"]).
  - apply fields_are_valid. discriminate.
  - vm_compute. reflexivity.
Defined.

(** An extra of the type [tag]. *)
Lemma tag_is_no_extra_type_witness :
  raises (fst (compile column_transformers extra_transformers
                       (init (configuration [column "used" "gauge"]
                                            [PDict [("name", PStr "where");
                                                    ("type", PStr "tag");
                                                    ("source", PStr "used")]]))))
  /\ fst (compile_extra extra_transformers (delete "tag" column_transformers) "q" 1
                        (PDict [("name", PStr "where"); ("type", PStr "tag");
                                ("source", PStr "used")])
                        [("used", (Column, 1))])
     = Raise (ValueError "unknown type `tag` for extra where of q").
Proof.
  destruct (tag_is_no_extra_type column_transformers extra_transformers
              (fields [column "used" "gauge"]
                      [PDict [("name", PStr "where"); ("type", PStr "tag");
                              ("source", PStr "used")]])
              [PDict [("name", PStr "where"); ("type", PStr "tag");
                      ("source", PStr "used")]]
              0 [("name", PStr "where"); ("type", PStr "tag"); ("source", PStr "used")])
    as (Hraises & Hturn); try (vm_compute; reflexivity).
  split; [exact Hraises|].
  apply (Hturn "q" 1 [("used", (Column, 1))] "where");
    [reflexivity|discriminate|reflexivity].
Defined.

(** [Query(None)] and [Query({})]. *)
Lemma name_is_required_witness :
  query_data (init PNone) = Some (PDict [])
  /\ fst (compile column_transformers extra_transformers (init PNone))
     = Raise (ValueError "query field `name` is required")
  /\ fst (compile column_transformers extra_transformers
                  (init (PDict [("query", PStr "select 1")])))
     = Raise (ValueError "query field `name` is required").
Proof.
  destruct (name_is_required column_transformers extra_transformers) as [Hfalsy Hdata].
  destruct (Hfalsy PNone eq_refl) as [Hstored Hraise].
  split; [exact Hstored|]. split; [exact Hraise|].
  apply (Hdata [("query", PStr "select 1")]). reflexivity.
Defined.

(** [extras: null] in the configuration. *)
Lemma extras_must_be_a_list_witness :
  fst (compile column_transformers extra_transformers
               (init (PDict [("name", PStr "q"); ("query", PStr "select 1");
                             ("columns", PList [column "used" "gauge"]);
                             ("extras", PNone)])))
  = Raise (ValueError "field `extras` for q must be a list").
Proof.
  apply (extras_must_be_a_list column_transformers extra_transformers
           [("name", PStr "q"); ("query", PStr "select 1");
            ("columns", PList [column "used" "gauge"]); ("extras", PNone)]
           "q" "select 1" [column "used" "gauge"] [column "used" "gauge"]
           [("used", (Column, 1))]
           [(Some "used", Some (None, Some (submit "gauge" "used")))]
           PNone).
  - repeat split; try reflexivity; try discriminate. right. exists []. reflexivity.
  - vm_compute. reflexivity.
  - eexists. vm_compute. reflexivity.
  - reflexivity.
  - discriminate.
Defined.

(** A [temporal_percent] column without a scale. *)
Lemma factory_error_is_wrapped_witness :
  fst (compile column_transformers extra_transformers
               (init (configuration [column "busy" "temporal_percent"] [])))
  = Raise (ValueError ("error compiling type `temporal_percent` for column busy of q: "
                       +:+ "the `scale` parameter is required")).
Proof.
  destruct (factory_error_is_wrapped column_transformers extra_transformers
              (fields [column "busy" "temporal_percent"] []) "q" "select 1"
              [] [] [] [("name", PStr "busy"); ("type", PStr "temporal_percent")] [] []
              "busy" "temporal_percent" get_temporal_percent_factory
              "ValueError" "the `scale` parameter is required")
    as (text & Herr & Htext).
  - apply (fields_are_valid [column "busy" "temporal_percent"] []). discriminate.
  - vm_compute. reflexivity.
  - reflexivity.
  - discriminate.
  - reflexivity.
  - reflexivity.
  - discriminate.
  - discriminate.
  - reflexivity.
  - vm_compute. reflexivity.
  - unfold configuration. rewrite Herr, Htext by discriminate. reflexivity.
Defined.

(** ** The items of [status_column] *)

Lemma match_items_compiled_witness :
  Forall2 (compiles_to column_transformers (call_factory 5 column_transformers)
                       (PStr "total") [])
          [("OK", PDict [("name", PStr "ok_count"); ("type", PStr "monotonic_count")])]
          [("OK", ("total", submit "monotonic_count" "ok_count"))].
Proof.
  apply (match_items_compiled column_transformers (call_factory 5 column_transformers)
           [("source", PStr "total");
            ("items", PDict [("OK", PDict [("name", PStr "ok_count");
                                           ("type", PStr "monotonic_count")])])]
           [("source", PStr "total"); ("items", PDict [("OK", PDict [])])]).
  - reflexivity.
  - apply (NoDup_singleton "OK").
  - vm_compute. reflexivity.
Defined.

Lemma match_consumes_items_witness :
  exists items',
    get "items" [("source", PStr "total"); ("items", PDict [("OK", PDict [])])]
    = PDict items'
    /\ map fst items' = ["OK"]
    /\ Forall (fun kv => consumed (snd kv)) items'.
Proof.
  apply (match_consumes_items column_transformers (call_factory 5 column_transformers)
           [("source", PStr "total");
            ("items", PDict [("OK", PDict [("name", PStr "ok_count");
                                           ("type", PStr "monotonic_count")])])]
           [("source", PStr "total"); ("items", PDict [("OK", PDict [])])]
           [("OK", PDict [("name", PStr "ok_count"); ("type", PStr "monotonic_count")])]
           [("OK", ("total", submit "monotonic_count" "ok_count"))]).
  - reflexivity.
  - vm_compute. reflexivity.
Defined.

(** ** Expressions *)

Lemma substitution_leaves_other_text_witness :
  substitute (sources_value [("used", (Column, 1)); ("total", (Column, 2))]) "1 + 2"
  = Ok "1 + 2".
Proof.
  apply (substitution_leaves_other_text
           [("used", (Column, 1)); ("total", (Column, 2))] "1 + 2").
  - discriminate.
  - intros n [<-|[<-|[]]]; (split; [discriminate|reflexivity]).
Defined.

(** The name [ab] where [a] is declared first. *)
Lemma substitution_whole_name_witness :
  substitute (sources_value [("a", (Column, 1)); ("ab", (Column, 2)); ("abc", (Extra, 1))])
             "ab"
  = Ok (reference "ab").
Proof.
  apply (substitution_whole_name
           [("a", (Column, 1)); ("ab", (Column, 2)); ("abc", (Extra, 1))] "ab").
  - simpl. tauto.
  - intros m [<-|[<-|[<-|[]]]]; discriminate.
Defined.

(** ** [percent] *)

Lemma percent_sources_available_witness :
  exists part total,
    get "part" [("sources", PDict [("used", PNone); ("total", PNone)]);
                ("part", PStr "used"); ("total", PStr "total")] = PStr part
    /\ get "total" [("sources", PDict [("used", PNone); ("total", PNone)]);
                    ("part", PStr "used"); ("total", PStr "total")] = PStr total
    /\ has_key part [("used", PNone); ("total", PNone)] = true
    /\ has_key total [("used", PNone); ("total", PNone)] = true.
Proof.
  apply (percent_sources_available 5 column_transformers "share"
           [("sources", PDict [("used", PNone); ("total", PNone)]);
            ("part", PStr "used"); ("total", PStr "total")]
           [("used", PNone); ("total", PNone)]
           (percent (create_extra_transformer (submit "gauge" "share") PNone)
                    "used" "total")
           [("sources", PDict [("used", PNone); ("total", PNone)]);
            ("part", PStr "used"); ("total", PStr "total")]).
  - reflexivity.
  - vm_compute. reflexivity.
Defined.

(** The extra [share] of [sample]. *)
Lemma percent_extra_sources_witness :
  exists part total,
    get "part" [("name", PStr "share"); ("type", PStr "percent");
                ("part", PStr "used"); ("total", PStr "total")] = PStr part
    /\ get "total" [("name", PStr "share"); ("type", PStr "percent");
                    ("part", PStr "used"); ("total", PStr "total")] = PStr total
    /\ In part (omap declared_name (sample_columns ++ take 2 sample_extras)%list)
    /\ In total (omap declared_name (sample_columns ++ take 2 sample_extras)%list).
Proof.
  apply (percent_extra_sources column_transformers extra_transformers
           (fields sample_columns sample_extras) sample_columns sample_extras
           (snd (compile column_transformers extra_transformers (init sample))) 1
           [("name", PStr "share"); ("type", PStr "percent");
            ("part", PStr "used"); ("total", PStr "total")]);
    vm_compute; reflexivity.
Defined.

(** ** A registry that loops *)

Lemma monotonic_gauge_as_gauge_witness :
  call_factory 50 (<["gauge" := get_monotonic_gauge_factory]> column_transformers)
               get_monotonic_gauge_factory "reads" [("tags", PList [])]
  = (Raise (interp_raise RecursionDepth), [("tags", PList [])]).
Proof.
  apply (monotonic_gauge_as_gauge
           (<["gauge" := get_monotonic_gauge_factory]> column_transformers) 50 "reads"
           [("tags", PList [])]);
    vm_compute; reflexivity.
Defined.


(** What is left of [half_compiled]. *)
Lemma failed_compile_keeps_fields_witness :
  exists data',
    query_data (snd (compile column_transformers extra_transformers (init half_compiled)))
    = Some (PDict data')
    /\ same_fields (fields [status_column; PDict [("name", PStr "b")]] []) data'.
Proof.
  apply (failed_compile_keeps_fields column_transformers extra_transformers
           (fields [status_column; PDict [("name", PStr "b")]] [])
           (ValueError "field `type` for column b of q is required")).
  vm_compute. reflexivity.
Defined.

End Examples.
